(** * Hiring dashboard: the synchronisation and mutation layer of [app.py]

    A shallow embedding of the functions of [src/app.py] that talk to the
    remote spreadsheet (retry executor, worksheet resolver, loader, score
    engine, score update and the three stage transitions), and the
    properties the specification states about them.

    Conventions of the embedding:
    - Python numbers are exact rationals ([Q]); [None] and [NaN] are
      separate values.
    - A Python [dict] is an insertion-ordered association list.
    - Code that raises returns [Raise e]; code that talks to the store or
      to the console threads a [world].
    - Row positions and [max_retries] are natural numbers.
    - The remote store (gspread) is not part of the repository: it is
      modelled as an in-memory spreadsheet that logs every request it
      receives and can be told to fail chosen requests; a failed request
      leaves the spreadsheet as it was. *)

From Stdlib Require Import List String Ascii Bool Arith ZArith QArith Qround.
From Stdlib Require Import DecimalString Lia Lqa.
Import ListNotations.
Open Scope string_scope.
Open Scope list_scope.
Open Scope nat_scope.

Set Implicit Arguments.

(** ** Strings *)

Definition lower_ascii (c : ascii) : ascii :=
  let n := nat_of_ascii c in
  if ((65 <=? n) && (n <=? 90))%nat then ascii_of_nat (n + 32) else c.

(** [str.lower()], on the ASCII range. *)
Fixpoint lower (s : string) : string :=
  match s with
  | EmptyString => EmptyString
  | String c t => String (lower_ascii c) (lower t)
  end.

(** [needle in hay] for strings. *)
Fixpoint contains (needle hay : string) : bool :=
  if prefix needle hay then true
  else match hay with
       | EmptyString => false
       | String _ t => contains needle t
       end.

(** [x in xs] and [xs.index(x)] for lists of strings. *)
Fixpoint str_in (x : string) (xs : list string) : bool :=
  match xs with
  | [] => false
  | y :: t => if String.eqb x y then true else str_in x t
  end.

Fixpoint str_index (x : string) (xs : list string) : nat :=
  match xs with
  | [] => 0
  | y :: t => if String.eqb x y then 0 else S (str_index x t)
  end.

(** ** Values, dictionaries, exceptions *)

Inductive value : Type :=
| VNone
| VNaN
| VNum (q : Q)
| VStr (s : string).

(** [pd.isna(v)] on a scalar. *)
Definition isna (v : value) : bool :=
  match v with
  | VNone | VNaN => true
  | VNum _ | VStr _ => false
  end.

(** Python truthiness: [None], [0] and [''] are false, [NaN] is true. *)
Definition truthy (v : value) : bool :=
  match v with
  | VNone => false
  | VNaN => true
  | VNum q => negb (Qeq_bool q 0)
  | VStr s => negb (String.eqb s "")
  end.

Definition dict : Type := list (string * value).

(** [d.get(k, default)] *)
Fixpoint dict_get (d : dict) (k : string) (default : value) : value :=
  match d with
  | [] => default
  | (k', v) :: t => if String.eqb k k' then v else dict_get t k default
  end.

(** [d[k] = v]: overwrite in place, or insert at the end. *)
Fixpoint dict_set (d : dict) (k : string) (v : value) : dict :=
  match d with
  | [] => [(k, v)]
  | (k', v') :: t =>
      if String.eqb k k' then (k', v) :: t else (k', v') :: dict_set t k v
  end.

Definition dict_keys (d : dict) : list string := map fst d.

(** [dict(zip(keys, vals))] *)
Definition to_dict (keys : list string) (vals : list value) : dict :=
  fold_left (fun d kv => dict_set d (fst kv) (snd kv)) (combine keys vals) [].

Inductive exn_class : Type :=
| APIError
| WorksheetNotFound
| IndexError
| KeyError
| ValueError.

(** An exception object: its class and [str(e)]. *)
Record exn : Type := mkExn { exn_kind : exn_class; exn_str : string }.

Inductive outcome (A : Type) : Type :=
| Ret (a : A)
| Raise (e : exn).
Arguments Ret {A} a.
Arguments Raise {A} e.

Definition is_ret {A} (o : outcome A) : bool :=
  match o with Ret _ => true | Raise _ => false end.

(** ** Constants of [app.py] *)

Definition SHEET_NAME : string := "Tread Hiring".
Definition DENIED_SHEET_NAME : string := "Denied Applicants".
Definition HIRED_SHEET_NAME : string := "Hired Applicants".

Definition SKILL_COLUMNS : list string :=
  [ "Throwing Skill"; "Strength Skill"; "Data Skill";
    "Aptitude"; "Professionalism"; "Culture Fit"; "Trust" ].

(** The header list built in [get_or_create_worksheet] and in
    [load_applicants_data]. *)
Definition canonical_columns : list string :=
  ["name"; "date of application"; "date of birth"]
    ++ SKILL_COLUMNS ++ ["Applicant Score"].

(** ** The remote store *)

(** A worksheet is its grid of rows; row 1 (the head of the list) is the
    header row. *)
Definition worksheet : Type := list (list value).

(** One entry of a batched write: the two parts of the A1 address
    [f'{chr(64 + col_index)}{sheet_row}'] (the code point of the column
    character and the row number) and the value written. *)
Record cell_update : Type := mkUpdate {
  upd_chr : nat;
  upd_row : nat;
  upd_value : value
}.

Inductive request : Type :=
| ReqWorksheet (title : string)
| ReqAddWorksheet (title : string) (rows cols : nat)
| ReqRowValues (title : string) (row : nat)
| ReqGetAllRecords (title : string)
| ReqBatchUpdate (title : string) (updates : list cell_update)
| ReqAppendRow (title : string) (values : list string)
| ReqDeleteRows (title : string) (index : nat).

(** The store: the worksheets by title, the schedule of injected API
    failures (one entry per request, [Some msg] fails that request with an
    [APIError] whose text is [msg] and leaves the store as it is), and the
    log of requests received, each with whether it was served. *)
Record store : Type := mkStore {
  sheets : list (string * worksheet);
  faults : list (option string);
  served : list (request * bool)
}.

Definition store_action (A : Type) : Type := store -> outcome A * store.

Fixpoint find_sheet (ss : list (string * worksheet)) (title : string)
  : option worksheet :=
  match ss with
  | [] => None
  | (t, g) :: rest => if String.eqb title t then Some g else find_sheet rest title
  end.

Fixpoint put_sheet (ss : list (string * worksheet)) (title : string)
  (g : worksheet) : list (string * worksheet) :=
  match ss with
  | [] => []
  | (t, g') :: rest =>
      if String.eqb title t then (t, g) :: rest
      else (t, g') :: put_sheet rest title g
  end.

(** The next entry of the failure schedule; an exhausted schedule injects
    nothing. *)
Definition next_fault (fs : list (option string))
  : option string * list (option string) :=
  match fs with
  | [] => (None, [])
  | f :: rest => (f, rest)
  end.

(** A request: logged, failed if the schedule says so, served otherwise. *)
Definition remote_call {A} (r : request)
  (serve : list (string * worksheet) -> outcome A * list (string * worksheet))
  : store_action A :=
  fun s =>
    let (f, fs) := next_fault (faults s) in
    match f with
    | Some msg =>
        (Raise (mkExn APIError msg),
         mkStore (sheets s) fs (served s ++ [(r, false)]))
    | None =>
        let (o, ss) := serve (sheets s) in
        (o, mkStore ss fs (served s ++ [(r, is_ret o)]))
    end.

(** The API error for a worksheet title the store cannot serve: one it
    does not hold or, on [add_worksheet], one it holds already. *)
Definition title_error (title : string) : exn := mkExn APIError title.

(** ** Console and world *)

(** The messages [app.py] shows, one constructor per call site, carrying
    what the f-string interpolates. *)
Inductive ui_msg : Type :=
| WarnRateLimitRetry (delay : Q) (attempt max_retries : nat)
| ErrRateLimitExceeded
| ErrLoadingData (msg : string)
| ErrScoresRateLimited
| OkScoresUpdated (name : value)
| ErrUpdatingScores (msg : string)
| OkMovedToDenied (name : value)
| OkMovedToHired (name : value)
| OkReinstated (name : value)
| ErrMovingApplicant (msg : string)
| ErrReinstating (msg : string).

(** What the executor and the operations do besides store requests.
    [EvInvoke] marks each call [func()] made by [retry_api_call]. *)
Inductive event : Type :=
| EvInvoke
| EvSleep (d : Q)
| EvUi (m : ui_msg).

(** [jitter] holds the coming results of [random.uniform(0, 1)]. *)
Record world : Type := mkWorld {
  remote : store;
  jitter : list Q;
  events : list event
}.

Definition M (A : Type) : Type := world -> outcome A * world.

Definition ret {A} (a : A) : M A := fun w => (Ret a, w).

Definition raise {A} (e : exn) : M A := fun w => (Raise e, w).

Definition bind {A B} (c : M A) (k : A -> M B) : M B :=
  fun w =>
    match c w with
    | (Ret a, w') => k a w'
    | (Raise e, w') => (Raise e, w')
    end.

(** [try: c  except Exception as e: h e] *)
Definition try_except {A} (c : M A) (h : exn -> M A) : M A :=
  fun w =>
    match c w with
    | (Ret a, w') => (Ret a, w')
    | (Raise e, w') => h e w'
    end.

Notation "x <- c ;; k" := (bind c (fun x => k))
  (at level 61, c at next level, right associativity).
Notation "c ;; k" := (bind c (fun _ => k))
  (at level 61, right associativity).

(** A pure computation that may raise. *)
Definition lift_outcome {A} (o : outcome A) : M A := fun w => (o, w).

(** A store request made from the application. *)
Definition lift_store {A} (c : store_action A) : M A :=
  fun w =>
    let (o, s) := c (remote w) in
    (o, mkWorld s (jitter w) (events w)).

Definition emit (e : event) : M unit :=
  fun w => (Ret tt, mkWorld (remote w) (jitter w) (events w ++ [e])).

Definition st_warning (m : ui_msg) : M unit := emit (EvUi m).
Definition st_error (m : ui_msg) : M unit := emit (EvUi m).
Definition st_success (m : ui_msg) : M unit := emit (EvUi m).
Definition time_sleep (d : Q) : M unit := emit (EvSleep d).

(** [random.uniform(0, 1)] *)
Definition random_uniform01 : M Q :=
  fun w =>
    match jitter w with
    | [] => (Ret 0%Q, w)
    | j :: js => (Ret j, mkWorld (remote w) js (events w))
    end.

(** ** [retry_api_call] *)

(** The test on [str(e).lower()]. *)
Definition is_rate_limit (e : exn) : bool :=
  let error_str := lower (exn_str e) in
  contains "quota exceeded" error_str
  || contains "429" error_str
  || contains "rate limit" error_str.

(** The call [func()]: [func] acts on the store only. *)
Definition invoke {A} (func : store_action A) : M A :=
  emit EvInvoke ;; lift_store func.

(** [base_delay * (2 ** attempt)] *)
Definition backoff (base_delay : Q) (attempt : nat) : Q :=
  base_delay * inject_Z (2 ^ Z.of_nat attempt).

(** The body of the [for] loop, over the attempts still to make. *)
Fixpoint retry_attempts {A} (func : store_action (option A))
  (max_retries : nat) (base_delay : Q) (attempts : list nat)
  : M (option A) :=
  match attempts with
  | [] => ret None
  | attempt :: rest =>
      try_except (invoke func)
        (fun e =>
           if is_rate_limit e then
             if (attempt <? max_retries - 1)%nat then
               u <- random_uniform01 ;;
               let delay := (backoff base_delay attempt + u)%Q in
               st_warning (WarnRateLimitRetry delay (attempt + 1) max_retries) ;;
               time_sleep delay ;;
               retry_attempts func max_retries base_delay rest
             else
               st_error ErrRateLimitExceeded ;;
               ret None
           else raise e)
  end.

Definition retry_api_call {A} (func : store_action (option A))
  (max_retries : nat) (base_delay : Q) : M (option A) :=
  retry_attempts func max_retries base_delay (seq 0 max_retries).

(** The defaults [max_retries=3, base_delay=1]. *)
Definition retry_api_call_default {A} (func : store_action (option A))
  : M (option A) :=
  retry_api_call func 3 1.

(** ** In-memory tables *)

(** A [pd.DataFrame] with a default [RangeIndex]: column labels and rows. *)
Record DataFrame : Type := mkDF {
  df_columns : list string;
  df_rows : list (list value)
}.

(** [pd.DataFrame()] *)
Definition empty_df : DataFrame := mkDF [] [].

(** [df.iloc[i].to_dict()] *)
Definition df_iloc (df : DataFrame) (i : nat) : outcome dict :=
  match nth_error (df_rows df) i with
  | Some r => Ret (to_dict (df_columns df) r)
  | None =>
      Raise (mkExn IndexError "single positional indexer is out-of-bounds")
  end.

(** [d[k]] *)
Definition dict_getitem (d : dict) (k : string) : outcome value :=
  if str_in k (dict_keys d) then Ret (dict_get d k VNone)
  else Raise (mkExn KeyError k).

(** The column labels of [pd.DataFrame(records)]: the keys of the records
    in order of first appearance. *)
Definition record_columns (records : list dict) : list string :=
  fold_left
    (fun cols rec =>
       fold_left (fun cs k => if str_in k cs then cs else cs ++ [k])
                 (dict_keys rec) cols)
    records [].

(** [pd.DataFrame(records)]; a key a record lacks reads as NaN. *)
Definition df_of_records (records : list dict) : DataFrame :=
  let cols := record_columns records in
  mkDF cols (map (fun rec => map (fun c => dict_get rec c VNaN) cols) records).

(** [df[col] = f(df[col])], with [f] taken value by value. *)
Definition map_column (f : value -> value) (col : string) (df : DataFrame)
  : DataFrame :=
  mkDF (df_columns df)
       (map (fun r =>
               map (fun cv => if String.eqb (fst cv) col then f (snd cv)
                              else snd cv)
                   (combine (df_columns df) r))
            (df_rows df)).

(** ** Numbers *)

(** Rounding to the nearest integer, ties to even. *)
Definition round_half_even (x : Q) : Z :=
  let f := Qfloor x in
  match (x - inject_Z f ?= 1 # 2)%Q with
  | Lt => f
  | Gt => (f + 1)%Z
  | Eq => if Z.even f then f else (f + 1)%Z
  end.

(** [round(x, 2)] *)
Definition py_round2 (x : Q) : Q := round_half_even (x * 100) # 100.

Definition sum_Q (xs : list Q) : Q := fold_left Qplus xs 0%Q.

(** [np.mean(xs)] of a non-empty list. *)
Definition np_mean (xs : list Q) : Q :=
  (sum_Q xs / inject_Z (Z.of_nat (List.length xs)))%Q.

(** Writing one cell of a grid, padding with empty rows and cells. *)
Fixpoint set_nth {A} (n : nat) (x pad : A) (l : list A) : list A :=
  match n, l with
  | O, [] => [x]
  | O, _ :: t => x :: t
  | S n', [] => pad :: set_nth n' x pad []
  | S n', h :: t => h :: set_nth n' x pad t
  end.

Definition grid_set (g : worksheet) (r c : nat) (v : value) : worksheet :=
  set_nth (r - 1) (set_nth (c - 1) v (VStr "") (nth (r - 1) g [])) [] g.

(** [delete_rows(index)] on a grid. *)
Definition grid_delete (g : worksheet) (index : nat) : worksheet :=
  firstn (index - 1) g ++ skipn index g.

(** An address the store can parse: one letter [A]..[Z] and a row from 1. *)
Definition valid_address (u : cell_update) : bool :=
  ((65 <=? upd_chr u) && (upd_chr u <=? 90) && (1 <=? upd_row u))%nat.

Definition apply_update (g : worksheet) (u : cell_update) : worksheet :=
  grid_set g (upd_row u) (upd_chr u - 64) (upd_value u).

Section App.

(** Library functions the program calls and the repository does not
    define: [str(x)] of a number, [float(s)] of a string ([None] when it
    raises [ValueError]), and the two pandas coercions with
    [errors='coerce'], value by value. *)
Variable str_num : Q -> string.
Variable float_str : string -> option Q.
Variable to_datetime : value -> value.
Variable to_numeric : value -> value.

(** [str(v)] *)
Definition py_str (v : value) : string :=
  match v with
  | VNone => "None"
  | VNaN => "nan"
  | VNum q => str_num q
  | VStr s => s
  end.

(** [float(v)]. The one call site guards it with
    [score and not pd.isna(score)], so [None] and NaN never reach it. *)
Definition py_float (v : value) : outcome Q :=
  match v with
  | VNum q => Ret q
  | VStr s =>
      match float_str s with
      | Some q => Ret q
      | None => Raise (mkExn ValueError s)
      end
  | VNone | VNaN => Raise (mkExn ValueError "float")
  end.

(** *** The store's operations, as gspread offers them *)

(** [spreadsheet.worksheet(title)]; the handle of a worksheet is its title. *)
Definition sp_worksheet (title : string) : store_action string :=
  remote_call (ReqWorksheet title)
    (fun ss =>
       match find_sheet ss title with
       | Some _ => (Ret title, ss)
       | None => (Raise (mkExn WorksheetNotFound title), ss)
       end).

(** [spreadsheet.add_worksheet(title, rows, cols)] *)
Definition sp_add_worksheet (title : string) (rows cols : nat)
  : store_action string :=
  remote_call (ReqAddWorksheet title rows cols)
    (fun ss =>
       match find_sheet ss title with
       | Some _ => (Raise (title_error title), ss)
       | None => (Ret title, ss ++ [(title, [])])
       end).

(** [worksheet.row_values(row)] *)
Definition ws_row_values (ws : string) (row : nat)
  : store_action (list string) :=
  remote_call (ReqRowValues ws row)
    (fun ss =>
       match find_sheet ss ws with
       | Some g => (Ret (map py_str (nth (row - 1) g [])), ss)
       | None => (Raise (title_error ws), ss)
       end).

(** One record of [get_all_records]: the header's keys against the row,
    short rows padded with [''] *)
Definition record_of (keys : list string) (r : list value) : dict :=
  to_dict keys (map (fun i => nth i r (VStr "")) (seq 0 (List.length keys))).

(** [worksheet.get_all_records()] *)
Definition ws_get_all_records (ws : string) : store_action (list dict) :=
  remote_call (ReqGetAllRecords ws)
    (fun ss =>
       match find_sheet ss ws with
       | Some [] => (Ret [], ss)
       | Some (header :: rows) =>
           (Ret (map (record_of (map py_str header)) rows), ss)
       | None => (Raise (title_error ws), ss)
       end).

(** [worksheet.batch_update(updates)]: all the cells or none. *)
Definition ws_batch_update (ws : string) (updates : list cell_update)
  : store_action unit :=
  remote_call (ReqBatchUpdate ws updates)
    (fun ss =>
       match find_sheet ss ws with
       | Some g =>
           if forallb valid_address updates
           then (Ret tt, put_sheet ss ws (fold_left apply_update updates g))
           else (Raise (mkExn APIError "Unable to parse range"), ss)
       | None => (Raise (title_error ws), ss)
       end).

(** [worksheet.append_row(values)] *)
Definition ws_append_row (ws : string) (values : list string)
  : store_action unit :=
  remote_call (ReqAppendRow ws values)
    (fun ss =>
       match find_sheet ss ws with
       | Some g => (Ret tt, put_sheet ss ws (g ++ [map VStr values]))
       | None => (Raise (title_error ws), ss)
       end).

(** [worksheet.delete_rows(index)], rows counted from 1. *)
Definition ws_delete_rows (ws : string) (index : nat) : store_action unit :=
  remote_call (ReqDeleteRows ws index)
    (fun ss =>
       match find_sheet ss ws with
       | Some g =>
           (Ret tt, put_sheet ss ws (grid_delete g index))
       | None => (Raise (title_error ws), ss)
       end).

(** A closure [def _f(): return <request>], whose result is an object and
    so never [None]. *)
Definition returning {A} (c : store_action A) : store_action (option A) :=
  fun s => match c s with
           | (Ret a, s') => (Ret (Some a), s')
           | (Raise e, s') => (Raise e, s')
           end.

(** *** [get_or_create_worksheet] *)

Definition get_or_create_worksheet (worksheet_name : string) : M string :=
  try_except (lift_store (sp_worksheet worksheet_name))
    (fun e =>
       match exn_kind e with
       | WorksheetNotFound =>
           ws <- lift_store (sp_add_worksheet worksheet_name 1000 20) ;;
           lift_store (ws_append_row ws canonical_columns) ;;
           ret ws
       | _ => raise e
       end).

(** *** [load_applicants_data] *)

Definition coerce_columns (f : value -> value) (cols : list string)
  (df : DataFrame) : DataFrame :=
  fold_left
    (fun d col => if str_in col (df_columns d) then map_column f col d else d)
    cols df.

(** The rest of the [try] body, once [data] is bound. *)
Definition frame_of_data (data : option (list dict)) : M DataFrame :=
  match data with
  | None => ret empty_df
  | Some [] => ret (mkDF canonical_columns [])
  | Some records =>
      let df := df_of_records records in
      let df :=
        coerce_columns to_datetime
          ["date of application"; "date of birth"] df in
      let df :=
        coerce_columns to_numeric (SKILL_COLUMNS ++ ["Applicant Score"]) df in
      ret df
  end.

Definition load_applicants_data (ws : string) : M DataFrame :=
  try_except
    (data <- retry_api_call_default (returning (ws_get_all_records ws)) ;;
     frame_of_data data)
    (fun e =>
       st_error (ErrLoadingData (exn_str e)) ;;
       ret empty_df).

(** *** [calculate_applicant_score] *)

(** The [for skill in SKILL_COLUMNS] loop, [scores] being the list built
    so far. *)
Fixpoint collect_scores (row_data : dict) (skills : list string)
  (scores : list Q) : outcome (list Q) :=
  match skills with
  | [] => Ret scores
  | skill :: rest =>
      let score := dict_get row_data skill (VNum 0) in
      if truthy score && negb (isna score) then
        match py_float score with
        | Ret x => collect_scores row_data rest (scores ++ [x])
        | Raise e => Raise e
        end
      else collect_scores row_data rest scores
  end.

Definition calculate_applicant_score (row_data : dict) : outcome Q :=
  match collect_scores row_data SKILL_COLUMNS [] with
  | Ret [] => Ret 0%Q
  | Ret scores => Ret (py_round2 (np_mean scores))
  | Raise e => Raise e
  end.

(** *** [update_applicant_scores] *)

(** The address and value of one cell of the batch. *)
Definition cell_for (headers : list string) (sheet_row : nat)
  (column : string) (v : value) : cell_update :=
  let col_index := str_index column headers + 1 in
  mkUpdate (64 + col_index) sheet_row v.

(** The [for skill, score in scores.items()] loop. *)
Definition skill_updates (headers : list string) (sheet_row : nat)
  (scores : dict) : list cell_update :=
  flat_map
    (fun kv =>
       if str_in (fst kv) headers
       then [cell_for headers sheet_row (fst kv) (snd kv)]
       else [])
    scores.

Definition batch_for (headers : list string) (sheet_row : nat)
  (scores : dict) (applicant_score : Q) : list cell_update :=
  let updates := skill_updates headers sheet_row scores in
  if str_in "Applicant Score" headers
  then updates
         ++ [cell_for headers sheet_row "Applicant Score" (VNum applicant_score)]
  else updates.

(** [df.iloc[row_index]['name']] *)
Definition name_at (df : DataFrame) (row_index : nat) : outcome value :=
  match df_iloc df row_index with
  | Ret row => dict_getitem row "name"
  | Raise e => Raise e
  end.

(** [st.success(f"Scores updated for {df.iloc[row_index]['name']}")] *)
Definition report_scores_updated (df : DataFrame) (row_index : nat) : M unit :=
  name <- lift_outcome (name_at df row_index) ;;
  st_success (OkScoresUpdated name).

(** The rest of the [try] body, once [result] is bound. *)
Definition after_batch_update (df : DataFrame) (row_index : nat)
  (result : option unit) : M unit :=
  match result with
  | None => st_error ErrScoresRateLimited
  | Some _ => report_scores_updated df row_index
  end.

Definition update_applicant_scores (ws : string) (df : DataFrame)
  (row_index : nat) (scores : dict) : M unit :=
  try_except
    (applicant_score <- lift_outcome (calculate_applicant_score scores) ;;
     let sheet_row := row_index + 2 in
     headers <- lift_store (ws_row_values ws 1) ;;
     let updates := batch_for headers sheet_row scores applicant_score in
     match updates with
     | [] => report_scores_updated df row_index
     | _ :: _ =>
         result <- retry_api_call_default
                     (returning (ws_batch_update ws updates)) ;;
         after_batch_update df row_index result
     end)
    (fun e => st_error (ErrUpdatingScores (exn_str e))).

(** *** The stage transitions *)

(** The [for header in headers] loop of the three transitions. *)
Definition row_values_for (headers : list string) (row_data : dict)
  : list string :=
  map (fun header =>
         let value := dict_get row_data header (VStr "") in
         let value := if isna value then VStr "" else value in
         py_str value)
      headers.

Definition move_applicant_to_denied (main_worksheet denied_worksheet : string)
  (df : DataFrame) (row_index : nat) : M unit :=
  try_except
    (row_data <- lift_outcome (df_iloc df row_index) ;;
     headers <- lift_store (ws_row_values main_worksheet 1) ;;
     let row_values := row_values_for headers row_data in
     lift_store (ws_append_row denied_worksheet row_values) ;;
     lift_store (ws_delete_rows main_worksheet (row_index + 2)) ;;
     name <- lift_outcome (dict_getitem row_data "name") ;;
     st_success (OkMovedToDenied name))
    (fun e => st_error (ErrMovingApplicant (exn_str e))).

Definition move_applicant_to_hired (main_worksheet hired_worksheet : string)
  (df : DataFrame) (row_index : nat) : M unit :=
  try_except
    (row_data <- lift_outcome (df_iloc df row_index) ;;
     headers <- lift_store (ws_row_values main_worksheet 1) ;;
     let row_values := row_values_for headers row_data in
     lift_store (ws_append_row hired_worksheet row_values) ;;
     lift_store (ws_delete_rows main_worksheet (row_index + 2)) ;;
     name <- lift_outcome (dict_getitem row_data "name") ;;
     st_success (OkMovedToHired name))
    (fun e => st_error (ErrMovingApplicant (exn_str e))).

Definition reinstate_applicant (main_worksheet denied_worksheet : string)
  (df : DataFrame) (row_index : nat) : M unit :=
  try_except
    (row_data <- lift_outcome (df_iloc df row_index) ;;
     headers <- lift_store (ws_row_values denied_worksheet 1) ;;
     let row_values := row_values_for headers row_data in
     lift_store (ws_append_row main_worksheet row_values) ;;
     lift_store (ws_delete_rows denied_worksheet (row_index + 2)) ;;
     name <- lift_outcome (dict_getitem row_data "name") ;;
     st_success (OkReinstated name))
    (fun e => st_error (ErrReinstating (exn_str e))).

(** The three transitions differ in the message they show and in which
    argument is the source: their common shape. *)
Definition transition (source dest : string) (ok : value -> ui_msg)
  (err : string -> ui_msg) (df : DataFrame) (row_index : nat) : M unit :=
  try_except
    (row_data <- lift_outcome (df_iloc df row_index) ;;
     headers <- lift_store (ws_row_values source 1) ;;
     let row_values := row_values_for headers row_data in
     lift_store (ws_append_row dest row_values) ;;
     lift_store (ws_delete_rows source (row_index + 2)) ;;
     name <- lift_outcome (dict_getitem row_data "name") ;;
     st_success (ok name))
    (fun e => st_error (err (exn_str e))).

(** ** Vocabulary of the properties *)

(** The header row of a worksheet as [row_values(1)] reads it. *)
Definition sheet_header (s : store) (ws : string) : list string :=
  match find_sheet (sheets s) ws with
  | Some g => map py_str (nth 0 g [])
  | None => []
  end.

End App.

(** What a run added to the request log and to the console. *)
Definition requests_since (w w' : world) : list (request * bool) :=
  skipn (List.length (served (remote w))) (served (remote w')).

Definition events_since (w w' : world) : list event :=
  skipn (List.length (events w)) (events w').

Definition is_invoke (e : event) : bool :=
  match e with EvInvoke => true | _ => false end.

Definition invocations (evs : list event) : nat :=
  List.length (filter is_invoke evs).

Definition sleeps (evs : list event) : list Q :=
  flat_map (fun e => match e with EvSleep d => [d] | _ => [] end) evs.



(** A result of [random.uniform(0, 1)]. *)
Definition unit_jitter (u : Q) : Prop := (0 <= u)%Q /\ (u < 1)%Q.

(** The delay slept after the failed attempt [i], [js] being the coming
    results of [random.uniform(0, 1)]. *)
Definition delay_at (base_delay : Q) (js : list Q) (i : nat) : Q :=
  (backoff base_delay i + nth i js 0)%Q.

(** [d.get(k)] without a default. *)
Fixpoint dict_find (d : dict) (k : string) : option value :=
  match d with
  | [] => None
  | (k', v) :: t => if String.eqb k k' then Some v else dict_find t k
  end.

(** The numeric skill values of a rating mapping that satisfy [keep], in
    the order of [SKILL_COLUMNS]. *)
Definition skill_values (keep : Q -> bool) (R : dict) : list Q :=
  flat_map
    (fun skill =>
       match dict_find R skill with
       | Some (VNum q) => if keep q then [q] else []
       | _ => []
       end)
    SKILL_COLUMNS.


(** A rating mapping: every skill it rates is a number, [None] or NaN. *)
Definition rating_mapping (R : dict) : Prop :=
  forall skill s, In skill SKILL_COLUMNS -> dict_find R skill <> Some (VStr s).


Definition nonzero (q : Q) : bool := negb (Qeq_bool q 0).

(** The console of a run in which every attempt hits the rate limit,
    [k] attempts being made from attempt number [first] on: each attempt
    but the last is followed by a warning and a sleep, the last one by the
    error message. *)
Definition exhausted_events (max_retries : nat) (base_delay : Q)
  (first : nat) (js : list Q) (k : nat) : list event :=
  flat_map
    (fun i =>
       let d := (backoff base_delay (first + i) + nth i js 0)%Q in
       [EvInvoke;
        EvUi (WarnRateLimitRetry d (first + i + 1) max_retries);
        EvSleep d])
    (seq 0 (k - 1))
  ++ match k with
     | 0 => []
     | S _ => [EvInvoke; EvUi ErrRateLimitExceeded]
     end.

(** The failure the schedule holds for the [n]-th request to come. *)
Definition fault_at (n : nat) (fs : list (option string)) : option string :=
  nth n fs None.

(** The row a transition builds for the record at [row_index], from the
    header row of worksheet [ws] as the store [s] holds it. *)
Definition row_in_order_of (str_num : Q -> string) (s : store) (ws : string)
  (row_data : dict) : list string :=
  row_values_for str_num (sheet_header str_num s ws) row_data.

(** The ways a transition from [source] to [dest] can run from [w] to
    [w']: the position is out of the table; the header read fails; the
    append fails; or the append is served and the delete is requested. *)
Inductive transition_run (str_num : Q -> string) (source dest : string)
  (df : DataFrame) (row_index : nat) (w w' : world) : Prop :=
| run_no_request (e : exn) :
    df_iloc df row_index = Raise e ->
    requests_since w w' = [] ->
    sheets (remote w') = sheets (remote w) ->
    transition_run str_num source dest df row_index w w'
| run_header_failed (row_data : dict) :
    df_iloc df row_index = Ret row_data ->
    fault_at 0 (faults (remote w)) <> None
    \/ find_sheet (sheets (remote w)) source = None ->
    requests_since w w' = [(ReqRowValues source 1, false)] ->
    sheets (remote w') = sheets (remote w) ->
    transition_run str_num source dest df row_index w w'
| run_append_failed (row_data : dict) :
    df_iloc df row_index = Ret row_data ->
    fault_at 1 (faults (remote w)) <> None
    \/ find_sheet (sheets (remote w)) dest = None ->
    requests_since w w'
    = [(ReqRowValues source 1, true);
       (ReqAppendRow dest (row_in_order_of str_num (remote w) source row_data),
        false)] ->
    sheets (remote w') = sheets (remote w) ->
    transition_run str_num source dest df row_index w w'
| run_appended (row_data : dict) (g : worksheet) (deleted : bool)
    (appended : list (string * worksheet)) :
    df_iloc df row_index = Ret row_data ->
    find_sheet (sheets (remote w)) dest = Some g ->
    appended
    = put_sheet (sheets (remote w)) dest
        (g ++ [map VStr (row_in_order_of str_num (remote w) source row_data)]) ->
    requests_since w w'
    = [(ReqRowValues source 1, true);
       (ReqAppendRow dest (row_in_order_of str_num (remote w) source row_data),
        true);
       (ReqDeleteRows source (row_index + 2), deleted)] ->
    sheets (remote w')
    = (if deleted
       then match find_sheet appended source with
            | Some gs =>
                put_sheet appended source (grid_delete gs (row_index + 2))
            | None => appended
            end
       else appended) ->
    transition_run str_num source dest df row_index w w'.



(** Every delete request comes right after a served append to [dest], and
    deletes from [source]. *)
Definition delete_follows_append (source dest : string)
  (reqs : list (request * bool)) : Prop :=
  forall pre post ws idx b,
    reqs = pre ++ (ReqDeleteRows ws idx, b) :: post ->
    ws = source
    /\ exists pre' vals, pre = pre' ++ [(ReqAppendRow dest vals, true)].

(** If the append to [dest] failed, no worksheet changed and no delete was
    requested. *)
Definition failed_append_changes_nothing (dest : string) (w w' : world)
  : Prop :=
  forall vals,
    In (ReqAppendRow dest vals, false) (requests_since w w') ->
    sheets (remote w') = sheets (remote w)
    /\ forall ws idx b, ~ In (ReqDeleteRows ws idx, b) (requests_since w w').


(** The world once the header read of worksheet [ws] has been served. *)
Definition header_read (ws : string) (w : world) : world :=
  mkWorld (mkStore (sheets (remote w)) (tl (faults (remote w)))
                   (served (remote w) ++ [(ReqRowValues ws 1, true)]))
          (jitter w) (events w).

(** What [update_applicant_scores] does once the batch is built and is
    not empty: the wrapped write, then the report. *)
Definition write_batch (ws : string) (df : DataFrame) (row_index : nat)
  (updates : list cell_update) : M unit :=
  try_except
    (result <- retry_api_call_default
                 (returning (ws_batch_update ws updates)) ;;
     after_batch_update df row_index result)
    (fun e => st_error (ErrUpdatingScores (exn_str e))).

(** The message that ends a score update whose write was skipped or
    served. *)
Definition update_report (df : DataFrame) (row_index : nat) : ui_msg :=
  match name_at df row_index with
  | Ret name => OkScoresUpdated name
  | Raise e => ErrUpdatingScores (exn_str e)
  end.

(** The ways [update_applicant_scores] can run from [w] to [w']: the score
    cannot be computed; the header read fails; no header matches, and the
    read is the only request; or the batch is written through the
    executor, failing [k] times and served at most once. *)
Inductive update_run (str_num : Q -> string) (float_str : string -> option Q)
  (ws : string) (df : DataFrame) (row_index : nat) (scores : dict)
  (w w' : world) : Prop :=
| upd_no_score (e : exn) :
    calculate_applicant_score float_str scores = Raise e ->
    requests_since w w' = [] ->
    sheets (remote w') = sheets (remote w) ->
    events_since w w' = [EvUi (ErrUpdatingScores (exn_str e))] ->
    update_run str_num float_str ws df row_index scores w w'
| upd_header_failed (score : Q) (msg : string) :
    calculate_applicant_score float_str scores = Ret score ->
    fault_at 0 (faults (remote w)) = Some msg
    \/ (fault_at 0 (faults (remote w)) = None
        /\ find_sheet (sheets (remote w)) ws = None /\ msg = ws) ->
    requests_since w w' = [(ReqRowValues ws 1, false)] ->
    sheets (remote w') = sheets (remote w) ->
    events_since w w' = [EvUi (ErrUpdatingScores msg)] ->
    update_run str_num float_str ws df row_index scores w w'
| upd_nothing_to_write (score : Q) (g : worksheet) :
    calculate_applicant_score float_str scores = Ret score ->
    fault_at 0 (faults (remote w)) = None ->
    find_sheet (sheets (remote w)) ws = Some g ->
    batch_for (sheet_header str_num (remote w) ws) (row_index + 2) scores score
    = [] ->
    requests_since w w' = [(ReqRowValues ws 1, true)] ->
    sheets (remote w') = sheets (remote w) ->
    events_since w w' = [EvUi (update_report df row_index)] ->
    update_run str_num float_str ws df row_index scores w w'
| upd_written (score : Q) (g : worksheet) (k : nat) (b : bool) :
    calculate_applicant_score float_str scores = Ret score ->
    fault_at 0 (faults (remote w)) = None ->
    find_sheet (sheets (remote w)) ws = Some g ->
    let updates :=
      batch_for (sheet_header str_num (remote w) ws) (row_index + 2)
                scores score in
    updates <> [] ->
    w' = snd (write_batch ws df row_index updates (header_read ws w)) ->
    requests_since w w'
    = (ReqRowValues ws 1, true)
        :: repeat (ReqBatchUpdate ws updates, false) k
        ++ (if b then [(ReqBatchUpdate ws updates, true)] else []) ->
    1 <= k + (if b then 1 else 0) <= 3 ->
    update_run str_num float_str ws df row_index scores w w'.

Definition is_batch_write (rb : request * bool) : bool :=
  match fst rb with
  | ReqBatchUpdate _ _ => true
  | _ => false
  end.

Definition is_served_batch_write (rb : request * bool) : bool :=
  is_batch_write rb && snd rb.

(** No column of the header row is a rated skill or the score column. *)
Definition no_header_matches (headers : list string) (scores : dict) : Prop :=
  forall h, In h headers ->
    ~ In h (dict_keys scores) /\ h <> "Applicant Score".

(** ** Vocabulary of the further properties *)

(** The console of [k] attempts in a row that hit the rate limit and are
    retried, from attempt number [first] on: each is followed by a warning
    and a sleep. *)
Definition retried_events (max_retries : nat) (base_delay : Q)
  (first : nat) (js : list Q) (k : nat) : list event :=
  flat_map
    (fun i =>
       let d := (backoff base_delay (first + i) + nth i js 0)%Q in
       [EvInvoke;
        EvUi (WarnRateLimitRetry d (first + i + 1) max_retries);
        EvSleep d])
    (seq 0 k).




(** [2 ** k] as a rational. *)
Definition pow2 (k : nat) : Q := inject_Z (2 ^ Z.of_nat k).

(** The longest the executor can sleep in all: every attempt but the last
    retried, every jitter at its bound. *)
Definition sleep_bound (max_retries : nat) (base_delay : Q) : Q :=
  (base_delay * (pow2 (max_retries - 1) - 1)
   + inject_Z (Z.of_nat (max_retries - 1)))%Q.

(** The three signatures [retry_api_call] looks for. *)
Definition rate_limit_signatures : list string :=
  ["quota exceeded"; "429"; "rate limit"].

(** The world after requests that left the worksheets as [ss], [fs] being
    the failure schedule left and [reqs] the log entries added. *)
Definition after_requests (w : world) (ss : list (string * worksheet))
  (fs : list (option string)) (reqs : list (request * bool)) : world :=
  mkWorld (mkStore ss fs (served (remote w) ++ reqs)) (jitter w) (events w).

(** The grid of a worksheet that holds the canonical header row and
    nothing else. *)
Definition canonical_grid : worksheet := [map VStr canonical_columns].







(** A row as wide as the header. *)
Definition row_width (keys : list string) (r : list value) : Prop :=
  List.length r = List.length keys.

(** The value [calculate_applicant_score] reads for a skill. *)
Definition rating_of (R : dict) (skill : string) : value :=
  dict_get R skill (VNum 0).

(** A rating that makes [float(score)] raise: a non-empty string that is
    no number. *)
Definition unparseable (float_str : string -> option Q) (v : value) : Prop :=
  exists s, v = VStr s /\ s <> "" /\ float_str s = None.

(** The cell at row [r] and column [c] of a grid, both counted from 1;
    a cell the grid lacks reads as the empty string. *)
Definition cell (g : worksheet) (r c : nat) : value :=
  nth (c - 1) (nth (r - 1) g []) (VStr "").

(** The column of a header, counted from 1, as [headers.index(h) + 1]. *)
Definition column_of (headers : list string) (h : string) : nat :=
  str_index h headers + 1.

(** What serving a request may do to the worksheets: leave them, or turn
    them into [changed ss], a failed request always leaving them. *)
Definition changes_at_most {B : Type}
  (serve : list (string * worksheet) -> outcome B * list (string * worksheet))
  (changed : list (string * worksheet) -> list (string * worksheet)) : Prop :=
  forall ss,
    match serve ss with
    | (Ret _, ss') => ss' = ss \/ ss' = changed ss
    | (Raise _, ss') => ss' = ss
    end.

(** A cell update addresses a row and a column of the grid. *)
Definition well_addressed (u : cell_update) : Prop :=
  1 <= upd_row u /\ 65 <= upd_chr u.

(** The worksheets [ss'] differ from [ss] at most in the row of index [j]
    (spreadsheet row [j + 1]) of worksheet [ws]. *)
Definition sheets_kept_except (ws : string) (j : nat)
  (ss ss' : list (string * worksheet)) : Prop :=
  (forall title, title <> ws -> find_sheet ss' title = find_sheet ss title)
  /\ (find_sheet ss ws = None -> find_sheet ss' ws = None)
  /\ (forall g, find_sheet ss ws = Some g ->
        exists g', find_sheet ss' ws = Some g'
                   /\ forall i, i <> j -> nth i g' [] = nth i g []).

(** The three stage changes, with the worksheet each takes the record
    from, the one it appends to, and its two messages; [main_ws] and
    [other_ws] are the arguments in the order of the call. *)
Inductive stage_change : Type := Deny | Hire | Reinstate.

Definition stage_change_run (str_num : Q -> string) (c : stage_change)
  (main_ws other_ws : string) (df : DataFrame) (row_index : nat) : M unit :=
  match c with
  | Deny => move_applicant_to_denied str_num main_ws other_ws df row_index
  | Hire => move_applicant_to_hired str_num main_ws other_ws df row_index
  | Reinstate => reinstate_applicant str_num main_ws other_ws df row_index
  end.

Definition source_of (c : stage_change) (main_ws other_ws : string) : string :=
  match c with
  | Deny | Hire => main_ws
  | Reinstate => other_ws
  end.

Definition dest_of (c : stage_change) (main_ws other_ws : string) : string :=
  match c with
  | Deny | Hire => other_ws
  | Reinstate => main_ws
  end.

Definition moved_message (c : stage_change) (name : value) : ui_msg :=
  match c with
  | Deny => OkMovedToDenied name
  | Hire => OkMovedToHired name
  | Reinstate => OkReinstated name
  end.

Definition failed_message (c : stage_change) (msg : string) : ui_msg :=
  match c with
  | Deny | Hire => ErrMovingApplicant msg
  | Reinstate => ErrReinstating msg
  end.

(** The grid [g'] is [g] without the row of index [j]: the rows above are
    in place, the rows below one place up. *)
Definition row_removed (j : nat) (g g' : worksheet) : Prop :=
  (forall i, i < j -> nth i g' [] = nth i g [])
  /\ (forall i, j <= i -> nth i g' [] = nth (S i) g []).

(** The block that opens the four display functions:
    [if 'Applicant Score' not in df.columns: df['Applicant Score'] = 0.0],
    then [for idx, row in df.iterrows()] the score of [row.to_dict()] is
    put with [df.at[idx, 'Applicant Score'] = score].  [fill_scores] is
    the loop, over the rows of the table with its new column. *)
Fixpoint fill_scores (float_str : string -> option Q) (columns : list string)
  (rows : list (list value)) : outcome (list (list value)) :=
  match rows with
  | [] => Ret []
  | row :: rest =>
      match calculate_applicant_score float_str (to_dict columns row) with
      | Raise e => Raise e
      | Ret score =>
          match fill_scores float_str columns rest with
          | Raise e => Raise e
          | Ret filled =>
              Ret (set_nth (str_index "Applicant Score" columns)
                           (VNum score) VNaN row
                   :: filled)
          end
      end
  end.

Definition add_score_column (float_str : string -> option Q)
  (df : DataFrame) : outcome DataFrame :=
  if str_in "Applicant Score" (df_columns df) then Ret df
  else
    let columns := df_columns df ++ ["Applicant Score"] in
    let rows := map (fun r => r ++ [VNum 0]) (df_rows df) in
    match fill_scores float_str columns rows with
    | Ret filled => Ret (mkDF columns filled)
    | Raise e => Raise e
    end.

(** A table whose rows are as wide as its column labels. *)
Definition rectangular (df : DataFrame) : Prop :=
  forall r, In r (df_rows df) -> row_width (df_columns df) r.

(** The row [r'] is the row [r] of the table followed by its score. *)
Definition scored_row (float_str : string -> option Q) (columns : list string)
  (r r' : list value) : Prop :=
  exists s, calculate_applicant_score float_str (to_dict columns r) = Ret s
            /\ r' = r ++ [VNum s].

(** [a == b] on the cells of a column: a text equals the same text, a
    number an equal number; a null or NaN equals nothing. *)
Definition value_eqb (a b : value) : bool :=
  match a, b with
  | VNum x, VNum y => Qeq_bool x y
  | VStr s, VStr t => String.eqb s t
  | _, _ => false
  end.

(** [df[col]] *)
Definition df_column (df : DataFrame) (col : string) : outcome (list value) :=
  if str_in col (df_columns df)
  then Ret (map (fun r => dict_get (to_dict (df_columns df) r) col VNaN)
                (df_rows df))
  else Raise (mkExn KeyError col).

(** [df.index[df['name'] == applicant['name']].tolist()[0]], the position
    the display functions pass on to the operations. *)
Definition original_idx (df : DataFrame) (applicant : dict) : outcome nat :=
  match df_column df "name" with
  | Raise e => Raise e
  | Ret names =>
      match dict_getitem applicant "name" with
      | Raise e => Raise e
      | Ret name =>
          match filter (fun i => value_eqb (nth i names VNaN) name)
                       (seq 0 (List.length names)) with
          | i :: _ => Ret i
          | [] => Raise (mkExn IndexError "list index out of range")
          end
      end
  end.

(** The name in row [r] of the table. *)
Definition name_in (df : DataFrame) (r : list value) : value :=
  dict_get (to_dict (df_columns df) r) "name" VNaN.

(** No row of the table before position [i] has the name [name]. *)
Definition no_earlier_namesake (df : DataFrame) (name : value) (i : nat)
  : Prop :=
  forall k rk, k < i -> nth_error (df_rows df) k = Some rk ->
               value_eqb (name_in df rk) name = false.

(** The mapping the rating form of [display_applicants_table] builds:
    [scores[skill] = slider_value] for each skill in turn, [slider skill]
    being what [st.slider] returns for the slider of the skill, a whole
    number. *)
Definition form_scores (slider : string -> Z) : dict :=
  fold_left
    (fun scores skill => dict_set scores skill (VNum (inject_Z (slider skill))))
    SKILL_COLUMNS [].

(** ** Sample inputs *)

(** Stand-ins for the library functions, for running the program on
    samples: a number prints as its integer part, no string parses as a
    float, and the coercions keep their argument. *)
Definition sample_str_num (q : Q) : string :=
  NilZero.string_of_int (Z.to_int (Qfloor q)).

Definition sample_float_str (s : string) : option Q := None.

Definition sample_coerce (v : value) : value := v.

(** A call that always reports a quota error, and one that always reports
    a permission error. *)
Definition always_quota : store_action (option nat) :=
  fun s => (Raise (mkExn APIError "Quota exceeded for quota metric"), s).

Definition always_denied : store_action (option nat) :=
  fun s => (Raise (mkExn APIError "permission denied"), s).


Definition empty_store : store := mkStore [] [] [].

Definition quiet_world : world := mkWorld empty_store [] [].


(** The example of the specification: two ratings and a null. *)
Definition two_rated : dict :=
  [("Throwing Skill", VNum 8); ("Strength Skill", VNum 6);
   ("Data Skill", VNone)].

(** A spreadsheet whose worksheets order their columns differently, one
    applicant in the active worksheet, and the table loaded from it. *)
Definition reorder_sheets : list (string * worksheet) :=
  [(SHEET_NAME, [[VStr "name"; VStr "Trust"]; [VStr "Alice"; VNum 9]]);
   (DENIED_SHEET_NAME, [[VStr "Trust"; VStr "name"]]);
   (HIRED_SHEET_NAME, [[VStr "name"; VStr "Trust"]])].

Definition reorder_world : world :=
  mkWorld (mkStore reorder_sheets [] []) [] [].

(** The same, the second request to come hitting the rate limit once. *)
Definition limited_world : world :=
  mkWorld (mkStore reorder_sheets [None; Some "429 rate limit"] []) [(1 # 2)%Q] [].

Definition alice_df : DataFrame :=
  mkDF ["name"; "Trust"] [[VStr "Alice"; VNum 9]].

Definition alice_row : dict := [("name", VStr "Alice"); ("Trust", VNum 9)].

(** A rating for a skill that the sample worksheets have no column for. *)
Definition data_rating : dict := [("Data Skill", VNum 7)].

(** A rating for a column the sample worksheets have. *)
Definition trust_rating : dict := [("Trust", VNum 7)].


Definition exhausting_world : world :=
  mkWorld
    (mkStore reorder_sheets
       [Some "Quota exceeded"; Some "429 Too Many Requests";
        Some "RATE LIMIT reached"] [])
    [(1 # 2)%Q; (1 # 4)%Q] [].


(** An empty spreadsheet whose third request the store fails, and one
    whose first request it fails. *)
Definition third_fails_world : world :=
  mkWorld (mkStore [] [None; None; Some "500 backend error"] []) [] [].

Definition first_fails_world : world :=
  mkWorld (mkStore reorder_sheets [Some "403 permission denied"] []) [] [].

(** A table row with ratings among its other columns, and a mapping with
    a rating that is no number. *)
Definition rated_row : dict :=
  [("name", VStr "Alice"); ("Throwing Skill", VNum 8);
   ("Applicant Score", VNum 3); ("Strength Skill", VNum 6)].

Definition text_rating : dict :=
  [("Throwing Skill", VNum 8); ("Trust", VStr "high")].

(** An active worksheet with a column for the score. *)
Definition scored_world : world :=
  mkWorld
    (mkStore
       [(SHEET_NAME,
         [[VStr "name"; VStr "Trust"; VStr "Applicant Score"];
          [VStr "Alice"; VNum 9; VStr ""]])]
       [] [])
    [] [].

(** The active worksheet with a score column, the header read served and
    the three requests after it hitting the rate limit. *)
Definition write_limited_world : world :=
  mkWorld
    (mkStore
       [(SHEET_NAME,
         [[VStr "name"; VStr "Trust"; VStr "Applicant Score"];
          [VStr "Alice"; VNum 9; VStr ""]])]
       [None; Some "Quota exceeded"; Some "429 Too Many Requests";
        Some "RATE LIMIT reached"] [])
    [(1 # 2)%Q; (1 # 4)%Q] [].

(** The sample worksheets, the third request to come failing with an
    error that is no rate limit. *)
Definition third_fails_sheets_world : world :=
  mkWorld (mkStore reorder_sheets [None; None; Some "500 backend error"] [])
          [] [].


(** A table in which two applicants have the same name. *)
Definition namesakes_df : DataFrame :=
  mkDF ["name"; "Trust"]
       [[VStr "Alice"; VNum 9]; [VStr "Bob"; VNum 4]; [VStr "Alice"; VNum 2]].

(** ** List facts *)

Lemma flat_map_seq_shift {B : Type} (f : nat -> list B) (k : nat) :
  flat_map f (seq 0 (S k)) = f 0 ++ flat_map (fun i => f (S i)) (seq 0 k).
Proof.
  cbn [seq flat_map]. f_equal.
  rewrite <- seq_shift.
  rewrite !flat_map_concat_map, map_map. reflexivity.
Qed.

Lemma skipn_length_app {B : Type} (l l' : list B) :
  skipn (List.length l) (l ++ l') = l'.
Proof.
  induction l as [| x l IH]; [reflexivity | exact IH].
Qed.

(** ** Properties of [retry_api_call] *)

Section RetryFacts.

Context {A : Type}.
Variable func : store_action (option A).
Variable max_retries : nat.
Variable base_delay : Q.

(** One turn of the loop, by the outcome of [func()]. *)
Lemma retry_attempts_step (attempt : nat) (rest : list nat) (w : world) :
  retry_attempts func max_retries base_delay (attempt :: rest) w =
  match func (remote w) with
  | (Ret x, s') => (Ret x, mkWorld s' (jitter w) (events w ++ [EvInvoke]))
  | (Raise e, s') =>
      if is_rate_limit e then
        if attempt <? max_retries - 1 then
          let d := (backoff base_delay attempt + hd 0%Q (jitter w))%Q in
          retry_attempts func max_retries base_delay rest
            (mkWorld s' (tl (jitter w))
               (events w ++ [EvInvoke;
                             EvUi (WarnRateLimitRetry d (attempt + 1) max_retries);
                             EvSleep d]))
        else
          (Ret None,
           mkWorld s' (jitter w)
             (events w ++ [EvInvoke; EvUi ErrRateLimitExceeded]))
      else (Raise e, mkWorld s' (jitter w) (events w ++ [EvInvoke]))
  end.
Proof.
  cbn [retry_attempts].
  unfold try_except, invoke, bind, emit, lift_store.
  cbn [remote jitter events].
  destruct (func (remote w)) as [[x | e] s']; [reflexivity |].
  destruct (is_rate_limit e); [| reflexivity].
  destruct (attempt <? max_retries - 1).
  - unfold random_uniform01, st_warning, time_sleep, emit.
    cbn [remote jitter events].
    destruct (jitter w) as [| j js]; cbn [remote jitter events hd tl];
      repeat rewrite <- app_assoc; reflexivity.
  - unfold st_error, emit, ret. cbn [remote jitter events].
    rewrite <- app_assoc. reflexivity.
Qed.

Hypothesis always_rate_limited :
  forall s, exists e s', func s = (Raise e, s') /\ is_rate_limit e = true.

Lemma exhausted_events_next (first : nat) (js : list Q) (k : nat) :
  exhausted_events max_retries base_delay first js (S (S k)) =
  (let d := (backoff base_delay first + hd 0%Q js)%Q in
   [EvInvoke; EvUi (WarnRateLimitRetry d (first + 1) max_retries); EvSleep d])
  ++ exhausted_events max_retries base_delay (S first) (tl js) (S k).
Proof.
  unfold exhausted_events.
  replace (S (S k) - 1) with (S k) by lia.
  replace (S k - 1) with k by lia.
  rewrite flat_map_seq_shift, Nat.add_0_r.
  rewrite <- app_assoc. f_equal.
  - destruct js; reflexivity.
  - f_equal. apply flat_map_ext; intros i.
    replace (first + S i) with (S first + i) by lia.
    destruct js as [| j js]; [destruct i |]; reflexivity.
Qed.


End RetryFacts.

Lemma events_since_app (s : store) (js : list Q) (w : world)
  (evs : list event) :
  events_since w (mkWorld s js (events w ++ evs)) = evs.
Proof.
  unfold events_since. cbn [events]. apply skipn_length_app.
Qed.


Lemma sleeps_app (l l' : list event) : sleeps (l ++ l') = sleeps l ++ sleeps l'.
Proof.
  unfold sleeps. apply flat_map_app.
Qed.


Lemma sleeps_flat_map (f : nat -> list event) (g : nat -> Q) (l : list nat) :
  (forall i, sleeps (f i) = [g i]) ->
  sleeps (flat_map f l) = map g l.
Proof.
  intros Hf. induction l as [| i l IH]; [reflexivity |].
  cbn [flat_map map]. rewrite sleeps_app, IH, Hf. reflexivity.
Qed.



Lemma nth_unit_jitter (js : list Q) (i : nat) :
  Forall unit_jitter js -> unit_jitter (nth i js 0%Q).
Proof.
  intros H. revert i.
  induction H as [| j js Hj _ IH]; intros [| i]; cbn [nth];
    try (split; [apply Qle_refl | reflexivity]); auto.
Qed.



(** C6. When the first call of the operation raises an error that carries
    no rate-limit signature, the executor calls the operation exactly
    once, sleeps not at all and raises that same error; nothing else
    changes. *)
Theorem non_transient_error_propagates :
  forall (A : Type) (func : store_action (option A))
         (max_retries : nat) (base_delay : Q) (w : world)
         (e : exn) (s' : store),
    0 < max_retries ->
    func (remote w) = (Raise e, s') ->
    is_rate_limit e = false ->
    let r := retry_api_call func max_retries base_delay w in
    fst r = Raise e
    /\ invocations (events_since w (snd r)) = 1
    /\ sleeps (events_since w (snd r)) = []
    /\ snd r = mkWorld s' (jitter w) (events w ++ [EvInvoke]).
Proof.
  intros A func n base w e s' Hn Hf He r.
  assert (Hr : r = (Raise e, mkWorld s' (jitter w) (events w ++ [EvInvoke]))).
  { unfold r, retry_api_call.
    destruct n as [| n]; [lia |].
    cbn [seq]. rewrite retry_attempts_step, Hf, He. reflexivity. }
  rewrite Hr. cbn [fst snd]. rewrite events_since_app.
  repeat split.
Qed.

(** On a call that reports a permission error. *)
Lemma non_transient_error_propagates_witness :
  retry_api_call always_denied 3 1 quiet_world
  = (Raise (mkExn APIError "permission denied"),
     mkWorld empty_store [] [EvInvoke]).
Proof.
  pose proof (@non_transient_error_propagates nat always_denied 3 1 quiet_world
                (mkExn APIError "permission denied") empty_store
                ltac:(lia) eq_refl eq_refl) as T.
  cbv zeta in T. destruct T as (T1 & _ & _ & T4).
  rewrite (surjective_pairing (retry_api_call always_denied 3 1 quiet_world)).
  rewrite T1, T4. reflexivity.
Defined.





(** ** Properties of [calculate_applicant_score] *)

Lemma dict_get_find (d : dict) (k : string) (default : value) :
  dict_get d k default =
  match dict_find d k with
  | Some v => v
  | None => default
  end.
Proof.
  induction d as [| [k' v] d IH]; [reflexivity |].
  cbn [dict_get dict_find]. destruct (String.eqb k k'); [reflexivity | exact IH].
Qed.

(** The loop keeps the numbers that are not zero. *)
Lemma collect_scores_numeric (float_str : string -> option Q) (R : dict)
  (skills : list string) :
  forall scores : list Q,
    (forall skill s, In skill skills -> dict_find R skill <> Some (VStr s)) ->
    collect_scores float_str R skills scores =
    Ret (scores
         ++ flat_map
              (fun skill =>
                 match dict_find R skill with
                 | Some (VNum q) => if nonzero q then [q] else []
                 | _ => []
                 end)
              skills).
Proof.
  induction skills as [| skill rest IH]; intros scores Hnum.
  - cbn. rewrite app_nil_r. reflexivity.
  - cbn [collect_scores flat_map].
    rewrite dict_get_find.
    assert (Hrest : forall k s, In k rest -> dict_find R k <> Some (VStr s))
      by (intros k s Hk; apply Hnum; right; exact Hk).
    pose proof (fun s => Hnum skill s (or_introl eq_refl)) as Hskill.
    destruct (dict_find R skill) as [[| | q | s] |].
    + cbn. apply IH; exact Hrest.
    + cbn. apply IH; exact Hrest.
    + cbn [truthy isna negb andb py_float]. unfold nonzero.
      destruct (Qeq_bool q 0); cbn [negb andb].
      * apply IH; exact Hrest.
      * rewrite IH by exact Hrest. rewrite <- app_assoc. reflexivity.
    + exfalso. apply (Hskill s). reflexivity.
    + cbn. apply IH; exact Hrest.
Qed.

(** The model of [round(x, 2)] gives a number of hundredths at most half
    a hundredth away from [x]. *)
Lemma round_half_even_close (y : Q) :
  (- (1 # 2) <= inject_Z (round_half_even y) - y <= 1 # 2)%Q.
Proof.
  unfold round_half_even.
  pose proof (Qfloor_le y) as Hlo.
  pose proof (Qlt_floor y) as Hhi.
  assert (Hs : inject_Z (Qfloor y + 1) == inject_Z (Qfloor y) + 1)
    by (rewrite inject_Z_plus; reflexivity).
  rewrite Hs in Hhi.
  destruct (y - inject_Z (Qfloor y) ?= 1 # 2)%Q eqn:E.
  - apply Qeq_alt in E.
    destruct (Z.even (Qfloor y)); [| rewrite Hs]; lra.
  - apply Qlt_alt in E. lra.
  - apply Qgt_alt in E. rewrite Hs. lra.
Qed.





(** ** Properties of the operations on the store *)

Section StoreFacts.
Variable str_num : Q -> string.

Lemma requests_since_app (w : world) (ss : list (string * worksheet))
  (fs : list (option string)) (js : list Q) (evs : list event)
  (reqs : list (request * bool)) :
  requests_since w (mkWorld (mkStore ss fs (served (remote w) ++ reqs)) js evs)
  = reqs.
Proof.
  unfold requests_since. cbn [remote served]. apply skipn_length_app.
Qed.

Lemma next_fault_nth (fs : list (option string)) :
  next_fault fs = (fault_at 0 fs, tl fs).
Proof. destruct fs; reflexivity. Qed.

Lemma fault_at_tl (n : nat) (fs : list (option string)) :
  fault_at n (tl fs) = fault_at (S n) fs.
Proof. destruct fs; [destruct n |]; reflexivity. Qed.

Lemma transition_runs (source dest : string) (ok : value -> ui_msg)
  (err : string -> ui_msg) (df : DataFrame) (row_index : nat) (w : world) :
  let r := transition str_num source dest ok err df row_index w in
  fst r = Ret tt
  /\ transition_run str_num source dest df row_index w (snd r)
  /\ (exists m, events (snd r) = events w ++ [EvUi m])
  /\ jitter (snd r) = jitter w.
Proof.
  unfold transition, try_except, bind, lift_outcome, lift_store,
    ws_row_values, ws_append_row, ws_delete_rows, remote_call,
    st_success, st_error, emit.
  cbn [remote jitter events sheets faults served fst snd].
  destruct (df_iloc df row_index) as [row_data | e] eqn:Hrow.
  2:{ cbn [fst snd remote jitter events sheets].
      repeat split; eauto.
      eapply run_no_request; eauto.
      unfold requests_since. cbn [remote]. apply skipn_all. }
  rewrite next_fault_nth.
  destruct (fault_at 0 (faults (remote w))) as [msg1 |] eqn:Hf1.
  { cbn [fst snd remote jitter events sheets].
    repeat split; eauto.
    eapply run_header_failed; eauto.
    - left. rewrite Hf1. discriminate.
    - apply requests_since_app. }
  unfold row_in_order_of, sheet_header.
  destruct (find_sheet (sheets (remote w)) source) as [gs |] eqn:Hsrc.
  2:{ cbn [fst snd remote jitter events sheets is_ret].
      repeat split; eauto.
      eapply run_header_failed; eauto. apply requests_since_app. }
  cbn [fst snd remote jitter events sheets faults served is_ret].
  change (nth (1 - 1) gs []) with (nth 0 gs []).
  rewrite next_fault_nth, fault_at_tl.
  destruct (fault_at 1 (faults (remote w))) as [msg2 |] eqn:Hf2.
  { cbn [fst snd remote jitter events sheets faults served is_ret].
    rewrite <- app_assoc. cbn [app].
    repeat split; eauto.
    eapply run_append_failed; eauto.
    - left. rewrite Hf2. discriminate.
    - unfold row_in_order_of, sheet_header. rewrite Hsrc.
      apply requests_since_app. }
  destruct (find_sheet (sheets (remote w)) dest) as [gd |] eqn:Hdst.
  2:{ cbn [fst snd remote jitter events sheets faults served is_ret].
      rewrite <- app_assoc. cbn [app].
      repeat split; eauto.
      eapply run_append_failed; eauto.
      unfold row_in_order_of, sheet_header. rewrite Hsrc.
      apply requests_since_app. }
  cbn [fst snd remote jitter events sheets faults served is_ret].
  rewrite next_fault_nth.
  destruct (fault_at 0 (tl (tl (faults (remote w))))) as [msg3 |].
  { cbn [fst snd remote jitter events sheets faults served is_ret].
    rewrite <- !app_assoc. cbn [app].
    repeat split; eauto.
    eapply run_appended with (deleted := false); eauto.
    - unfold row_in_order_of, sheet_header. rewrite Hsrc.
      apply requests_since_app.
    - unfold row_in_order_of, sheet_header. rewrite Hsrc. reflexivity. }
  match goal with
  | |- context [find_sheet ?ss source] =>
      destruct (find_sheet ss source) as [gs' |] eqn:Hsrc'
  end.
  2:{ cbn [fst snd remote jitter events sheets faults served is_ret].
      rewrite <- !app_assoc. cbn [app].
      repeat split; eauto.
      eapply run_appended with (deleted := false); eauto.
      - unfold row_in_order_of, sheet_header. rewrite Hsrc.
        apply requests_since_app.
      - unfold row_in_order_of, sheet_header. rewrite Hsrc. reflexivity. }
  cbn [fst snd remote jitter events sheets faults served is_ret].
  rewrite <- !app_assoc. cbn [app].
  destruct (dict_getitem row_data "name") as [name | e];
    cbn [fst snd remote jitter events sheets faults served is_ret];
    (repeat split; eauto;
     eapply run_appended with (deleted := true); eauto;
     [ unfold row_in_order_of, sheet_header; rewrite Hsrc;
       apply requests_since_app
     | unfold row_in_order_of, sheet_header; rewrite Hsrc, Hsrc';
       reflexivity ]).
Qed.

Lemma deny_is_transition (main_ws denied_ws : string) :
  move_applicant_to_denied str_num main_ws denied_ws
  = transition str_num main_ws denied_ws OkMovedToDenied ErrMovingApplicant.
Proof. reflexivity. Qed.

Lemma hire_is_transition (main_ws hired_ws : string) :
  move_applicant_to_hired str_num main_ws hired_ws
  = transition str_num main_ws hired_ws OkMovedToHired ErrMovingApplicant.
Proof. reflexivity. Qed.

Lemma reinstate_is_transition (main_ws denied_ws : string) :
  reinstate_applicant str_num main_ws denied_ws
  = transition str_num denied_ws main_ws OkReinstated ErrReinstating.
Proof. reflexivity. Qed.


Lemma find_put_same (ss : list (string * worksheet)) (t : string)
  (g g' : worksheet) :
  find_sheet ss t = Some g -> find_sheet (put_sheet ss t g') t = Some g'.
Proof.
  induction ss as [| [t0 g0] ss IH]; cbn [find_sheet put_sheet];
    [discriminate |].
  destruct (String.eqb t t0) eqn:E; cbn [find_sheet]; rewrite E;
    [reflexivity | exact IH].
Qed.

Lemma find_put_other (ss : list (string * worksheet)) (t t' : string)
  (g' : worksheet) :
  t <> t' -> find_sheet (put_sheet ss t g') t' = find_sheet ss t'.
Proof.
  intros Hne.
  induction ss as [| [t0 g0] ss IH]; cbn [find_sheet put_sheet];
    [reflexivity |].
  destruct (String.eqb t t0) eqn:E; cbn [find_sheet].
  - apply String.eqb_eq in E. subst t0.
    destruct (String.eqb t' t) eqn:E'; [| reflexivity].
    apply String.eqb_eq in E'. congruence.
  - rewrite IH. reflexivity.
Qed.

Lemma transition_run_order (source dest : string) (df : DataFrame)
  (row_index : nat) (w w' : world) :
  transition_run str_num source dest df row_index w w' ->
  delete_follows_append source dest (requests_since w w')
  /\ failed_append_changes_nothing dest w w'.
Proof.
  intros Hrun. split.
  - intros pre post ws idx b Hreqs.
    destruct Hrun as [e _ H _ | row _ _ H _ | row _ _ H _ | row g d appd _ _ _ H _];
      rewrite H in Hreqs;
      destruct pre as [| p1 [| p2 [| p3 pre]]]; cbn [app] in Hreqs;
      try discriminate Hreqs;
      try (destruct pre; discriminate Hreqs).
    inversion Hreqs; subst.
    split; [reflexivity |].
    exists [(ReqRowValues ws 1, true)]. eexists. reflexivity.
  - intros vals Hin.
    destruct Hrun as [e _ H _ | row _ _ H _ | row _ _ H Hs | row g d appd _ _ _ H _];
      rewrite H in *; cbn [In] in Hin.
    + destruct Hin.
    + destruct Hin as [Hin | []]; discriminate Hin.
    + split; [exact Hs |].
      intros ws idx b [Hd | [Hd | []]]; discriminate Hd.
    + destruct Hin as [Hin | [Hin | [Hin | []]]]; discriminate Hin.
Qed.

End StoreFacts.

(** ** Properties of the stage transitions *)

(** C4. In deny, hire and reinstate, a delete is requested only right
    after the append to the destination has been served, and it deletes
    from the source; if the append fails, no delete is requested and every
    worksheet stays as it was, so the source keeps its row and the
    destination gets none. *)
Theorem delete_only_after_append_returns :
  forall (str_num : Q -> string) (main_ws other_ws : string)
         (df : DataFrame) (row_index : nat) (w : world),
    let denied :=
      snd (move_applicant_to_denied str_num main_ws other_ws df row_index w) in
    let hired :=
      snd (move_applicant_to_hired str_num main_ws other_ws df row_index w) in
    let reinstated :=
      snd (reinstate_applicant str_num main_ws other_ws df row_index w) in
    (delete_follows_append main_ws other_ws (requests_since w denied)
     /\ failed_append_changes_nothing other_ws w denied)
    /\ (delete_follows_append main_ws other_ws (requests_since w hired)
        /\ failed_append_changes_nothing other_ws w hired)
    /\ (delete_follows_append other_ws main_ws (requests_since w reinstated)
        /\ failed_append_changes_nothing main_ws w reinstated).
Proof.
  intros str_num main_ws other_ws df row_index w.
  cbv zeta.
  rewrite deny_is_transition, hire_is_transition, reinstate_is_transition.
  assert (H : forall src dst ok err,
             let w' := snd (transition str_num src dst ok err df row_index w) in
             delete_follows_append src dst (requests_since w w')
             /\ failed_append_changes_nothing dst w w').
  { intros src dst ok err.
    apply (@transition_run_order str_num src dst df row_index w).
    exact (proj1 (proj2 (transition_runs str_num src dst ok err df row_index w))). }
  split; [apply H | split; apply H].
Qed.

(** On a deny whose append the store fails: the worksheets stay. *)
Lemma delete_only_after_append_returns_witness :
  sheets (remote (snd (move_applicant_to_denied sample_str_num SHEET_NAME
                         DENIED_SHEET_NAME alice_df 0 limited_world)))
  = reorder_sheets.
Proof.
  refine (proj1 (proj2 (proj1 (delete_only_after_append_returns
                                 sample_str_num SHEET_NAME DENIED_SHEET_NAME
                                 alice_df 0 limited_world))
                       ["Alice"; "9"] _)).
  right. left. reflexivity.
Defined.





(** ** The executor around a store request *)

Section RetryRemote.

Context {B : Type}.
Variable r : request.
Variable serve :
  list (string * worksheet) -> outcome B * list (string * worksheet).

(** A call of the closure makes one request, and never returns [None]. *)
Lemma returning_remote_call (s : store) :
  exists o s',
    returning (remote_call r serve) s = (o, s')
    /\ served s' = served s ++ [(r, is_ret o)]
    /\ (forall x, o = Ret x -> x <> None).
Proof.
  unfold returning, remote_call.
  destruct (next_fault (faults s)) as [[msg |] fs].
  - eexists. eexists. split; [reflexivity |].
    split; [reflexivity | discriminate].
  - destruct (serve (sheets s)) as [[a | e] ss];
      (eexists; eexists; split; [reflexivity |]);
      (split; [reflexivity |]).
    + intros x Hx. injection Hx as <-. discriminate.
    + discriminate.
Qed.

(** The requests of a wrapped call: the same request, failed some [k]
    times and then served at most once, in no more attempts than the
    executor has; the result is an object exactly when it was served. *)
Lemma retry_remote_run (max_retries : nat) (base_delay : Q)
  (attempts : list nat) :
  forall w : world,
    let res := retry_attempts (returning (remote_call r serve))
                 max_retries base_delay attempts w in
    exists (k : nat) (b : bool) (evs : list event),
      served (remote (snd res))
      = served (remote w) ++ repeat (r, false) k
          ++ (if b then [(r, true)] else [])
      /\ k + (if b then 1 else 0) <= List.length attempts
      /\ (attempts <> [] -> 1 <= k + (if b then 1 else 0))
      /\ events (snd res) = events w ++ evs
      /\ (if b then exists x, fst res = Ret (Some x)
          else fst res = Ret None \/ exists e, fst res = Raise e).
Proof.
  induction attempts as [| a rest IH]; intros w; cbv zeta.
  - exists 0, false, (@nil event). cbn [retry_attempts]. unfold ret.
    cbn [fst snd repeat app List.length].
    rewrite !app_nil_r.
    split; [reflexivity | split; [lia | split; [congruence | split]]];
      [reflexivity | left; reflexivity].
  - rewrite retry_attempts_step.
    destruct (returning_remote_call (remote w)) as (o & s' & Hf & Hs & Hobj).
    rewrite Hf.
    destruct o as [x | e].
    + exists 0, true, [EvInvoke].
      cbn [fst snd remote events repeat app List.length].
      rewrite Hs. cbn [is_ret].
      split; [reflexivity | split; [lia | split; [lia | split]]];
        [reflexivity |].
      destruct x as [x |]; [exists x; reflexivity |].
      exfalso. apply (Hobj None); reflexivity.
    + cbn [is_ret] in Hs.
      destruct (is_rate_limit e).
      * destruct (a <? max_retries - 1).
        -- cbv zeta.
           match goal with
           | |- context [retry_attempts _ _ _ rest ?w1] =>
               destruct (IH w1) as (k & b & evs & H1 & H2 & _ & H4 & H5)
           end.
           cbn [remote events] in H1, H4.
           exists (S k), b. eexists.
           rewrite H1, H4, Hs. cbn [repeat List.length].
           rewrite <- !app_assoc. cbn [app].
           split; [reflexivity | split; [lia | split; [lia | split]]];
             [reflexivity | exact H5].
        -- exists 1, false. eexists.
           cbn [fst snd remote events repeat app List.length].
           rewrite Hs.
           split; [reflexivity | split; [lia | split; [lia | split]]];
             [reflexivity | left; reflexivity].
      * exists 1, false. eexists.
        cbn [fst snd remote events repeat app List.length].
        rewrite Hs.
        split; [reflexivity | split; [lia | split; [lia | split]]];
          [reflexivity | right; exists e; reflexivity].
Qed.

End RetryRemote.

(** ** Properties of [update_applicant_scores] *)

Lemma events_since_same (s : store) (js : list Q) (w : world) :
  events_since w (mkWorld s js (events w)) = [].
Proof.
  unfold events_since. cbn [events]. apply skipn_all.
Qed.

(** After the wrapped write one message is shown, whatever came back. *)
Lemma report_after_write (df : DataFrame) (row_index : nat)
  (o : outcome (option unit)) (w : world) :
  try_except
    (bind (fun w0 => (o, w0)) (after_batch_update df row_index))
    (fun e => st_error (ErrUpdatingScores (exn_str e))) w
  = (Ret tt,
     mkWorld (remote w) (jitter w)
       (events w
        ++ [EvUi match o with
                 | Ret (Some _) => update_report df row_index
                 | Ret None => ErrScoresRateLimited
                 | Raise e => ErrUpdatingScores (exn_str e)
                 end])).
Proof.
  unfold try_except, bind, after_batch_update, report_scores_updated, bind,
    lift_outcome, st_success, st_error, emit, update_report.
  destruct o as [[[] |] | e]; try reflexivity.
  destruct (name_at df row_index); reflexivity.
Qed.

(** The wrapped write ends with one report and leaves the store as the
    executor left it. *)
Lemma write_batch_world (ws : string) (df : DataFrame) (row_index : nat)
  (updates : list cell_update) (w : world) :
  let r := retry_api_call_default (returning (ws_batch_update ws updates)) w in
  write_batch ws df row_index updates w
  = (Ret tt,
     mkWorld (remote (snd r)) (jitter (snd r))
       (events (snd r)
        ++ [EvUi match fst r with
                 | Ret (Some _) => update_report df row_index
                 | Ret None => ErrScoresRateLimited
                 | Raise e => ErrUpdatingScores (exn_str e)
                 end])).
Proof.
  cbv zeta. rewrite <- report_after_write.
  unfold write_batch, try_except, bind.
  destruct (retry_api_call_default (returning (ws_batch_update ws updates)) w);
    reflexivity.
Qed.

(** The wrapped write: its requests, and the one report that follows. *)
Lemma write_batch_run (ws : string) (df : DataFrame) (row_index : nat)
  (updates : list cell_update) (w : world) :
  let res := write_batch ws df row_index updates w in
  fst res = Ret tt
  /\ exists (k : nat) (b : bool) (evs : list event),
       served (remote (snd res))
       = served (remote w) ++ repeat (ReqBatchUpdate ws updates, false) k
           ++ (if b then [(ReqBatchUpdate ws updates, true)] else [])
       /\ 1 <= k + (if b then 1 else 0) <= 3
       /\ events (snd res) = events w ++ evs.
Proof.
  cbv zeta. rewrite write_batch_world. cbn [fst snd remote events].
  split; [reflexivity |].
  unfold retry_api_call_default, retry_api_call, ws_batch_update.
  match goal with
  | |- context [retry_attempts (returning (remote_call ?r ?serve)) ?n ?base ?l] =>
      destruct (retry_remote_run r serve n base l w)
        as (k & b & evs & H1 & H2 & H3 & H4 & H5)
  end.
  exists k, b. eexists.
  split; [exact H1 |].
  split; [cbn in H2; split; [apply H3; discriminate | exact H2] |].
  rewrite H4, <- app_assoc. reflexivity.
Qed.

Lemma try_bind_outcome {A B : Type} (o : outcome A) (k : A -> M B)
  (h : exn -> M B) (w : world) :
  try_except (bind (lift_outcome o) k) h w
  = match o with
    | Ret a => try_except (k a) h w
    | Raise e => h e w
    end.
Proof.
  unfold try_except, bind, lift_outcome. destruct o; reflexivity.
Qed.

Lemma try_bind_store {A B : Type} (c : store_action A) (k : A -> M B)
  (h : exn -> M B) (w : world) :
  try_except (bind (lift_store c) k) h w
  = match c (remote w) with
    | (Ret a, s) => try_except (k a) h (mkWorld s (jitter w) (events w))
    | (Raise e, s) => h e (mkWorld s (jitter w) (events w))
    end.
Proof.
  unfold try_except, bind, lift_store.
  destruct (c (remote w)) as [[a | e] s]; reflexivity.
Qed.

Lemma update_runs (str_num : Q -> string) (float_str : string -> option Q)
  (ws : string) (df : DataFrame) (row_index : nat) (scores : dict)
  (w : world) :
  let res := update_applicant_scores str_num float_str ws df row_index scores w in
  fst res = Ret tt
  /\ update_run str_num float_str ws df row_index scores w (snd res).
Proof.
  unfold update_applicant_scores. cbv zeta.
  rewrite try_bind_outcome.
  destruct (calculate_applicant_score float_str scores) as [score | e] eqn:Hscore.
  2:{ unfold st_error, emit. cbn [fst snd].
      split; [reflexivity |].
      eapply upd_no_score; eauto.
      - unfold requests_since. cbn [remote]. apply skipn_all.
      - apply events_since_app. }
  rewrite try_bind_store.
  unfold ws_row_values, remote_call.
  rewrite next_fault_nth.
  destruct (fault_at 0 (faults (remote w))) as [msg |] eqn:Hf0.
  { unfold st_error, emit. cbn [fst snd remote jitter events sheets exn_str].
    split; [reflexivity |].
    eapply upd_header_failed with (msg := msg); eauto.
    - apply requests_since_app.
    - apply events_since_app. }
  destruct (find_sheet (sheets (remote w)) ws) as [g |] eqn:Hws.
  2:{ unfold st_error, emit, title_error.
      cbn [fst snd remote jitter events sheets is_ret exn_str].
      split; [reflexivity |].
      eapply upd_header_failed with (msg := ws); eauto.
      - apply requests_since_app.
      - apply events_since_app. }
  cbn [is_ret]. 
  change (nth (1 - 1) g []) with (nth 0 g []).
  assert (Hhdr : map (py_str str_num) (nth 0 g [])
                 = sheet_header str_num (remote w) ws)
    by (unfold sheet_header; rewrite Hws; reflexivity).
  rewrite Hhdr.
  fold (header_read ws w).
  destruct (batch_for (sheet_header str_num (remote w) ws) (row_index + 2)
              scores score) as [| u us] eqn:Hbatch.
  - unfold report_scores_updated.
    rewrite try_bind_outcome.
    unfold try_except, st_success, st_error, emit.
    assert (Hm : forall m,
               update_report df row_index = m ->
               update_run str_num float_str ws df row_index scores w
                 (mkWorld (remote (header_read ws w)) (jitter (header_read ws w))
                    (events (header_read ws w) ++ [EvUi m]))).
    { intros m <-. unfold header_read. cbn [remote jitter events].
      eapply upd_nothing_to_write; eauto.
      - apply requests_since_app.
      - apply events_since_app. }
    unfold update_report in Hm.
    destruct (name_at df row_index); cbn [fst snd];
      (split; [reflexivity | apply Hm; reflexivity]).
  - rewrite <- Hbatch.
    fold (write_batch ws df row_index
            (batch_for (sheet_header str_num (remote w) ws) (row_index + 2)
               scores score)).
    destruct (write_batch_run ws df row_index
                (batch_for (sheet_header str_num (remote w) ws) (row_index + 2)
                   scores score) (header_read ws w))
      as (Hret & k & b & evs & H1 & H2 & H3).
    split; [exact Hret |].
    eapply upd_written with (k := k) (b := b); eauto.
    + rewrite Hbatch. discriminate.
    + unfold requests_since. rewrite H1. cbn [header_read remote served].
      rewrite <- app_assoc. cbn [app]. apply skipn_length_app.
Qed.

Lemma str_in_In (x : string) (xs : list string) :
  str_in x xs = true <-> In x xs.
Proof.
  induction xs as [| y xs IH]; cbn [str_in In].
  - split; [discriminate | intros []].
  - destruct (String.eqb x y) eqn:E.
    + apply String.eqb_eq in E. subst y. split; auto.
    + apply String.eqb_neq in E. rewrite IH. split; auto.
      intros [H | H]; [congruence | exact H].
Qed.

Lemma batch_for_rows (headers : list string) (sheet_row : nat)
  (scores : dict) (score : Q) (u : cell_update) :
  In u (batch_for headers sheet_row scores score) -> upd_row u = sheet_row.
Proof.
  unfold batch_for, skill_updates.
  assert (Hskill : forall u0,
             In u0 (flat_map
                      (fun kv =>
                         if str_in (fst kv) headers
                         then [cell_for headers sheet_row (fst kv) (snd kv)]
                         else []) scores) ->
             upd_row u0 = sheet_row).
  { intros u0 Hin. apply in_flat_map in Hin. destruct Hin as (kv & _ & Hin).
    destruct (str_in (fst kv) headers); [| destruct Hin].
    destruct Hin as [<- | []]. reflexivity. }
  destruct (str_in "Applicant Score" headers); [| apply Hskill].
  intros Hin. apply in_app_or in Hin. destruct Hin as [Hin | [<- | []]];
    [apply Hskill; exact Hin | reflexivity].
Qed.

Lemma batch_for_nil (headers : list string) (sheet_row : nat)
  (scores : dict) (score : Q) :
  no_header_matches headers scores ->
  batch_for headers sheet_row scores score = [].
Proof.
  intros Hno. unfold batch_for, skill_updates.
  replace (str_in "Applicant Score" headers) with false.
  - assert (H : forall kvs : dict,
               (forall kv, In kv kvs -> In (fst kv) (dict_keys scores)) ->
               flat_map
                 (fun kv =>
                    if str_in (fst kv) headers
                    then [cell_for headers sheet_row (fst kv) (snd kv)]
                    else []) kvs = []).
    { induction kvs as [| kv kvs IH]; intros Hk; [reflexivity |].
      cbn [flat_map].
      destruct (str_in (fst kv) headers) eqn:E.
      - apply str_in_In in E. destruct (Hno _ E) as [Hnot _].
        exfalso. apply Hnot. apply Hk. left. reflexivity.
      - apply IH. intros kv' Hkv. apply Hk. right. exact Hkv. }
    apply H. intros kv Hkv. unfold dict_keys. apply in_map. exact Hkv.
  - symmetry. destruct (str_in "Applicant Score" headers) eqn:E; [| reflexivity].
    apply str_in_In in E. destruct (Hno _ E) as [_ Hne]. congruence.
Qed.

Lemma filter_repeat_false {B : Type} (f : B -> bool) (x : B) (k : nat) :
  f x = false -> filter f (repeat x k) = [].
Proof.
  intros Hf. induction k as [| k IH]; cbn [repeat filter]; [reflexivity |].
  rewrite Hf. exact IH.
Qed.

Lemma filter_repeat_true {B : Type} (f : B -> bool) (x : B) (k : nat) :
  f x = true -> filter f (repeat x k) = repeat x k.
Proof.
  intros Hf. induction k as [| k IH]; cbn [repeat filter]; [reflexivity |].
  rewrite Hf, IH. reflexivity.
Qed.

(** C7, as the code has it. A score update first reads the header row,
    which is a remote call of its own.  Every other request it makes is
    the same batched write, sent through the executor: at most 3 times,
    served at most once, and every cell of it lies in spreadsheet row
    [row_index + 2].  When no header is a rated skill or the score column,
    the header read is the only request, no worksheet changes, and for a
    position of the table that has a name, success is reported. *)
Theorem update_writes_one_batch_at_row :
  forall (str_num : Q -> string) (float_str : string -> option Q)
         (ws : string) (df : DataFrame) (row_index : nat) (scores : dict)
         (w : world),
    let w' := snd (update_applicant_scores str_num float_str ws df
                     row_index scores w) in
    let reqs := requests_since w w' in
    (forall r b, In (r, b) reqs ->
        r = ReqRowValues ws 1
        \/ exists updates,
             r = ReqBatchUpdate ws updates
             /\ forall u, In u updates -> upd_row u = row_index + 2)
    /\ List.length (filter is_served_batch_write reqs) <= 1
    /\ List.length (filter is_batch_write reqs) <= 3
    /\ (forall score g name,
           calculate_applicant_score float_str scores = Ret score ->
           fault_at 0 (faults (remote w)) = None ->
           find_sheet (sheets (remote w)) ws = Some g ->
           no_header_matches (sheet_header str_num (remote w) ws) scores ->
           name_at df row_index = Ret name ->
           reqs = [(ReqRowValues ws 1, true)]
           /\ sheets (remote w') = sheets (remote w)
           /\ events_since w w' = [EvUi (OkScoresUpdated name)]).
Proof.
  intros str_num float_str ws df row_index scores w w' reqs.
  destruct (update_runs str_num float_str ws df row_index scores w)
    as [_ Hrun].
  fold w' in Hrun. subst reqs.
  destruct Hrun as [e He Hr Hs Hev | score msg Hsc Hwhy Hr Hs Hev
                   | score g Hsc Hf Hg Hb Hr Hs Hev
                   | score g k b Hsc Hf Hg updates Hne Hw Hr Hk];
    rewrite Hr.
  - split; [| split; [cbn; lia | split; [cbn; lia |]]].
    + intros r b [].
    + intros; congruence.
  - split; [| split; [cbn; lia | split; [cbn; lia |]]].
    + intros r b [Hin | []]. injection Hin as <- _. left. reflexivity.
    + intros score' g' name Hsc' Hf' Hg' _ _.
      destruct Hwhy as [Hwhy | (_ & Hwhy & _)]; congruence.
  - split; [| split; [cbn; lia | split; [cbn; lia |]]].
    + intros r b [Hin | []]. injection Hin as <- _. left. reflexivity.
    + intros score' g' name _ _ _ _ Hname.
      split; [reflexivity | split; [exact Hs |]].
      rewrite Hev. unfold update_report. rewrite Hname. reflexivity.
  - split; [| split; [| split]].
    + intros r b0 [Hin | Hin]; [injection Hin as <- _; left; reflexivity |].
      right. exists updates.
      split; [| intros u; apply batch_for_rows].
      apply in_app_or in Hin. destruct Hin as [Hin | Hin].
      * apply repeat_spec in Hin. congruence.
      * destruct b; [| destruct Hin].
        destruct Hin as [Hin | []]. congruence.
    + cbn [filter is_served_batch_write is_batch_write fst snd andb].
      rewrite filter_app, filter_repeat_false by reflexivity.
      destruct b; cbn; lia.
    + cbn [filter is_batch_write fst].
      rewrite filter_app, filter_repeat_true, length_app, repeat_length
        by reflexivity.
      destruct b; cbn [filter is_batch_write fst List.length]; lia.
    + intros score' g' name Hsc' _ _ Hno _.
      exfalso. apply Hne. unfold updates.
      apply batch_for_nil. exact Hno.
Qed.

(** On a rating for a skill the worksheet has no column for. *)
Lemma update_writes_one_batch_at_row_witness :
  requests_since reorder_world
    (snd (update_applicant_scores sample_str_num sample_float_str SHEET_NAME
            alice_df 0 data_rating reorder_world))
  = [(ReqRowValues SHEET_NAME 1, true)].
Proof.
  refine (proj1 (proj2 (proj2 (proj2
            (update_writes_one_batch_at_row sample_str_num sample_float_str
               SHEET_NAME alice_df 0 data_rating reorder_world)))
            (700 # 100)%Q
            [[VStr "name"; VStr "Trust"]; [VStr "Alice"; VNum 9]]
            (VStr "Alice") _ _ _ _ _)); try reflexivity.
  intros h Hin. cbn in Hin.
  destruct Hin as [<- | [<- | []]];
    (split; [intros [H | []]; discriminate H | discriminate]).
Defined.

(** C7, as the specification words it, fails: with no header matching,
    the update still makes a remote call, the read of the header row. *)
Lemma header_read_is_a_remote_call :
  let res := update_applicant_scores sample_str_num sample_float_str SHEET_NAME
               alice_df 0 data_rating reorder_world in
  sheet_header sample_str_num (remote reorder_world) SHEET_NAME
  = ["name"; "Trust"]
  /\ fst res = Ret tt
  /\ requests_since reorder_world (snd res) = [(ReqRowValues SHEET_NAME 1, true)]
  /\ events_since reorder_world (snd res) = [EvUi (OkScoresUpdated (VStr "Alice"))]
  /\ requests_since reorder_world (snd res) <> [].
Proof.
  repeat split. discriminate.
Qed.

(** ** Which requests go through the executor *)


Lemma events_since_eq (w w' : world) (evs : list event) :
  events w' = events w ++ evs -> events_since w w' = evs.
Proof.
  intros H. unfold events_since. rewrite H. apply skipn_length_app.
Qed.





(** ** Properties of [get_or_create_worksheet] *)

(** Resolving a worksheet that exists is one lookup and nothing else. *)
Lemma resolve_existing (worksheet_name : string) (w : world) (g : worksheet) :
  find_sheet (sheets (remote w)) worksheet_name = Some g ->
  get_or_create_worksheet worksheet_name w
  = (match fault_at 0 (faults (remote w)) with
     | Some msg => Raise (mkExn APIError msg)
     | None => Ret worksheet_name
     end,
     mkWorld
       (mkStore (sheets (remote w)) (tl (faults (remote w)))
          (served (remote w)
           ++ [(ReqWorksheet worksheet_name,
                match fault_at 0 (faults (remote w)) with
                | Some _ => false
                | None => true
                end)]))
       (jitter w) (events w)).
Proof.
  intros Hg.
  unfold get_or_create_worksheet, try_except, lift_store, sp_worksheet,
    remote_call.
  rewrite next_fault_nth.
  destruct (fault_at 0 (faults (remote w))) as [msg |].
  - reflexivity.
  - rewrite Hg. reflexivity.
Qed.

(** C9. For a worksheet name that exists, resolving twice changes no
    worksheet and requests nothing but the two lookups: no worksheet is
    added and no header row is written.  Each call that returns, returns
    the handle of that same worksheet, and both return unless the store
    fails a lookup. *)
Theorem resolve_existing_is_idempotent :
  forall (worksheet_name : string) (w : world) (g : worksheet),
    find_sheet (sheets (remote w)) worksheet_name = Some g ->
    let first := get_or_create_worksheet worksheet_name w in
    let second := get_or_create_worksheet worksheet_name (snd first) in
    sheets (remote (snd second)) = sheets (remote w)
    /\ (exists b1 b2,
          requests_since w (snd second)
          = [(ReqWorksheet worksheet_name, b1);
             (ReqWorksheet worksheet_name, b2)])
    /\ events (snd second) = events w
    /\ (forall h, fst first = Ret h -> h = worksheet_name)
    /\ (forall h, fst second = Ret h -> h = worksheet_name)
    /\ (fault_at 0 (faults (remote w)) = None ->
        fault_at 1 (faults (remote w)) = None ->
        fst first = Ret worksheet_name /\ fst second = Ret worksheet_name).
Proof.
  intros name w g Hg first second.
  assert (H1 : first = get_or_create_worksheet name w) by reflexivity.
  rewrite (resolve_existing name w Hg) in H1.
  assert (Hg1 : find_sheet (sheets (remote (snd first))) name = Some g)
    by (rewrite H1; exact Hg).
  assert (H2 : second = get_or_create_worksheet name (snd first))
    by reflexivity.
  rewrite (resolve_existing name (snd first) Hg1) in H2.
  rewrite H2. cbn [fst snd remote sheets events].
  rewrite H1. cbn [fst snd remote sheets events faults served jitter].
  rewrite fault_at_tl.
  split; [reflexivity |].
  split.
  { eexists. eexists. unfold requests_since. cbn [remote served].
    rewrite <- app_assoc. apply skipn_length_app. }
  split; [reflexivity |].
  split.
  { intros h. destruct (fault_at 0 (faults (remote w))); congruence. }
  split.
  { intros h. destruct (fault_at 1 (faults (remote w))); congruence. }
  intros -> ->. split; reflexivity.
Qed.

(** On the denied worksheet of the sample spreadsheet. *)
Lemma resolve_existing_is_idempotent_witness :
  fst (get_or_create_worksheet DENIED_SHEET_NAME reorder_world)
  = Ret DENIED_SHEET_NAME
  /\ fst (get_or_create_worksheet DENIED_SHEET_NAME
            (snd (get_or_create_worksheet DENIED_SHEET_NAME reorder_world)))
     = Ret DENIED_SHEET_NAME.
Proof.
  refine (proj2 (proj2 (proj2 (proj2 (proj2
            (@resolve_existing_is_idempotent DENIED_SHEET_NAME reorder_world
               [[VStr "Trust"; VStr "name"]] _))))) _ _);
    reflexivity.
Defined.

(** ** Properties of [load_applicants_data] *)

(** Fetching the records of a worksheet without data rows, the request
    being served at the first attempt. *)
Lemma fetch_no_records (str_num : Q -> string) (ws : string) (w : world)
  (g : worksheet) :
  fault_at 0 (faults (remote w)) = None ->
  find_sheet (sheets (remote w)) ws = Some g ->
  List.length g <= 1 ->
  fst (retry_api_call_default (returning (ws_get_all_records str_num ws)) w)
  = Ret (Some []).
Proof.
  intros Hf Hg Hlen.
  unfold retry_api_call_default, retry_api_call. cbn [seq].
  rewrite retry_attempts_step.
  unfold ws_get_all_records, returning, remote_call.
  rewrite next_fault_nth, Hf, Hg.
  destruct g as [| header [| row rows]]; [reflexivity | reflexivity |].
  cbn [List.length] in Hlen. lia.
Qed.



(** ** Further properties of [retry_api_call] *)

Section RetryShape.

Context {A : Type}.
Variable func : store_action (option A).
Variable max_retries : nat.
Variable base_delay : Q.

Lemma retried_events_next (first : nat) (js : list Q) (k : nat) :
  retried_events max_retries base_delay first js (S k) =
  (let d := (backoff base_delay first + hd 0%Q js)%Q in
   [EvInvoke; EvUi (WarnRateLimitRetry d (first + 1) max_retries); EvSleep d])
  ++ retried_events max_retries base_delay (S first) (tl js) k.
Proof.
  unfold retried_events.
  rewrite flat_map_seq_shift, Nat.add_0_r.
  f_equal.
  - destruct js; reflexivity.
  - apply flat_map_ext; intros i.
    replace (first + S i) with (S first + i) by lia.
    destruct js as [| j js]; [destruct i |]; reflexivity.
Qed.



End RetryShape.


Lemma sleeps_retried (n : nat) (base : Q) (js : list Q) (k : nat) :
  sleeps (retried_events n base 0 js k) = map (delay_at base js) (seq 0 k).
Proof.
  unfold retried_events.
  apply sleeps_flat_map. intros; reflexivity.
Qed.




Section RetryAnyCall.

Context {A : Type}.
Variable func : store_action (option A).
Variable max_retries : nat.
Variable base_delay : Q.

(** Whatever the operation does, a run is some retried attempts and then
    nothing (no attempt to make), a last call, or a last call and the
    exhaustion message after the last attempt allowed. *)
Lemma retry_attempts_shape (m : nat) :
  forall (first : nat) (w : world),
    first + m = max_retries ->
    exists (k : nat) (tail : list event),
      events (snd (retry_attempts func max_retries base_delay (seq first m) w))
      = events w
          ++ retried_events max_retries base_delay first (jitter w) k ++ tail
      /\ ((tail = [] /\ m = 0 /\ k = 0)
          \/ (tail = [EvInvoke] /\ k < m)
          \/ (tail = [EvInvoke; EvUi ErrRateLimitExceeded] /\ S k = m)).
Proof.
  induction m as [| m IH]; intros first w Hm.
  - exists 0, []. split; [| left; auto].
    cbn. rewrite app_nil_r. reflexivity.
  - cbn [seq]. rewrite retry_attempts_step.
    destruct (func (remote w)) as [[x | e] s'].
    + exists 0, [EvInvoke]. split; [reflexivity | right; left; split; [reflexivity | lia]].
    + destruct (is_rate_limit e).
      * destruct (first <? max_retries - 1) eqn:Hlt.
        -- cbv zeta.
           match goal with
           | |- context [retry_attempts _ _ _ _ ?w1] =>
               destruct (IH (S first) w1 ltac:(lia)) as (k & tail & He & Ht)
           end.
           cbn [events jitter] in He.
           exists (S k), tail. split.
           ++ rewrite He, retried_events_next, <- !app_assoc.
              do 2 f_equal.
           ++ apply Nat.ltb_lt in Hlt.
              destruct Ht as [(-> & Hm0 & _) | [(-> & Hk) | (-> & Hk)]];
                [lia | right; left; split; [reflexivity | lia]
                | right; right; split; [reflexivity | lia]].
        -- apply Nat.ltb_ge in Hlt.
           exists 0, [EvInvoke; EvUi ErrRateLimitExceeded].
           split; [reflexivity | right; right; split; [reflexivity | lia]].
      * exists 0, [EvInvoke].
        split; [reflexivity | right; left; split; [reflexivity | lia]].
Qed.

End RetryAnyCall.



Lemma pow2_succ (k : nat) : (pow2 (S k) == 2 * pow2 k)%Q.
Proof.
  unfold pow2. rewrite Nat2Z.inj_succ, Z.pow_succ_r by lia.
  rewrite inject_Z_mult. reflexivity.
Qed.

Lemma pow2_ge_1 (k : nat) : (1 <= pow2 k)%Q.
Proof.
  induction k as [| k IH]; [change (pow2 0) with 1%Q; lra |].
  rewrite pow2_succ. lra.
Qed.

Lemma sum_Q_snoc (l : list Q) (x : Q) : sum_Q (l ++ [x]) = (sum_Q l + x)%Q.
Proof.
  unfold sum_Q. rewrite fold_left_app. reflexivity.
Qed.

Lemma inject_nat_succ (k : nat) :
  (inject_Z (Z.of_nat (S k)) == inject_Z (Z.of_nat k) + 1)%Q.
Proof.
  rewrite Nat2Z.inj_succ. unfold Z.succ. rewrite inject_Z_plus. reflexivity.
Qed.

(** The sleeps after [k] failed attempts add up to at most
    [base_delay * (2^k - 1) + k]. *)
Lemma sum_delays_bound (base : Q) (js : list Q) (k : nat) :
  (0 <= base)%Q ->
  Forall unit_jitter js ->
  (sum_Q (map (delay_at base js) (seq 0 k))
   <= base * (pow2 k - 1) + inject_Z (Z.of_nat k))%Q.
Proof.
  intros Hb Hj. induction k as [| k IH].
  - change (pow2 0) with 1%Q. unfold sum_Q. cbn [seq map fold_left Z.of_nat].
    change (inject_Z 0) with 0%Q. lra.
  - rewrite seq_S, map_app. cbn [map Nat.add].
    rewrite sum_Q_snoc, pow2_succ, inject_nat_succ.
    destruct (nth_unit_jitter k Hj) as [_ H1].
    change (delay_at base js k) with (base * pow2 k + nth k js 0)%Q.
    set (total := sum_Q (map (delay_at base js) (seq 0 k))) in *.
    nra.
Qed.

Lemma delays_bound_mono (base : Q) (k m : nat) :
  (0 <= base)%Q ->
  k <= m ->
  (base * (pow2 k - 1) + inject_Z (Z.of_nat k)
   <= base * (pow2 m - 1) + inject_Z (Z.of_nat m))%Q.
Proof.
  intros Hb Hkm. induction Hkm as [| m Hkm IH]; [lra |].
  rewrite pow2_succ, inject_nat_succ.
  pose proof (pow2_ge_1 m) as Hp.
  nra.
Qed.

(** X3. Whatever the operation does, with a base delay that is not
    negative the executor sleeps at most
    [base_delay * (2^(max_retries - 1) - 1) + (max_retries - 1)] seconds
    in all: 5 seconds with the defaults. *)
Theorem retry_total_sleep_is_bounded :
  forall (A : Type) (func : store_action (option A))
         (max_retries : nat) (base_delay : Q) (w : world),
    (0 <= base_delay)%Q ->
    Forall unit_jitter (jitter w) ->
    let evs := events_since w
                 (snd (retry_api_call func max_retries base_delay w)) in
    (sum_Q (sleeps evs) <= sleep_bound max_retries base_delay)%Q
    /\ (sleep_bound 3 1 == 5)%Q.
Proof.
  intros A func n base w Hb Hj evs.
  split; [| reflexivity].
  destruct (@retry_attempts_shape A func n base n 0 w eq_refl)
    as (k & tail & He & Ht).
  assert (Hevs : evs = retried_events n base 0 (jitter w) k ++ tail).
  { unfold evs, retry_api_call. apply events_since_eq. exact He. }
  assert (Hs : sleeps evs = map (delay_at base (jitter w)) (seq 0 k)).
  { rewrite Hevs, sleeps_app, sleeps_retried.
    destruct Ht as [(-> & _) | [(-> & _) | (-> & _)]]; apply app_nil_r. }
  assert (Hk : k <= n - 1)
    by (destruct Ht as [(_ & ? & ?) | [(_ & ?) | (_ & ?)]]; lia).
  rewrite Hs. unfold sleep_bound.
  eapply Qle_trans; [apply sum_delays_bound; assumption |].
  apply delays_bound_mono; assumption.
Qed.

(** On a call that always reports a quota error, with the defaults. *)
Lemma retry_total_sleep_is_bounded_witness :
  (sum_Q (sleeps (events_since exhausting_world
                    (snd (retry_api_call always_quota 3 1 exhausting_world))))
   <= 5)%Q.
Proof.
  assert (Hj : Forall unit_jitter (jitter exhausting_world))
    by (repeat constructor; discriminate).
  assert (Hb : (0 <= 1)%Q) by discriminate.
  pose proof (retry_total_sleep_is_bounded always_quota 3 exhausting_world
                Hb Hj) as T.
  cbv zeta in T. destruct T as [T1 T2].
  eapply Qle_trans; [exact T1 |].
  rewrite T2. apply Qle_refl.
Defined.

(** ** The rate-limit test *)

Lemma lower_append (a b : string) :
  lower (a ++ b)%string = (lower a ++ lower b)%string.
Proof.
  induction a as [| c a IH]; [reflexivity |].
  cbn [String.append lower]. rewrite IH. reflexivity.
Qed.

Lemma prefix_append (n b : string) : prefix n (n ++ b)%string = true.
Proof.
  induction n as [| c n IH]; [destruct b; reflexivity |].
  cbn [String.append prefix].
  destruct (ascii_dec c c); [exact IH | congruence].
Qed.

Lemma contains_prefix (n h : string) :
  prefix n h = true -> contains n h = true.
Proof.
  intros H. destruct h; cbn [contains]; rewrite H; reflexivity.
Qed.

Lemma contains_append (n a b : string) :
  contains n (a ++ n ++ b)%string = true.
Proof.
  induction a as [| c a IH].
  - cbn [String.append]. apply contains_prefix, prefix_append.
  - cbn [String.append contains].
    destruct (prefix n (String c (a ++ n ++ b))); [reflexivity | exact IH].
Qed.

(** X4. An error is taken for a rate-limit error whenever its text holds
    one of the three signatures anywhere, in any mix of upper and lower
    case, whatever the class of the exception and the rest of the text. *)
Theorem rate_limit_signature_anywhere :
  forall (kind : exn_class) (before signature after : string),
    In (lower signature) rate_limit_signatures ->
    is_rate_limit (mkExn kind (before ++ signature ++ after)%string) = true.
Proof.
  intros kind before signature after Hin.
  unfold is_rate_limit. cbn [exn_str].
  rewrite !lower_append.
  cbn [rate_limit_signatures In] in Hin.
  destruct Hin as [H | [H | [H | []]]]; rewrite <- H, contains_append;
    rewrite ?orb_true_r; reflexivity.
Qed.

(** On a text that quotes the status code in the middle. *)
Lemma rate_limit_signature_anywhere_witness :
  is_rate_limit
    (mkExn KeyError ("row " ++ "Rate Limit" ++ " of sheet")%string) = true.
Proof.
  apply rate_limit_signature_anywhere. right. right. left. reflexivity.
Defined.

(** ** Further properties of [get_or_create_worksheet] *)

Lemma find_sheet_app (ss : list (string * worksheet)) (t t' : string)
  (g : worksheet) :
  find_sheet (ss ++ [(t, g)]) t'
  = match find_sheet ss t' with
    | Some g' => Some g'
    | None => if String.eqb t' t then Some g else None
    end.
Proof.
  induction ss as [| [t0 g0] ss IH]; cbn [app find_sheet]; [reflexivity |].
  destruct (String.eqb t' t0); [reflexivity | exact IH].
Qed.

Lemma put_sheet_app_new (ss : list (string * worksheet)) (t : string)
  (g g' : worksheet) :
  find_sheet ss t = None ->
  put_sheet (ss ++ [(t, g)]) t g' = ss ++ [(t, g')].
Proof.
  induction ss as [| [t0 g0] ss IH]; cbn [app find_sheet put_sheet].
  - intros _. rewrite String.eqb_refl. reflexivity.
  - destruct (String.eqb t t0); [discriminate |].
    intros H. rewrite IH by exact H. reflexivity.
Qed.

(** Resolving a name the spreadsheet lacks: the lookup, then the creation,
    then the header row, up to the first request the store fails. *)
Lemma resolve_absent (worksheet_name : string) (w : world) :
  find_sheet (sheets (remote w)) worksheet_name = None ->
  let ss := sheets (remote w) in
  let fs := faults (remote w) in
  let lookup := (ReqWorksheet worksheet_name, false) in
  let add := ReqAddWorksheet worksheet_name 1000 20 in
  let append := ReqAppendRow worksheet_name canonical_columns in
  get_or_create_worksheet worksheet_name w
  = match fault_at 0 fs with
    | Some msg =>
        (Raise (mkExn APIError msg), after_requests w ss (tl fs) [lookup])
    | None =>
        match fault_at 1 fs with
        | Some msg =>
            (Raise (mkExn APIError msg),
             after_requests w ss (tl (tl fs)) [lookup; (add, false)])
        | None =>
            match fault_at 2 fs with
            | Some msg =>
                (Raise (mkExn APIError msg),
                 after_requests w (ss ++ [(worksheet_name, [])])
                   (tl (tl (tl fs)))
                   [lookup; (add, true); (append, false)])
            | None =>
                (Ret worksheet_name,
                 after_requests w (ss ++ [(worksheet_name, canonical_grid)])
                   (tl (tl (tl fs)))
                   [lookup; (add, true); (append, true)])
            end
        end
    end.
Proof.
  intros Hnone. cbv zeta.
  unfold get_or_create_worksheet, try_except, after_requests.
  unfold lift_store at 1. unfold sp_worksheet, remote_call at 1.
  rewrite next_fault_nth.
  destruct (fault_at 0 (faults (remote w))) as [msg0 |]; [reflexivity |].
  rewrite Hnone. cbn [exn_kind is_ret].
  unfold bind, lift_store, sp_add_worksheet, ws_append_row, remote_call, ret.
  cbn [remote sheets faults served jitter events].
  rewrite next_fault_nth, fault_at_tl.
  destruct (fault_at 1 (faults (remote w))) as [msg1 |].
  { rewrite <- app_assoc. reflexivity. }
  rewrite Hnone. cbn [remote sheets faults served jitter events is_ret].
  rewrite next_fault_nth, !fault_at_tl.
  destruct (fault_at 2 (faults (remote w))) as [msg2 |].
  { rewrite <- !app_assoc. reflexivity. }
  rewrite find_sheet_app, Hnone, String.eqb_refl.
  rewrite put_sheet_app_new by exact Hnone.
  cbn [is_ret app]. rewrite <- !app_assoc. reflexivity.
Qed.

Lemma requests_since_after (w : world) (ss : list (string * worksheet))
  (fs : list (option string)) (reqs : list (request * bool)) :
  requests_since w (after_requests w ss fs reqs) = reqs.
Proof.
  unfold after_requests. apply requests_since_app.
Qed.

Lemma py_str_text (str_num : Q -> string) (l : list string) :
  map (py_str str_num) (map VStr l) = l.
Proof.
  rewrite map_map. cbn [py_str]. apply map_id.
Qed.

(** X5. Resolving a name the spreadsheet lacks, the store failing no
    request: the lookup reports the worksheet missing, the worksheet is
    added after the existing ones with the canonical header as its only
    row, the other worksheets stay as they were, and its handle is
    returned; resolving the name again is then a single lookup that
    returns the same handle and changes nothing. *)
Theorem resolve_creates_with_canonical_header :
  forall (str_num : Q -> string) (worksheet_name : string) (w : world),
    find_sheet (sheets (remote w)) worksheet_name = None ->
    fault_at 0 (faults (remote w)) = None ->
    fault_at 1 (faults (remote w)) = None ->
    fault_at 2 (faults (remote w)) = None ->
    let first := get_or_create_worksheet worksheet_name w in
    let second := get_or_create_worksheet worksheet_name (snd first) in
    fst first = Ret worksheet_name
    /\ sheets (remote (snd first))
       = sheets (remote w) ++ [(worksheet_name, canonical_grid)]
    /\ requests_since w (snd first)
       = [(ReqWorksheet worksheet_name, false);
          (ReqAddWorksheet worksheet_name 1000 20, true);
          (ReqAppendRow worksheet_name canonical_columns, true)]
    /\ sheet_header str_num (remote (snd first)) worksheet_name
       = canonical_columns
    /\ (forall other,
           other <> worksheet_name ->
           find_sheet (sheets (remote (snd first))) other
           = find_sheet (sheets (remote w)) other)
    /\ (fault_at 3 (faults (remote w)) = None ->
        fst second = Ret worksheet_name
        /\ sheets (remote (snd second)) = sheets (remote (snd first))
        /\ requests_since (snd first) (snd second)
           = [(ReqWorksheet worksheet_name, true)]).
Proof.
  intros str_num name w Hnone H0 H1 H2 first second.
  assert (Hfirst : first
                   = (Ret name,
                      after_requests w (sheets (remote w) ++ [(name, canonical_grid)])
                        (tl (tl (tl (faults (remote w)))))
                        [(ReqWorksheet name, false);
                         (ReqAddWorksheet name 1000 20, true);
                         (ReqAppendRow name canonical_columns, true)])).
  { unfold first. rewrite (resolve_absent name w Hnone). cbv zeta.
    rewrite H0, H1, H2. reflexivity. }
  assert (Hfound : find_sheet (sheets (remote (snd first))) name
                   = Some canonical_grid).
  { rewrite Hfirst. cbn [snd after_requests remote sheets].
    rewrite find_sheet_app, Hnone, String.eqb_refl. reflexivity. }
  split; [rewrite Hfirst; reflexivity |].
  split; [rewrite Hfirst; reflexivity |].
  split; [rewrite Hfirst; apply requests_since_after |].
  split.
  { unfold sheet_header. rewrite Hfound. apply py_str_text. }
  split.
  { intros other Hne. rewrite Hfirst. cbn [snd after_requests remote sheets].
    rewrite find_sheet_app.
    destruct (find_sheet (sheets (remote w)) other); [reflexivity |].
    destruct (String.eqb other name) eqn:E; [| reflexivity].
    apply String.eqb_eq in E. congruence. }
  intros H3.
  unfold second. rewrite (resolve_existing name (snd first) Hfound).
  assert (Hf : fault_at 0 (faults (remote (snd first))) = None).
  { rewrite Hfirst. cbn [snd after_requests remote faults].
    rewrite !fault_at_tl. exact H3. }
  rewrite Hf. cbn [fst snd remote sheets].
  split; [reflexivity | split; [reflexivity |]].
  apply requests_since_app.
Qed.

(** On the empty spreadsheet. *)
Lemma resolve_creates_with_canonical_header_witness :
  sheets (remote (snd (get_or_create_worksheet HIRED_SHEET_NAME quiet_world)))
  = [(HIRED_SHEET_NAME, canonical_grid)].
Proof.
  refine (proj1 (proj2
            (@resolve_creates_with_canonical_header sample_str_num
               HIRED_SHEET_NAME quiet_world _ _ _ _)));
    reflexivity.
Defined.

(** X6. When the store fails the lookup with an error of its own, the
    resolver raises that error and does nothing more: no worksheet is
    added, no header is written, whether the name exists or not. *)
Theorem resolve_propagates_lookup_error :
  forall (worksheet_name : string) (w : world) (msg : string),
    fault_at 0 (faults (remote w)) = Some msg ->
    let r := get_or_create_worksheet worksheet_name w in
    fst r = Raise (mkExn APIError msg)
    /\ sheets (remote (snd r)) = sheets (remote w)
    /\ requests_since w (snd r) = [(ReqWorksheet worksheet_name, false)]
    /\ events (snd r) = events w.
Proof.
  intros name w msg Hf r. unfold r.
  destruct (find_sheet (sheets (remote w)) name) as [g |] eqn:Hg.
  - rewrite (resolve_existing name w Hg), Hf. cbn [fst snd remote sheets events].
    repeat split. apply requests_since_app.
  - rewrite (resolve_absent name w Hg). cbv zeta. rewrite Hf.
    cbn [fst snd after_requests remote sheets events].
    repeat split. apply requests_since_app.
Qed.

(** On a spreadsheet whose lookup is refused. *)
Lemma resolve_propagates_lookup_error_witness :
  fst (get_or_create_worksheet DENIED_SHEET_NAME first_fails_world)
  = Raise (mkExn APIError "403 permission denied").
Proof.
  refine (proj1 (@resolve_propagates_lookup_error DENIED_SHEET_NAME
                   first_fails_world "403 permission denied" _)).
  reflexivity.
Defined.

(** X7. When the worksheet is added and the store then fails the write of
    the header row, the resolver raises that error and the worksheet stays
    in the spreadsheet without any row; resolving the name again returns
    its handle after a single lookup and never writes the header. *)
Theorem resolve_leaves_headerless_worksheet :
  forall (str_num : Q -> string) (worksheet_name : string) (w : world)
         (msg : string),
    find_sheet (sheets (remote w)) worksheet_name = None ->
    fault_at 0 (faults (remote w)) = None ->
    fault_at 1 (faults (remote w)) = None ->
    fault_at 2 (faults (remote w)) = Some msg ->
    let first := get_or_create_worksheet worksheet_name w in
    let second := get_or_create_worksheet worksheet_name (snd first) in
    fst first = Raise (mkExn APIError msg)
    /\ find_sheet (sheets (remote (snd first))) worksheet_name = Some []
    /\ (fault_at 3 (faults (remote w)) = None ->
        fst second = Ret worksheet_name
        /\ requests_since (snd first) (snd second)
           = [(ReqWorksheet worksheet_name, true)]
        /\ find_sheet (sheets (remote (snd second))) worksheet_name = Some []
        /\ sheet_header str_num (remote (snd second)) worksheet_name = []).
Proof.
  intros str_num name w msg Hnone H0 H1 H2 first second.
  assert (Hfirst : first
                   = (Raise (mkExn APIError msg),
                      after_requests w (sheets (remote w) ++ [(name, [])])
                        (tl (tl (tl (faults (remote w)))))
                        [(ReqWorksheet name, false);
                         (ReqAddWorksheet name 1000 20, true);
                         (ReqAppendRow name canonical_columns, false)])).
  { unfold first. rewrite (resolve_absent name w Hnone). cbv zeta.
    rewrite H0, H1, H2. reflexivity. }
  assert (Hfound : find_sheet (sheets (remote (snd first))) name = Some []).
  { rewrite Hfirst. cbn [snd after_requests remote sheets].
    rewrite find_sheet_app, Hnone, String.eqb_refl. reflexivity. }
  split; [rewrite Hfirst; reflexivity |].
  split; [exact Hfound |].
  intros H3.
  unfold second. rewrite (resolve_existing name (snd first) Hfound).
  assert (Hf : fault_at 0 (faults (remote (snd first))) = None).
  { rewrite Hfirst. cbn [snd after_requests remote faults].
    rewrite !fault_at_tl. exact H3. }
  rewrite Hf. cbn [fst snd remote sheets].
  split; [reflexivity |].
  split; [apply requests_since_app |].
  split; [exact Hfound |].
  unfold sheet_header. cbn [remote sheets]. rewrite Hfound. reflexivity.
Qed.

(** On an empty spreadsheet whose third request fails. *)
Lemma resolve_leaves_headerless_worksheet_witness :
  fst (get_or_create_worksheet DENIED_SHEET_NAME
         (snd (get_or_create_worksheet DENIED_SHEET_NAME third_fails_world)))
  = Ret DENIED_SHEET_NAME
  /\ find_sheet
       (sheets (remote (snd (get_or_create_worksheet DENIED_SHEET_NAME
                               third_fails_world))))
       DENIED_SHEET_NAME = Some [].
Proof.
  pose proof (@resolve_leaves_headerless_worksheet sample_str_num
                DENIED_SHEET_NAME third_fails_world "500 backend error"
                eq_refl eq_refl eq_refl eq_refl) as T.
  cbv zeta in T. destruct T as (_ & T2 & T3).
  split; [exact (proj1 (T3 eq_refl)) | exact T2].
Defined.

(** ** Further properties of [load_applicants_data] *)

Section ReadOnlyRequest.

Context {B : Type}.
Variable r : request.
Variable serve :
  list (string * worksheet) -> outcome B * list (string * worksheet).
Hypothesis serve_reads : forall ss, snd (serve ss) = ss.

Lemma returning_read_keeps_sheets (s : store) :
  sheets (snd (returning (remote_call r serve) s)) = sheets s.
Proof.
  unfold returning, remote_call.
  destruct (next_fault (faults s)) as [[msg |] fs]; [reflexivity |].
  pose proof (serve_reads (sheets s)) as H.
  destruct (serve (sheets s)) as [[a | e] ss]; cbn [snd] in *; subst ss;
    reflexivity.
Qed.

(** The executor around a request that only reads changes no worksheet. *)
Lemma retry_read_keeps_sheets (max_retries : nat) (base_delay : Q)
  (attempts : list nat) :
  forall w : world,
    sheets (remote (snd (retry_attempts (returning (remote_call r serve))
                           max_retries base_delay attempts w)))
    = sheets (remote w).
Proof.
  induction attempts as [| a rest IH]; intros w; [reflexivity |].
  rewrite retry_attempts_step.
  pose proof (returning_read_keeps_sheets (remote w)) as Hs.
  destruct (returning (remote_call r serve) (remote w)) as [[x | e] s'];
    cbn [snd] in Hs.
  - exact Hs.
  - destruct (is_rate_limit e); [| exact Hs].
    destruct (a <? max_retries - 1); [| exact Hs].
    cbv zeta. rewrite IH. exact Hs.
Qed.

End ReadOnlyRequest.

(** The loader in terms of the fetch: the table built from the records,
    or the empty table and a message when the fetch raises. *)
Lemma load_of_fetch (str_num : Q -> string)
  (to_datetime to_numeric : value -> value) (ws : string) (w : world) :
  load_applicants_data str_num to_datetime to_numeric ws w
  = match retry_api_call_default
            (returning (ws_get_all_records str_num ws)) w with
    | (Ret data, w1) =>
        (fst (frame_of_data to_datetime to_numeric data w1), w1)
    | (Raise e, w1) =>
        (Ret empty_df,
         mkWorld (remote w1) (jitter w1)
           (events w1 ++ [EvUi (ErrLoadingData (exn_str e))]))
    end.
Proof.
  unfold load_applicants_data, try_except, bind.
  destruct (retry_api_call_default
              (returning (ws_get_all_records str_num ws)) w)
    as [[data | e] w1]; [| reflexivity].
  destruct data as [[| rec recs] |]; reflexivity.
Qed.

(** X8. Loading never writes: whatever the store does, every worksheet is
    afterwards as it was, and the only requests made are fetches of the
    records of the worksheet loaded, at least one and at most three. *)
Theorem load_only_reads :
  forall (str_num : Q -> string) (to_datetime to_numeric : value -> value)
         (ws : string) (w : world),
    let w' := snd (load_applicants_data str_num to_datetime to_numeric ws w) in
    sheets (remote w') = sheets (remote w)
    /\ (forall r b, In (r, b) (requests_since w w') -> r = ReqGetAllRecords ws)
    /\ 1 <= List.length (requests_since w w') <= 3.
Proof.
  intros str_num to_datetime to_numeric ws w w'.
  assert (Hw : remote w'
               = remote (snd (retry_api_call_default
                                (returning (ws_get_all_records str_num ws)) w))).
  { unfold w'. rewrite load_of_fetch.
    destruct (retry_api_call_default
                (returning (ws_get_all_records str_num ws)) w)
      as [[data | e] w1]; reflexivity. }
  unfold requests_since. rewrite Hw.
  unfold retry_api_call_default, retry_api_call, ws_get_all_records.
  split.
  - apply retry_read_keeps_sheets.
    intros ss. destruct (find_sheet ss ws) as [[| header rows] |]; reflexivity.
  - match goal with
    | |- context [retry_attempts (returning (remote_call ?r ?serve)) ?n ?base ?l w] =>
        destruct (retry_remote_run r serve n base l w)
          as (k & b & evs & H1 & H2 & H3 & _)
    end.
    rewrite H1, skipn_length_app.
    cbn [seq List.length] in H2. specialize (H3 ltac:(discriminate)).
    split.
    + intros r0 b0 Hin. apply in_app_or in Hin. destruct Hin as [Hin | Hin].
      * apply repeat_spec in Hin. congruence.
      * destruct b; [| destruct Hin]. destruct Hin as [Hin | []]. congruence.
    + rewrite length_app, repeat_length. destruct b; cbn [List.length]; lia.
Qed.

(** X9. When the fetch fails with an error that is no rate-limit error,
    the loader makes that one request, does not sleep, shows the text of
    the error and returns the empty table. *)
Theorem load_reports_fetch_error :
  forall (str_num : Q -> string) (to_datetime to_numeric : value -> value)
         (ws : string) (w : world) (msg : string),
    fault_at 0 (faults (remote w)) = Some msg ->
    is_rate_limit (mkExn APIError msg) = false ->
    let r := load_applicants_data str_num to_datetime to_numeric ws w in
    fst r = Ret empty_df
    /\ requests_since w (snd r) = [(ReqGetAllRecords ws, false)]
    /\ events_since w (snd r) = [EvInvoke; EvUi (ErrLoadingData msg)].
Proof.
  intros str_num to_datetime to_numeric ws w msg Hf Hrl r.
  assert (Hfetch :
            retry_api_call_default (returning (ws_get_all_records str_num ws)) w
            = (Raise (mkExn APIError msg),
               mkWorld
                 (mkStore (sheets (remote w)) (tl (faults (remote w)))
                    (served (remote w) ++ [(ReqGetAllRecords ws, false)]))
                 (jitter w) (events w ++ [EvInvoke]))).
  { unfold retry_api_call_default, retry_api_call. cbn [seq].
    rewrite retry_attempts_step.
    unfold ws_get_all_records at 1. unfold returning at 1.
    unfold remote_call at 1.
    rewrite next_fault_nth, Hf, Hrl. reflexivity. }
  unfold r. rewrite load_of_fetch, Hfetch.
  cbn [fst snd remote jitter events exn_str].
  split; [reflexivity |].
  split; [apply requests_since_app |].
  rewrite <- app_assoc. apply events_since_app.
Qed.

(** On a spreadsheet whose next request is refused. *)
Lemma load_reports_fetch_error_witness :
  events_since first_fails_world
    (snd (load_applicants_data sample_str_num sample_coerce sample_coerce
            SHEET_NAME first_fails_world))
  = [EvInvoke; EvUi (ErrLoadingData "403 permission denied")].
Proof.
  refine (proj2 (proj2 (@load_reports_fetch_error sample_str_num
                          sample_coerce sample_coerce SHEET_NAME
                          first_fails_world "403 permission denied" _ _)));
    reflexivity.
Defined.

Lemma load_no_records (str_num : Q -> string)
  (to_datetime to_numeric : value -> value) (ws : string) (w : world) :
  fst (retry_api_call_default (returning (ws_get_all_records str_num ws)) w)
  = Ret (Some []) ->
  fst (load_applicants_data str_num to_datetime to_numeric ws w)
  = Ret (mkDF canonical_columns []).
Proof.
  intros H. rewrite load_of_fetch.
  destruct (retry_api_call_default
              (returning (ws_get_all_records str_num ws)) w)
    as [[data | e] w1]; cbn [fst] in H; [| discriminate].
  injection H as ->. reflexivity.
Qed.























(** X11. A worksheet the resolver has just created loads as the table
    with the canonical columns and no row, the store failing none of the
    four requests. *)
Theorem created_worksheet_loads_empty :
  forall (str_num : Q -> string) (to_datetime to_numeric : value -> value)
         (worksheet_name : string) (w : world),
    find_sheet (sheets (remote w)) worksheet_name = None ->
    fault_at 0 (faults (remote w)) = None ->
    fault_at 1 (faults (remote w)) = None ->
    fault_at 2 (faults (remote w)) = None ->
    fault_at 3 (faults (remote w)) = None ->
    let created := get_or_create_worksheet worksheet_name w in
    fst created = Ret worksheet_name
    /\ fst (load_applicants_data str_num to_datetime to_numeric
              worksheet_name (snd created))
       = Ret (mkDF canonical_columns []).
Proof.
  intros str_num to_datetime to_numeric name w Hnone H0 H1 H2 H3 created.
  assert (Hc : created
               = (Ret name,
                  after_requests w (sheets (remote w) ++ [(name, canonical_grid)])
                    (tl (tl (tl (faults (remote w)))))
                    [(ReqWorksheet name, false);
                     (ReqAddWorksheet name 1000 20, true);
                     (ReqAppendRow name canonical_columns, true)])).
  { unfold created. rewrite (resolve_absent name w Hnone). cbv zeta.
    rewrite H0, H1, H2. reflexivity. }
  rewrite Hc. cbn [fst snd].
  split; [reflexivity |].
  apply load_no_records.
  apply fetch_no_records with (g := canonical_grid).
  - cbn [after_requests remote faults]. rewrite !fault_at_tl. exact H3.
  - cbn [after_requests remote sheets].
    rewrite find_sheet_app, Hnone, String.eqb_refl. reflexivity.
  - cbn. lia.
Qed.

(** On the empty spreadsheet. *)
Lemma created_worksheet_loads_empty_witness :
  fst (load_applicants_data sample_str_num sample_coerce sample_coerce
         DENIED_SHEET_NAME
         (snd (get_or_create_worksheet DENIED_SHEET_NAME quiet_world)))
  = Ret (mkDF canonical_columns []).
Proof.
  refine (proj2 (@created_worksheet_loads_empty sample_str_num sample_coerce
                   sample_coerce DENIED_SHEET_NAME quiet_world
                   _ _ _ _ _));
    reflexivity.
Defined.

(** ** Further properties of [calculate_applicant_score] *)

Lemma sum_Q_bounds (lo hi : Q) (l : list Q) :
  (forall q, In q l -> lo <= q <= hi)%Q ->
  (lo * inject_Z (Z.of_nat (List.length l)) <= sum_Q l
   <= hi * inject_Z (Z.of_nat (List.length l)))%Q.
Proof.
  induction l as [| x l IH] using rev_ind; intros Hl.
  - change (inject_Z (Z.of_nat (@List.length Q []))) with 0%Q.
    unfold sum_Q. cbn [fold_left]. lra.
  - rewrite sum_Q_snoc, length_app. cbn [List.length].
    replace (List.length l + 1) with (S (List.length l)) by lia.
    rewrite inject_nat_succ.
    assert (Hx : (lo <= x <= hi)%Q)
      by (apply Hl, in_or_app; right; left; reflexivity).
    assert (IH' : (lo * inject_Z (Z.of_nat (List.length l)) <= sum_Q l
                   <= hi * inject_Z (Z.of_nat (List.length l)))%Q)
      by (apply IH; intros q Hq; apply Hl, in_or_app; left; exact Hq).
    lra.
Qed.

Lemma np_mean_bounds (lo hi : Q) (l : list Q) :
  l <> [] ->
  (forall q, In q l -> lo <= q <= hi)%Q ->
  (lo <= np_mean l <= hi)%Q.
Proof.
  intros Hne Hl. pose proof (@sum_Q_bounds lo hi l Hl) as Hs.
  unfold np_mean.
  set (n := inject_Z (Z.of_nat (List.length l))) in *.
  assert (Hn : (0 < n)%Q).
  { unfold n. change 0%Q with (inject_Z 0). rewrite <- Zlt_Qlt.
    destruct l; [congruence | cbn [List.length]; lia]. }
  split.
  - apply Qle_shift_div_l; [exact Hn | lra].
  - apply Qle_shift_div_r; [exact Hn | lra].
Qed.

Lemma py_round2_bounds (lo hi : Z) (x : Q) :
  (inject_Z lo <= x <= inject_Z hi)%Q ->
  (inject_Z lo <= py_round2 x <= inject_Z hi)%Q.
Proof.
  intros [Hlo Hhi]. unfold py_round2.
  pose proof (round_half_even_close (x * 100)) as [H1 H2].
  set (n := round_half_even (x * 100)) in *.
  assert (Hn1 : (100 * lo < n + 1)%Z).
  { rewrite Zlt_Qlt, inject_Z_plus, inject_Z_mult.
    change (inject_Z 100) with 100%Q. change (inject_Z 1) with 1%Q. lra. }
  assert (Hn2 : (n < 100 * hi + 1)%Z).
  { rewrite Zlt_Qlt, inject_Z_plus, inject_Z_mult.
    change (inject_Z 100) with 100%Q. change (inject_Z 1) with 1%Q. lra. }
  unfold Qle, inject_Z. cbn [Qnum Qden]. lia.
Qed.

(** X12. For a rating mapping whose counted ratings all lie between two
    whole numbers, the score lies between them too (the ratings set with
    the sliders lie between 1 and 10, and so does their score); with no
    counted rating the score is 0. *)
Theorem score_stays_within_rating_bounds :
  forall (float_str : string -> option Q) (R : dict) (lo hi : Z),
    rating_mapping R ->
    (forall q, In q (skill_values nonzero R) ->
               inject_Z lo <= q <= inject_Z hi)%Q ->
    exists s,
      calculate_applicant_score float_str R = Ret s
      /\ ((skill_values nonzero R = [] /\ s = 0%Q)
          \/ (skill_values nonzero R <> []
              /\ (inject_Z lo <= s <= inject_Z hi)%Q)).
Proof.
  intros float_str R lo hi HR Hb.
  unfold calculate_applicant_score.
  rewrite collect_scores_numeric by exact HR.
  cbn [app]. fold (skill_values nonzero R).
  destruct (skill_values nonzero R) as [| x xs] eqn:E.
  - exists 0%Q. split; [reflexivity | left; split; reflexivity].
  - eexists. split; [reflexivity |]. right. split; [discriminate |].
    apply py_round2_bounds, np_mean_bounds; [discriminate | exact Hb].
Qed.

(** On the ratings 8, 6 and a null, between 1 and 10. *)
Lemma score_stays_within_rating_bounds_witness :
  exists s,
    calculate_applicant_score sample_float_str two_rated = Ret s
    /\ ((skill_values nonzero two_rated = [] /\ s = 0%Q)
        \/ (skill_values nonzero two_rated <> []
            /\ (inject_Z 1 <= s <= inject_Z 10)%Q)).
Proof.
  apply score_stays_within_rating_bounds.
  - intros skill s Hin. cbn in Hin.
    repeat (destruct Hin as [<- | Hin]; [cbn; discriminate |]).
    destruct Hin.
  - intros q Hin. cbn in Hin.
    destruct Hin as [<- | [<- | []]]; split; discriminate.
Defined.

Lemma collect_scores_ext (float_str : string -> option Q) (R R' : dict)
  (skills : list string) :
  (forall skill, In skill skills -> rating_of R skill = rating_of R' skill) ->
  forall scores,
    collect_scores float_str R skills scores
    = collect_scores float_str R' skills scores.
Proof.
  induction skills as [| skill rest IH]; intros Heq scores; [reflexivity |].
  cbn [collect_scores].
  change (dict_get R skill (VNum 0)) with (rating_of R skill).
  change (dict_get R' skill (VNum 0)) with (rating_of R' skill).
  rewrite (Heq skill) by (left; reflexivity).
  assert (Hrest : forall k, In k rest -> rating_of R k = rating_of R' k)
    by (intros k Hk; apply Heq; right; exact Hk).
  destruct (truthy (rating_of R' skill) && negb (isna (rating_of R' skill)));
    [| apply IH; exact Hrest].
  destruct (py_float float_str (rating_of R' skill)); [| reflexivity].
  apply IH; exact Hrest.
Qed.

(** X13. The score depends on nothing but what the mapping holds for the
    seven skills: two mappings that agree there (reading a missing skill
    as 0) score the same, whatever their other keys ([name], the dates, a
    stored [Applicant Score]) and the order of their entries. *)
Theorem score_reads_only_skill_ratings :
  forall (float_str : string -> option Q) (R R' : dict),
    (forall skill, In skill SKILL_COLUMNS ->
                   rating_of R skill = rating_of R' skill) ->
    calculate_applicant_score float_str R
    = calculate_applicant_score float_str R'.
Proof.
  intros float_str R R' Heq. unfold calculate_applicant_score.
  rewrite (collect_scores_ext float_str R R' SKILL_COLUMNS Heq).
  reflexivity.
Qed.

(** On a table row against its two ratings alone, in the other order. *)
Lemma score_reads_only_skill_ratings_witness :
  calculate_applicant_score sample_float_str rated_row
  = calculate_applicant_score sample_float_str
      [("Strength Skill", VNum 6); ("Throwing Skill", VNum 8)].
Proof.
  apply score_reads_only_skill_ratings.
  intros skill Hin. cbn in Hin.
  repeat (destruct Hin as [<- | Hin]; [reflexivity |]).
  destruct Hin.
Defined.

Lemma py_float_raises_value_error (float_str : string -> option Q)
  (v : value) (e : exn) :
  py_float float_str v = Raise e -> exn_kind e = ValueError.
Proof.
  destruct v as [| | q | s]; cbn [py_float];
    try (intros H; injection H as <-; reflexivity); try discriminate.
  destruct (float_str s); [discriminate |].
  intros H; injection H as <-; reflexivity.
Qed.

Lemma collect_scores_raises (float_str : string -> option Q) (R : dict)
  (skill : string) (skills : list string) :
  In skill skills ->
  unparseable float_str (rating_of R skill) ->
  forall scores,
    exists e,
      collect_scores float_str R skills scores = Raise e
      /\ exn_kind e = ValueError.
Proof.
  intros Hin (s & Hv & Hs & Hf).
  induction skills as [| k rest IH]; intros scores; [destruct Hin |].
  cbn [collect_scores].
  change (dict_get R k (VNum 0)) with (rating_of R k).
  destruct (String.eqb k skill) eqn:E.
  - apply String.eqb_eq in E. subst k. rewrite Hv.
    cbn [truthy isna negb andb py_float].
    replace (String.eqb s "") with false
      by (symmetry; apply String.eqb_neq; exact Hs).
    cbn [negb]. rewrite Hf. eexists. split; reflexivity.
  - apply String.eqb_neq in E.
    assert (Hrest : In skill rest) by (destruct Hin; [congruence | assumption]).
    destruct (truthy (rating_of R k) && negb (isna (rating_of R k)));
      [| apply IH; exact Hrest].
    destruct (py_float float_str (rating_of R k)) as [x | e] eqn:Ef.
    + apply IH; exact Hrest.
    + exists e. split; [reflexivity |].
      apply (py_float_raises_value_error _ _ Ef).
Qed.

(** X14. A rating that is a non-empty string which is no number makes the
    score raise a [ValueError]; a score update with such a rating stops
    there: it makes no request, changes no worksheet and shows the error. *)
Theorem text_rating_stops_update :
  forall (str_num : Q -> string) (float_str : string -> option Q)
         (ws : string) (df : DataFrame) (row_index : nat) (scores : dict)
         (skill : string) (w : world),
    In skill SKILL_COLUMNS ->
    unparseable float_str (rating_of scores skill) ->
    let w' := snd (update_applicant_scores str_num float_str ws df
                     row_index scores w) in
    exists e,
      calculate_applicant_score float_str scores = Raise e
      /\ exn_kind e = ValueError
      /\ requests_since w w' = []
      /\ sheets (remote w') = sheets (remote w)
      /\ events_since w w' = [EvUi (ErrUpdatingScores (exn_str e))].
Proof.
  intros str_num float_str ws df row_index scores skill w Hin Hbad w'.
  destruct (@collect_scores_raises float_str scores skill SKILL_COLUMNS
              Hin Hbad []) as (e & He & Hk).
  assert (Hscore : calculate_applicant_score float_str scores = Raise e)
    by (unfold calculate_applicant_score; rewrite He; reflexivity).
  exists e. split; [exact Hscore | split; [exact Hk |]].
  destruct (update_runs str_num float_str ws df row_index scores w)
    as [_ Hrun].
  fold w' in Hrun.
  destruct Hrun as [e' He' Hr Hs Hev | score msg Hsc _ _ _ _
                   | score g Hsc _ _ _ _ _ _
                   | score g k b Hsc _ _ updates _ _ _ _];
    try congruence.
  assert (e' = e) by congruence. subst e'.
  split; [exact Hr | split; [exact Hs | exact Hev]].
Qed.

(** On a mapping that rates [Trust] as "high". *)
Lemma text_rating_stops_update_witness :
  requests_since reorder_world
    (snd (update_applicant_scores sample_str_num sample_float_str SHEET_NAME
            alice_df 0 text_rating reorder_world)) = [].
Proof.
  destruct (@text_rating_stops_update sample_str_num sample_float_str
              SHEET_NAME alice_df 0 text_rating "Trust" reorder_world)
    as (e & _ & _ & Hr & _).
  - cbn. intuition.
  - exists "high". split; [reflexivity | split; [discriminate | reflexivity]].
  - exact Hr.
Defined.

(** ** Further properties of [update_applicant_scores] *)

Lemma nth_set_nth {B : Type} (n : nat) (x pad : B) :
  forall (l : list B) (m : nat),
    nth m (set_nth n x pad l) pad = if m =? n then x else nth m l pad.
Proof.
  induction n as [| n IH]; intros [| h l] [| m]; cbn [set_nth nth Nat.eqb];
    try reflexivity.
  - destruct m; reflexivity.
  - rewrite IH. destruct (m =? n); [reflexivity | destruct m; reflexivity].
  - apply IH.
Qed.

Lemma row_grid_set (g : worksheet) (r c : nat) (v : value) (j : nat) :
  nth j (grid_set g r c v) []
  = if j =? r - 1 then set_nth (c - 1) v (VStr "") (nth (r - 1) g [])
    else nth j g [].
Proof.
  unfold grid_set. apply nth_set_nth.
Qed.

Lemma cell_grid_set (g : worksheet) (r c : nat) (v : value) (r' c' : nat) :
  1 <= r -> 1 <= c -> 1 <= r' -> 1 <= c' ->
  cell (grid_set g r c v) r' c'
  = if (r' =? r) && (c' =? c) then v else cell g r' c'.
Proof.
  intros Hr Hc Hr' Hc'. unfold cell. rewrite row_grid_set.
  destruct (r' =? r) eqn:Er.
  - apply Nat.eqb_eq in Er. subst r'. rewrite Nat.eqb_refl.
    rewrite nth_set_nth.
    destruct (c' =? c) eqn:Ec.
    + apply Nat.eqb_eq in Ec. subst c'. rewrite Nat.eqb_refl. reflexivity.
    + apply Nat.eqb_neq in Ec.
      replace (c' - 1 =? c - 1) with false
        by (symmetry; apply Nat.eqb_neq; lia).
      reflexivity.
  - apply Nat.eqb_neq in Er.
    replace (r' - 1 =? r - 1) with false
      by (symmetry; apply Nat.eqb_neq; lia).
    reflexivity.
Qed.

(** A batch leaves alone the rows it does not address. *)
Lemma rows_outside_batch (ups : list cell_update) (j : nat) :
  (forall u, In u ups -> upd_row u - 1 <> j) ->
  forall g, nth j (fold_left apply_update ups g) [] = nth j g [].
Proof.
  induction ups as [| u ups IH]; intros Hrows g; [reflexivity |].
  cbn [fold_left]. rewrite IH by (intros u' Hu'; apply Hrows; right; exact Hu').
  unfold apply_update. rewrite row_grid_set.
  replace (j =? upd_row u - 1) with false; [reflexivity |].
  symmetry. apply Nat.eqb_neq. intros ->.
  apply (Hrows u); [left |]; reflexivity.
Qed.

(** A cell keeps what it holds through updates of other cells. *)
Lemma cell_outside_batch (ups : list cell_update) (r c : nat) :
  1 <= r -> 1 <= c ->
  (forall u, In u ups ->
     well_addressed u /\ (upd_row u, upd_chr u - 64) <> (r, c)) ->
  forall g, cell (fold_left apply_update ups g) r c = cell g r c.
Proof.
  intros Hr Hc.
  induction ups as [| u ups IH]; intros Hups g; [reflexivity |].
  cbn [fold_left]. rewrite IH by (intros u' Hu'; apply Hups; right; exact Hu').
  destruct (Hups u (or_introl eq_refl)) as [[Hrow Hchr] Hne].
  unfold apply_update. rewrite cell_grid_set by lia.
  destruct (r =? upd_row u) eqn:Er; [| reflexivity].
  destruct (c =? upd_chr u - 64) eqn:Ec; [| reflexivity].
  apply Nat.eqb_eq in Er, Ec. subst. exfalso. apply Hne. reflexivity.
Qed.

(** A cell holds the value of the last update that addresses it. *)
Lemma cell_after_batch (pre post : list cell_update) (u : cell_update)
  (g : worksheet) :
  well_addressed u ->
  (forall u', In u' post ->
     well_addressed u'
     /\ (upd_row u', upd_chr u' - 64) <> (upd_row u, upd_chr u - 64)) ->
  cell (fold_left apply_update (pre ++ u :: post) g)
       (upd_row u) (upd_chr u - 64)
  = upd_value u.
Proof.
  intros [Hrow Hchr] Hpost.
  rewrite fold_left_app. cbn [fold_left].
  rewrite cell_outside_batch by (try lia; exact Hpost).
  unfold apply_update. rewrite cell_grid_set by lia.
  rewrite !Nat.eqb_refl. reflexivity.
Qed.

Lemma nth_str_index (x : string) (xs : list string) :
  In x xs -> nth (str_index x xs) xs "" = x.
Proof.
  induction xs as [| y xs IH]; [intros [] |].
  intros Hin. cbn [str_index].
  destruct (String.eqb x y) eqn:E.
  - apply String.eqb_eq in E. subst. reflexivity.
  - apply String.eqb_neq in E. cbn [nth]. apply IH.
    destruct Hin; [congruence | assumption].
Qed.

Lemma str_index_lt (x : string) (xs : list string) :
  In x xs -> str_index x xs < List.length xs.
Proof.
  induction xs as [| y xs IH]; [intros [] |].
  intros Hin. cbn [str_index List.length].
  destruct (String.eqb x y) eqn:E; [lia |].
  apply String.eqb_neq in E.
  assert (In x xs) by (destruct Hin; [congruence | assumption]).
  specialize (IH H). lia.
Qed.

Lemma str_index_inj (x y : string) (xs : list string) :
  In x xs -> In y xs -> str_index x xs = str_index y xs -> x = y.
Proof.
  intros Hx Hy Heq.
  rewrite <- (nth_str_index x xs Hx), <- (nth_str_index y xs Hy), Heq.
  reflexivity.
Qed.

(** Every cell of the batch is the cell of a header, in the row asked. *)
Lemma batch_for_members (headers : list string) (sheet_row : nat)
  (scores : dict) (score : Q) (u : cell_update) :
  In u (batch_for headers sheet_row scores score) ->
  exists k v, u = cell_for headers sheet_row k v /\ In k headers.
Proof.
  unfold batch_for, skill_updates.
  assert (Hskill : forall kvs,
             In u (flat_map
                     (fun kv =>
                        if str_in (fst kv) headers
                        then [cell_for headers sheet_row (fst kv) (snd kv)]
                        else []) kvs) ->
             exists k v, u = cell_for headers sheet_row k v /\ In k headers).
  { intros kvs Hin. apply in_flat_map in Hin. destruct Hin as (kv & _ & Hin).
    destruct (str_in (fst kv) headers) eqn:E; [| destruct Hin].
    destruct Hin as [<- | []]. exists (fst kv), (snd kv).
    split; [reflexivity | apply str_in_In; exact E]. }
  destruct (str_in "Applicant Score" headers) eqn:E; [| apply Hskill].
  intros Hin. apply in_app_or in Hin. destruct Hin as [Hin | [<- | []]].
  - apply (Hskill scores). exact Hin.
  - eexists. eexists. split; [reflexivity | apply str_in_In; exact E].
Qed.

Lemma batch_for_valid (headers : list string) (sheet_row : nat)
  (scores : dict) (score : Q) :
  1 <= sheet_row ->
  List.length headers <= 26 ->
  forallb valid_address (batch_for headers sheet_row scores score) = true.
Proof.
  intros Hrow Hlen. apply forallb_forall. intros u Hu.
  destruct (batch_for_members _ _ _ _ _ Hu) as (k & v & -> & Hk).
  pose proof (str_index_lt k headers Hk) as Hlt.
  unfold valid_address, cell_for. cbn [upd_chr upd_row].
  apply andb_true_iff. split; [apply andb_true_iff; split |];
    apply Nat.leb_le; lia.
Qed.

Lemma skill_updates_app (headers : list string) (sheet_row : nat)
  (s1 s2 : dict) :
  skill_updates headers sheet_row (s1 ++ s2)
  = skill_updates headers sheet_row s1 ++ skill_updates headers sheet_row s2.
Proof.
  unfold skill_updates. apply flat_map_app.
Qed.

Lemma skill_updates_members (headers : list string) (sheet_row : nat)
  (scores : dict) (u : cell_update) :
  In u (skill_updates headers sheet_row scores) ->
  exists k v, In (k, v) scores /\ In k headers
              /\ u = cell_for headers sheet_row k v.
Proof.
  unfold skill_updates. intros Hin. apply in_flat_map in Hin.
  destruct Hin as ([k v] & Hkv & Hin). cbn [fst snd] in Hin.
  destruct (str_in k headers) eqn:E; [| destruct Hin].
  destruct Hin as [<- | []].
  exists k, v. split; [exact Hkv | split; [apply str_in_In; exact E | reflexivity]].
Qed.

(** The cell of a rated skill is followed in the batch by cells of other
    columns only. *)
Lemma batch_for_skill (headers : list string) (sheet_row : nat)
  (scores : dict) (score : Q) (k : string) (v : value) :
  1 <= sheet_row ->
  NoDup (dict_keys scores) ->
  In (k, v) scores ->
  In k headers ->
  k <> "Applicant Score" ->
  exists pre post,
    batch_for headers sheet_row scores score
    = pre ++ cell_for headers sheet_row k v :: post
    /\ forall u', In u' post ->
         well_addressed u'
         /\ (upd_row u', upd_chr u' - 64)
            <> (sheet_row, column_of headers k).
Proof.
  intros Hrow Hnd Hin Hk Hne.
  destruct (in_split _ _ Hin) as (s1 & s2 & ->).
  assert (Hk2 : forall k' v', In (k', v') s2 -> k' <> k).
  { unfold dict_keys in Hnd. rewrite map_app in Hnd. cbn [map fst] in Hnd.
    apply NoDup_remove_2 in Hnd.
    intros k' v' Hin' ->. apply Hnd. apply in_or_app. right.
    apply (in_map fst) in Hin'. exact Hin'. }
  assert (Hother : forall k', In k' headers -> k' <> k ->
                     forall v',
                       well_addressed (cell_for headers sheet_row k' v')
                       /\ (upd_row (cell_for headers sheet_row k' v'),
                           upd_chr (cell_for headers sheet_row k' v') - 64)
                          <> (sheet_row, column_of headers k)).
  { intros k' Hk' Hne' v'. unfold cell_for, well_addressed, column_of.
    cbn [upd_row upd_chr]. split; [lia |].
    intros Heq. injection Heq as Heq. apply Hne'.
    apply (str_index_inj k' k headers Hk' Hk). lia. }
  exists (skill_updates headers sheet_row s1).
  exists (skill_updates headers sheet_row s2
          ++ if str_in "Applicant Score" headers
             then [cell_for headers sheet_row "Applicant Score" (VNum score)]
             else []).
  split.
  - unfold batch_for. rewrite skill_updates_app.
    change ((k, v) :: s2) with ([(k, v)] ++ s2).
    rewrite skill_updates_app.
    assert (H1 : skill_updates headers sheet_row [(k, v)]
                 = [cell_for headers sheet_row k v]).
    { unfold skill_updates. cbn [flat_map fst snd app].
      replace (str_in k headers) with true
        by (symmetry; apply str_in_In; exact Hk).
      reflexivity. }
    rewrite H1.
    destruct (str_in "Applicant Score" headers);
      rewrite <- ?app_assoc; cbn [app]; rewrite ?app_nil_r; reflexivity.
  - intros u' Hu'. apply in_app_or in Hu'. destruct Hu' as [Hu' | Hu'].
    + destruct (skill_updates_members _ _ _ _ Hu') as (k' & v' & Hkv & Hh & ->).
      apply Hother; [exact Hh | apply (Hk2 k' v' Hkv)].
    + destruct (str_in "Applicant Score" headers) eqn:E; [| destruct Hu'].
      destruct Hu' as [<- | []].
      apply Hother; [apply str_in_In; exact E | congruence].
Qed.

(** The score cell is the last of the batch. *)
Lemma batch_for_score (headers : list string) (sheet_row : nat)
  (scores : dict) (score : Q) :
  In "Applicant Score" headers ->
  batch_for headers sheet_row scores score
  = skill_updates headers sheet_row scores
    ++ cell_for headers sheet_row "Applicant Score" (VNum score) :: [].
Proof.
  intros Hin. unfold batch_for.
  replace (str_in "Applicant Score" headers) with true
    by (symmetry; apply str_in_In; exact Hin).
  reflexivity.
Qed.

(** The wrapped write when the store serves it at once. *)
Lemma write_batch_served (ws : string) (df : DataFrame) (row_index : nat)
  (updates : list cell_update) (w : world) (g : worksheet) :
  fault_at 0 (faults (remote w)) = None ->
  find_sheet (sheets (remote w)) ws = Some g ->
  forallb valid_address updates = true ->
  write_batch ws df row_index updates w
  = (Ret tt,
     mkWorld
       (mkStore
          (put_sheet (sheets (remote w)) ws (fold_left apply_update updates g))
          (tl (faults (remote w)))
          (served (remote w) ++ [(ReqBatchUpdate ws updates, true)]))
       (jitter w)
       (events w ++ [EvInvoke; EvUi (update_report df row_index)])).
Proof.
  intros Hf Hg Hvalid.
  assert (Hr : retry_api_call_default (returning (ws_batch_update ws updates)) w
               = (Ret (Some tt),
                  mkWorld
                    (mkStore
                       (put_sheet (sheets (remote w)) ws
                          (fold_left apply_update updates g))
                       (tl (faults (remote w)))
                       (served (remote w) ++ [(ReqBatchUpdate ws updates, true)]))
                    (jitter w) (events w ++ [EvInvoke]))).
  { unfold retry_api_call_default, retry_api_call. cbn [seq].
    rewrite retry_attempts_step.
    unfold ws_batch_update, returning, remote_call.
    rewrite next_fault_nth, Hf, Hg, Hvalid. reflexivity. }
  rewrite write_batch_world. cbv zeta. rewrite Hr.
  cbn [fst snd remote jitter events]. rewrite <- app_assoc. reflexivity.
Qed.

Lemma cell_after_batch_for (headers : list string) (sheet_row : nat)
  (k : string) (v : value) (pre post : list cell_update) (g : worksheet) :
  1 <= sheet_row ->
  (forall u', In u' post ->
     well_addressed u'
     /\ (upd_row u', upd_chr u' - 64) <> (sheet_row, column_of headers k)) ->
  cell (fold_left apply_update
          (pre ++ cell_for headers sheet_row k v :: post) g)
       sheet_row (column_of headers k)
  = v.
Proof.
  intros Hrow Hpost.
  set (u := cell_for headers sheet_row k v).
  assert (Hcol : upd_chr u - 64 = column_of headers k)
    by (unfold u, cell_for, column_of; cbn [upd_chr]; lia).
  change (cell (fold_left apply_update (pre ++ u :: post) g)
               (upd_row u) (column_of headers k) = upd_value u).
  rewrite <- Hcol.
  apply cell_after_batch.
  - unfold well_addressed, u, cell_for. cbn [upd_row upd_chr]. lia.
  - intros u' Hu'. rewrite Hcol. apply Hpost. exact Hu'.
Qed.

(** The update once the header read is served and the batch is not empty. *)
Lemma update_is_write_batch (str_num : Q -> string)
  (float_str : string -> option Q) (ws : string) (df : DataFrame)
  (row_index : nat) (scores : dict) (w : world) (score : Q) (g : worksheet) :
  calculate_applicant_score float_str scores = Ret score ->
  fault_at 0 (faults (remote w)) = None ->
  find_sheet (sheets (remote w)) ws = Some g ->
  batch_for (sheet_header str_num (remote w) ws) (row_index + 2) scores score
  <> [] ->
  snd (update_applicant_scores str_num float_str ws df row_index scores w)
  = snd (write_batch ws df row_index
           (batch_for (sheet_header str_num (remote w) ws) (row_index + 2)
              scores score)
           (header_read ws w)).
Proof.
  intros Hsc Hf Hg Hne.
  destruct (update_runs str_num float_str ws df row_index scores w)
    as [_ Hrun].
  destruct Hrun as [e He _ _ _ | score' msg _ Hwhy _ _ _
                   | score' g' Hsc' _ _ Hb _ _ _
                   | score' g' k b Hsc' _ _ updates _ Hw _ _].
  - congruence.
  - destruct Hwhy as [Hwhy | (_ & Hwhy & _)]; congruence.
  - assert (score' = score) by congruence. subst score'. congruence.
  - assert (score' = score) by congruence. subst score'. exact Hw.
Qed.

(** X15. A score update that the store serves (header read and write, at
    the first attempt), on a worksheet of at most 26 columns: afterwards
    the cell in spreadsheet row [row_index + 2] under the header of each
    rated skill holds the rating given, and the cell under
    [Applicant Score], if there is such a header, holds the score computed
    from the ratings; two requests were made, and the report follows. *)
Theorem update_writes_rated_cells :
  forall (str_num : Q -> string) (float_str : string -> option Q)
         (ws : string) (df : DataFrame) (row_index : nat) (scores : dict)
         (w : world) (score : Q) (g : worksheet),
    calculate_applicant_score float_str scores = Ret score ->
    fault_at 0 (faults (remote w)) = None ->
    fault_at 1 (faults (remote w)) = None ->
    find_sheet (sheets (remote w)) ws = Some g ->
    let headers := sheet_header str_num (remote w) ws in
    let updates := batch_for headers (row_index + 2) scores score in
    List.length headers <= 26 ->
    NoDup (dict_keys scores) ->
    updates <> [] ->
    let w' := snd (update_applicant_scores str_num float_str ws df
                     row_index scores w) in
    exists g',
      find_sheet (sheets (remote w')) ws = Some g'
      /\ (forall k v,
             In (k, v) scores -> In k headers -> k <> "Applicant Score" ->
             cell g' (row_index + 2) (column_of headers k) = v)
      /\ (In "Applicant Score" headers ->
          cell g' (row_index + 2) (column_of headers "Applicant Score")
          = VNum score)
      /\ requests_since w w'
         = [(ReqRowValues ws 1, true); (ReqBatchUpdate ws updates, true)]
      /\ events_since w w' = [EvInvoke; EvUi (update_report df row_index)].
Proof.
  intros str_num float_str ws df row_index scores w score g
         Hsc Hf0 Hf1 Hg headers updates Hlen Hnd Hne w'.
  assert (Hw : w' = snd (write_batch ws df row_index updates (header_read ws w)))
    by (apply (@update_is_write_batch str_num float_str ws df row_index
                 scores w score g Hsc Hf0 Hg Hne)).
  rewrite (@write_batch_served ws df row_index updates (header_read ws w) g)
    in Hw.
  2:{ cbn [header_read remote faults]. rewrite fault_at_tl. exact Hf1. }
  2:{ exact Hg. }
  2:{ apply batch_for_valid; [lia | exact Hlen]. }
  cbn [snd header_read remote sheets faults served jitter events] in Hw.
  exists (fold_left apply_update updates g).
  rewrite Hw. cbn [remote sheets].
  split; [apply find_put_same with (g := g); exact Hg |].
  split; [| split; [| split]].
  - intros k v Hin Hk Hne'.
    destruct (@batch_for_skill headers (row_index + 2) scores score k v
                ltac:(lia) Hnd Hin Hk Hne') as (pre & post & Hsplit & Hpost).
    fold updates in Hsplit. rewrite Hsplit.
    apply cell_after_batch_for; [lia | exact Hpost].
  - intros Hs.
    unfold updates. rewrite (@batch_for_score headers (row_index + 2) scores score Hs).
    apply cell_after_batch_for; [lia | intros u' []].
  - unfold requests_since. cbn [remote served].
    rewrite <- app_assoc. apply skipn_length_app.
  - apply events_since_app.
Qed.

Lemma update_writes_rated_cells_witness :
  exists g',
    find_sheet
      (sheets (remote (snd (update_applicant_scores sample_str_num
                              sample_float_str SHEET_NAME alice_df 0
                              trust_rating scored_world))))
      SHEET_NAME = Some g'
    /\ cell g' 2 2 = VNum 7
    /\ cell g' 2 3 = VNum (700 # 100).
Proof.
  destruct (update_writes_rated_cells sample_str_num sample_float_str
              SHEET_NAME alice_df 0 trust_rating scored_world
              (score := (700 # 100)%Q)
              (g := [[VStr "name"; VStr "Trust"; VStr "Applicant Score"];
                     [VStr "Alice"; VNum 9; VStr ""]])
              eq_refl eq_refl eq_refl eq_refl)
    as (g' & Hg' & Hskill & Hscore & _).
  - cbn. lia.
  - repeat constructor. intros [].
  - discriminate.
  - exists g'. split; [exact Hg' |]. split.
    + apply (Hskill "Trust" (VNum 7)).
      * left. reflexivity.
      * right. left. reflexivity.
      * discriminate.
    + apply Hscore. right. right. left. reflexivity.
Defined.

(** ** What a score update leaves alone *)

Lemma sheets_kept_refl (ws : string) (j : nat) (ss : list (string * worksheet)) :
  sheets_kept_except ws j ss ss.
Proof.
  split; [reflexivity | split; [tauto |]].
  intros g Hg. exists g. split; [exact Hg | reflexivity].
Qed.

Lemma sheets_kept_trans (ws : string) (j : nat)
  (s1 s2 s3 : list (string * worksheet)) :
  sheets_kept_except ws j s1 s2 -> sheets_kept_except ws j s2 s3 ->
  sheets_kept_except ws j s1 s3.
Proof.
  intros (Ho1 & Hn1 & Hr1) (Ho2 & Hn2 & Hr2).
  split; [| split].
  - intros title Hne. rewrite Ho2, Ho1 by exact Hne. reflexivity.
  - intros Hnone. apply Hn2, Hn1, Hnone.
  - intros g Hg. destruct (Hr1 g Hg) as (g2 & Hg2 & Hrows2).
    destruct (Hr2 g2 Hg2) as (g3 & Hg3 & Hrows3).
    exists g3. split; [exact Hg3 |].
    intros i Hi. rewrite Hrows3, Hrows2 by exact Hi. reflexivity.
Qed.

Section KeepingRequest.

Context {B : Type}.
Variable r : request.
Variable serve :
  list (string * worksheet) -> outcome B * list (string * worksheet).
Variable kept : list (string * worksheet) -> list (string * worksheet) -> Prop.
Hypothesis kept_refl : forall ss, kept ss ss.
Hypothesis kept_trans :
  forall s1 s2 s3, kept s1 s2 -> kept s2 s3 -> kept s1 s3.
Hypothesis serve_keeps : forall ss, kept ss (snd (serve ss)).

Lemma returning_keeps (s : store) :
  kept (sheets s) (sheets (snd (returning (remote_call r serve) s))).
Proof.
  unfold returning, remote_call.
  destruct (next_fault (faults s)) as [[msg |] fs]; [apply kept_refl |].
  pose proof (serve_keeps (sheets s)) as H.
  destruct (serve (sheets s)) as [[a | e] ss]; exact H.
Qed.

(** The executor around a request keeps what each serving of it keeps. *)
Lemma retry_keeps (max_retries : nat) (base_delay : Q)
  (attempts : list nat) :
  forall w : world,
    kept (sheets (remote w))
         (sheets (remote (snd (retry_attempts (returning (remote_call r serve))
                                 max_retries base_delay attempts w)))).
Proof.
  induction attempts as [| a rest IH]; intros w; [apply kept_refl |].
  rewrite retry_attempts_step.
  pose proof (returning_keeps (remote w)) as Hs.
  destruct (returning (remote_call r serve) (remote w)) as [[x | e] s'];
    cbn [snd] in Hs.
  - exact Hs.
  - destruct (is_rate_limit e); [| exact Hs].
    destruct (a <? max_retries - 1); [| exact Hs].
    cbv zeta. eapply kept_trans; [exact Hs |].
    apply (IH (mkWorld s' (tl (jitter w)) _)).
Qed.

End KeepingRequest.

(** Serving a batch whose cells are all in one row changes that row of
    the worksheet at most. *)
Lemma batch_keeps_other_rows (ws : string) (updates : list cell_update)
  (j : nat) (ss : list (string * worksheet)) :
  (forall u, In u updates -> upd_row u - 1 = j) ->
  sheets_kept_except ws j ss
    (snd (match find_sheet ss ws with
          | Some g =>
              if forallb valid_address updates
              then (Ret tt, put_sheet ss ws (fold_left apply_update updates g))
              else (Raise (mkExn APIError "Unable to parse range"), ss)
          | None => (Raise (title_error ws), ss)
          end)).
Proof.
  intros Hrow.
  destruct (find_sheet ss ws) as [g |] eqn:Hg; [| apply sheets_kept_refl].
  destruct (forallb valid_address updates); [| apply sheets_kept_refl].
  cbn [snd]. split; [| split].
  - intros title Hne. apply find_put_other. congruence.
  - congruence.
  - intros g0 Hg0. assert (g0 = g) by congruence. subst g0.
    exists (fold_left apply_update updates g).
    split; [apply find_put_same with (g := g); exact Hg |].
    intros i Hi. apply rows_outside_batch.
    intros u Hu. rewrite (Hrow u Hu). congruence.
Qed.

(** X16. Whatever the store holds and however its requests fail, a score
    update changes nothing but the spreadsheet row [row_index + 2] of the
    worksheet it is given: every other worksheet, and every other row of
    that worksheet (the header row among them), is as before, and no
    worksheet appears or disappears. *)
Theorem update_touches_one_row :
  forall (str_num : Q -> string) (float_str : string -> option Q)
         (ws : string) (df : DataFrame) (row_index : nat) (scores : dict)
         (w : world),
    sheets_kept_except ws (row_index + 1)
      (sheets (remote w))
      (sheets (remote (snd (update_applicant_scores str_num float_str ws df
                              row_index scores w)))).
Proof.
  intros str_num float_str ws df row_index scores w.
  destruct (update_runs str_num float_str ws df row_index scores w)
    as [_ Hrun].
  destruct Hrun as [e _ _ Hs _ | score msg _ _ _ Hs _
                   | score g _ _ _ _ _ Hs _
                   | score g k b _ _ _ updates _ Hw _ _];
    try (rewrite Hs; apply sheets_kept_refl).
  rewrite Hw, write_batch_world. cbv zeta. cbn [snd remote].
  change (sheets (remote w)) with (sheets (remote (header_read ws w))).
  unfold retry_api_call_default, retry_api_call, ws_batch_update.
  apply (@retry_keeps _ _ _ (sheets_kept_except ws (row_index + 1))
           (sheets_kept_refl ws (row_index + 1))
           (@sheets_kept_trans ws (row_index + 1))).
  intros ss. apply batch_keeps_other_rows.
  intros u Hu.
  destruct (batch_for_members _ _ _ _ _ Hu) as (k' & v & -> & _).
  unfold cell_for. cbn [upd_row]. lia.
Qed.

(** ** A score update against the rate limit *)

Section ExhaustedRequest.

Context {B : Type}.
Variable r : request.
Variable serve :
  list (string * worksheet) -> outcome B * list (string * worksheet).
Variable max_retries : nat.
Variable base_delay : Q.

(** The executor around a request that the store fails with a rate-limit
    message at every attempt. *)
Lemma retry_remote_exhausts (k : nat) :
  forall (first : nat) (w : world),
    first + k = max_retries ->
    (forall i, i < k ->
       exists msg, fault_at i (faults (remote w)) = Some msg
                   /\ is_rate_limit (mkExn APIError msg) = true) ->
    retry_attempts (returning (remote_call r serve)) max_retries base_delay
      (seq first k) w
    = (Ret None,
       mkWorld
         (mkStore (sheets (remote w)) (skipn k (faults (remote w)))
                  (served (remote w) ++ repeat (r, false) k))
         (skipn (k - 1) (jitter w))
         (events w
          ++ exhausted_events max_retries base_delay first (jitter w) k)).
Proof.
  induction k as [| k IH]; intros first w Hk Hrl.
  - cbn. unfold ret, exhausted_events. cbn.
    rewrite !app_nil_r. destruct w as [[ss fs sv] js evs]; reflexivity.
  - cbn [seq]. rewrite retry_attempts_step.
    destruct (Hrl 0 ltac:(lia)) as (msg & Hf & Hmsg).
    unfold returning at 1. unfold remote_call at 1.
    rewrite next_fault_nth, Hf, Hmsg.
    destruct k as [| k].
    + replace (first <? max_retries - 1) with false
        by (symmetry; apply Nat.ltb_ge; lia).
      destruct (faults (remote w)); reflexivity.
    + replace (first <? max_retries - 1) with true
        by (symmetry; apply Nat.ltb_lt; lia).
      cbv zeta. rewrite IH.
      * cbn [remote jitter events sheets faults served].
        replace (S (S k) - 1) with (S k) by lia.
        replace (S k - 1) with k by lia.
        rewrite exhausted_events_next, <- !app_assoc.
        f_equal. f_equal.
        -- f_equal. destruct (faults (remote w)); reflexivity.
        -- destruct (jitter w) as [| j js]; cbn [hd tl skipn];
             [rewrite skipn_nil |]; reflexivity.
      * lia.
      * intros i Hi. cbn [remote faults]. rewrite fault_at_tl.
        apply Hrl. lia.
Qed.

End ExhaustedRequest.

(** X17. A score update whose write hits the rate limit at each of its
    three attempts: the header read and three refused writes are all the
    requests, no worksheet changes, and the console ends with the
    executor's error message followed by the update's own; no success
    message is shown. *)
Theorem update_gives_up_when_rate_limited :
  forall (str_num : Q -> string) (float_str : string -> option Q)
         (ws : string) (df : DataFrame) (row_index : nat) (scores : dict)
         (w : world) (score : Q) (g : worksheet),
    calculate_applicant_score float_str scores = Ret score ->
    fault_at 0 (faults (remote w)) = None ->
    find_sheet (sheets (remote w)) ws = Some g ->
    let updates :=
      batch_for (sheet_header str_num (remote w) ws) (row_index + 2)
                scores score in
    updates <> [] ->
    (forall i, i < 3 ->
       exists msg, fault_at (S i) (faults (remote w)) = Some msg
                   /\ is_rate_limit (mkExn APIError msg) = true) ->
    let w' := snd (update_applicant_scores str_num float_str ws df
                     row_index scores w) in
    sheets (remote w') = sheets (remote w)
    /\ requests_since w w'
       = (ReqRowValues ws 1, true) :: repeat (ReqBatchUpdate ws updates, false) 3
    /\ events_since w w'
       = exhausted_events 3 1 0 (jitter w) 3 ++ [EvUi ErrScoresRateLimited].
Proof.
  intros str_num float_str ws df row_index scores w score g
         Hsc Hf0 Hg updates Hne Hrl w'.
  assert (Hw : w' = snd (write_batch ws df row_index updates (header_read ws w)))
    by (apply (@update_is_write_batch str_num float_str ws df row_index
                 scores w score g Hsc Hf0 Hg Hne)).
  assert (Hr : retry_api_call_default (returning (ws_batch_update ws updates))
                 (header_read ws w)
               = (Ret None,
                  mkWorld
                    (mkStore (sheets (remote w))
                       (skipn 3 (tl (faults (remote w))))
                       ((served (remote w) ++ [(ReqRowValues ws 1, true)])
                        ++ repeat (ReqBatchUpdate ws updates, false) 3))
                    (skipn 2 (jitter w))
                    (events w ++ exhausted_events 3 1 0 (jitter w) 3))).
  { unfold retry_api_call_default, retry_api_call, ws_batch_update.
    rewrite retry_remote_exhausts; [reflexivity | reflexivity |].
    intros i Hi. cbn [header_read remote faults]. rewrite fault_at_tl.
    apply Hrl. exact Hi. }
  rewrite write_batch_world in Hw. cbv zeta in Hw. rewrite Hr in Hw.
  cbn [fst snd remote jitter events] in Hw.
  rewrite Hw. split; [reflexivity | split].
  - unfold requests_since. cbn [remote served].
    rewrite <- app_assoc. apply skipn_length_app.
  - unfold events_since. cbn [events].
    rewrite <- app_assoc. apply skipn_length_app.
Qed.

Lemma update_gives_up_when_rate_limited_witness :
  let w' := snd (update_applicant_scores sample_str_num sample_float_str
                   SHEET_NAME alice_df 0 trust_rating write_limited_world) in
  sheets (remote w') = sheets (remote write_limited_world)
  /\ events_since write_limited_world w'
     = [EvInvoke; EvUi (WarnRateLimitRetry (3 # 2) 1 3); EvSleep (3 # 2);
        EvInvoke; EvUi (WarnRateLimitRetry (9 # 4) 2 3); EvSleep (9 # 4);
        EvInvoke; EvUi ErrRateLimitExceeded; EvUi ErrScoresRateLimited].
Proof.
  destruct (update_gives_up_when_rate_limited sample_str_num sample_float_str
              SHEET_NAME alice_df 0 trust_rating write_limited_world
              (score := (700 # 100)%Q)
              (g := [[VStr "name"; VStr "Trust"; VStr "Applicant Score"];
                     [VStr "Alice"; VNum 9; VStr ""]])
              eq_refl eq_refl eq_refl)
    as (Hs & _ & He).
  - discriminate.
  - intros i Hi.
    destruct i as [| [| [| i]]]; [| | | lia]; eexists;
      (split; [reflexivity | reflexivity]).
  - split; [exact Hs | exact He].
Defined.

(** ** The report of a score update *)

(** The world a served score update ends in. *)
Lemma update_served_world (str_num : Q -> string)
  (float_str : string -> option Q) (ws : string) (df : DataFrame)
  (row_index : nat) (scores : dict) (w : world) (score : Q) (g : worksheet) :
  calculate_applicant_score float_str scores = Ret score ->
  fault_at 0 (faults (remote w)) = None ->
  fault_at 1 (faults (remote w)) = None ->
  find_sheet (sheets (remote w)) ws = Some g ->
  let headers := sheet_header str_num (remote w) ws in
  let updates := batch_for headers (row_index + 2) scores score in
  List.length headers <= 26 ->
  updates <> [] ->
  snd (update_applicant_scores str_num float_str ws df row_index scores w)
  = mkWorld
      (mkStore
         (put_sheet (sheets (remote w)) ws (fold_left apply_update updates g))
         (tl (tl (faults (remote w))))
         ((served (remote w) ++ [(ReqRowValues ws 1, true)])
          ++ [(ReqBatchUpdate ws updates, true)]))
      (jitter w)
      (events w ++ [EvInvoke; EvUi (update_report df row_index)]).
Proof.
  intros Hsc Hf0 Hf1 Hg headers updates Hlen Hne.
  rewrite (@update_is_write_batch str_num float_str ws df row_index
             scores w score g Hsc Hf0 Hg Hne).
  fold headers. fold updates.
  rewrite (@write_batch_served ws df row_index updates (header_read ws w) g).
  - reflexivity.
  - cbn [header_read remote faults]. rewrite fault_at_tl. exact Hf1.
  - exact Hg.
  - apply batch_for_valid; [lia | exact Hlen].
Qed.

(** X18. The position is looked up in the table only for the success
    message, after the write: a score update for a position past the end
    of the table still has its batch written to the worksheet, and then
    reports the failed lookup as an error instead of a success. *)
Theorem update_checks_position_after_write :
  forall (str_num : Q -> string) (float_str : string -> option Q)
         (ws : string) (df : DataFrame) (row_index : nat) (scores : dict)
         (w : world) (score : Q) (g : worksheet),
    calculate_applicant_score float_str scores = Ret score ->
    fault_at 0 (faults (remote w)) = None ->
    fault_at 1 (faults (remote w)) = None ->
    find_sheet (sheets (remote w)) ws = Some g ->
    let headers := sheet_header str_num (remote w) ws in
    let updates := batch_for headers (row_index + 2) scores score in
    List.length headers <= 26 ->
    updates <> [] ->
    List.length (df_rows df) <= row_index ->
    let w' := snd (update_applicant_scores str_num float_str ws df
                     row_index scores w) in
    find_sheet (sheets (remote w')) ws
    = Some (fold_left apply_update updates g)
    /\ requests_since w w'
       = [(ReqRowValues ws 1, true); (ReqBatchUpdate ws updates, true)]
    /\ events_since w w'
       = [EvInvoke;
          EvUi (ErrUpdatingScores "single positional indexer is out-of-bounds")].
Proof.
  intros str_num float_str ws df row_index scores w score g
         Hsc Hf0 Hf1 Hg headers updates Hlen Hne Hpos w'.
  unfold w'.
  rewrite (@update_served_world str_num float_str ws df row_index scores w
             score g Hsc Hf0 Hf1 Hg Hlen Hne).
  assert (Hrep : update_report df row_index
                 = ErrUpdatingScores "single positional indexer is out-of-bounds").
  { unfold update_report, name_at, df_iloc.
    replace (nth_error (df_rows df) row_index) with (@None (list value))
      by (symmetry; apply nth_error_None; exact Hpos).
    reflexivity. }
  rewrite Hrep. cbn [remote sheets].
  split; [apply find_put_same with (g := g); exact Hg | split].
  - unfold requests_since. cbn [remote served].
    rewrite <- app_assoc. apply skipn_length_app.
  - apply events_since_app.
Qed.

Lemma update_checks_position_after_write_witness :
  let w' := snd (update_applicant_scores sample_str_num sample_float_str
                   SHEET_NAME alice_df 5 trust_rating scored_world) in
  find_sheet (sheets (remote w')) SHEET_NAME
  = Some [[VStr "name"; VStr "Trust"; VStr "Applicant Score"];
          [VStr "Alice"; VNum 9; VStr ""];
          []; []; []; [];
          [VStr ""; VNum 7; VNum (700 # 100)]]
  /\ events_since scored_world w'
     = [EvInvoke;
        EvUi (ErrUpdatingScores "single positional indexer is out-of-bounds")].
Proof.
  destruct (@update_checks_position_after_write sample_str_num
              sample_float_str SHEET_NAME alice_df 5 trust_rating scored_world
              (700 # 100)%Q
              [[VStr "name"; VStr "Trust"; VStr "Applicant Score"];
               [VStr "Alice"; VNum 9; VStr ""]]
              eq_refl eq_refl eq_refl eq_refl)
    as (Hs & _ & He).
  - cbn. lia.
  - discriminate.
  - cbn. lia.
  - split; [exact Hs | exact He].
Defined.

(** ** What a stage change does to the worksheets *)

Lemma stage_change_is_transition (str_num : Q -> string) (c : stage_change)
  (main_ws other_ws : string) :
  stage_change_run str_num c main_ws other_ws
  = transition str_num (source_of c main_ws other_ws)
      (dest_of c main_ws other_ws) (moved_message c) (failed_message c).
Proof.
  destruct c; cbn [stage_change_run source_of dest_of].
  - apply deny_is_transition.
  - apply hire_is_transition.
  - apply reinstate_is_transition.
Qed.

(** A transition up to its delete request: the header read and the append
    served. *)
Lemma transition_to_delete (str_num : Q -> string) (source dest : string)
  (ok : value -> ui_msg) (err : string -> ui_msg) (df : DataFrame)
  (row_index : nat) (w : world) (row_data : dict) (gs gd : worksheet) :
  df_iloc df row_index = Ret row_data ->
  fault_at 0 (faults (remote w)) = None ->
  fault_at 1 (faults (remote w)) = None ->
  find_sheet (sheets (remote w)) source = Some gs ->
  find_sheet (sheets (remote w)) dest = Some gd ->
  source <> dest ->
  let row := row_in_order_of str_num (remote w) source row_data in
  let appended := put_sheet (sheets (remote w)) dest (gd ++ [map VStr row]) in
  let reqs (deleted : bool) :=
    served (remote w)
    ++ [(ReqRowValues source 1, true); (ReqAppendRow dest row, true);
        (ReqDeleteRows source (row_index + 2), deleted)] in
  snd (transition str_num source dest ok err df row_index w)
  = match fault_at 2 (faults (remote w)) with
    | Some msg =>
        mkWorld
          (mkStore appended (tl (tl (tl (faults (remote w))))) (reqs false))
          (jitter w) (events w ++ [EvUi (err msg)])
    | None =>
        mkWorld
          (mkStore (put_sheet appended source (grid_delete gs (row_index + 2)))
                   (tl (tl (tl (faults (remote w))))) (reqs true))
          (jitter w)
          (events w
           ++ [EvUi match dict_getitem row_data "name" with
                    | Ret name => ok name
                    | Raise e => err (exn_str e)
                    end])
    end.
Proof.
  intros Hrow Hf0 Hf1 Hsrc Hdst Hne row appended reqs.
  assert (Hsrc' : find_sheet appended source = Some gs).
  { unfold appended. rewrite find_put_other by congruence. exact Hsrc. }
  unfold reqs, appended, row, row_in_order_of, sheet_header in *.
  rewrite Hsrc in *.
  unfold transition, try_except, bind, lift_outcome, lift_store,
    ws_row_values, ws_append_row, ws_delete_rows, remote_call,
    st_success, st_error, emit.
  cbn [remote jitter events sheets faults served fst snd].
  rewrite Hrow, next_fault_nth, Hf0, Hsrc.
  cbn [fst snd remote jitter events sheets faults served is_ret].
  change (nth (1 - 1) gs []) with (nth 0 gs []).
  rewrite next_fault_nth, fault_at_tl, Hf1, Hdst.
  cbn [fst snd remote jitter events sheets faults served is_ret].
  rewrite next_fault_nth, !fault_at_tl.
  destruct (fault_at 2 (faults (remote w))) as [msg |].
  - cbn [fst snd remote jitter events sheets faults served is_ret].
    rewrite <- !app_assoc. reflexivity.
  - rewrite Hsrc'.
    cbn [fst snd remote jitter events sheets faults served is_ret].
    rewrite <- !app_assoc. cbn [app].
    destruct (dict_getitem row_data "name") as [name | e]; reflexivity.
Qed.

Lemma nth_grid_delete_above (g : worksheet) (index i : nat) :
  i < index - 1 -> nth i (grid_delete g index) [] = nth i g [].
Proof.
  intros Hi. unfold grid_delete.
  destruct (Nat.lt_ge_cases i (List.length g)) as [Hlt | Hge].
  - rewrite app_nth1 by (rewrite length_firstn; lia).
    rewrite <- (firstn_skipn (index - 1) g) at 2.
    rewrite app_nth1 by (rewrite length_firstn; lia).
    reflexivity.
  - rewrite (nth_overflow g) by exact Hge.
    apply nth_overflow.
    rewrite length_app, length_firstn, length_skipn. lia.
Qed.

Lemma nth_grid_delete_below (g : worksheet) (index i : nat) :
  1 <= index -> index - 1 <= i ->
  nth i (grid_delete g index) [] = nth (S i) g [].
Proof.
  intros Hindex Hi. unfold grid_delete.
  destruct (Nat.lt_ge_cases (index - 1) (List.length g)) as [Hlt | Hge].
  - rewrite app_nth2 by (rewrite length_firstn; lia).
    rewrite length_firstn, Nat.min_l by lia.
    rewrite nth_skipn. f_equal. lia.
  - rewrite (nth_overflow g) by lia.
    apply nth_overflow.
    rewrite length_app, length_firstn, length_skipn. lia.
Qed.

Lemma grid_delete_row_removed (g : worksheet) (row_index : nat) :
  row_removed (row_index + 1) g (grid_delete g (row_index + 2)).
Proof.
  split; intros i Hi.
  - apply nth_grid_delete_above. lia.
  - apply nth_grid_delete_below; lia.
Qed.

(** X19. A stage change (deny, hire or reinstate) whose three requests are
    served, for a position of the table whose record has a name: the
    destination worksheet gains one row, the record's cells as text in the
    order of the source's header; the source worksheet loses exactly its
    spreadsheet row [row_index + 2], the header and the rows above staying
    and the rows below moving up by one; every other worksheet is as
    before; and the one message shown is the success message with the
    record's name. *)
Theorem served_stage_change_moves_the_row :
  forall (str_num : Q -> string) (c : stage_change) (main_ws other_ws : string)
         (df : DataFrame) (row_index : nat) (w : world)
         (row_data : dict) (name : value) (gs gd : worksheet),
    let source := source_of c main_ws other_ws in
    let dest := dest_of c main_ws other_ws in
    df_iloc df row_index = Ret row_data ->
    dict_getitem row_data "name" = Ret name ->
    (forall i, i < 3 -> fault_at i (faults (remote w)) = None) ->
    find_sheet (sheets (remote w)) source = Some gs ->
    find_sheet (sheets (remote w)) dest = Some gd ->
    main_ws <> other_ws ->
    let w' := snd (stage_change_run str_num c main_ws other_ws df row_index w) in
    find_sheet (sheets (remote w')) dest
    = Some (gd ++ [map VStr (row_in_order_of str_num (remote w) source row_data)])
    /\ (exists gs', find_sheet (sheets (remote w')) source = Some gs'
                    /\ row_removed (row_index + 1) gs gs')
    /\ (forall title, title <> source -> title <> dest ->
          find_sheet (sheets (remote w')) title
          = find_sheet (sheets (remote w)) title)
    /\ events_since w w' = [EvUi (moved_message c name)].
Proof.
  intros str_num c main_ws other_ws df row_index w row_data name gs gd
         source dest Hrow Hname Hf Hsrc Hdst Hne w'.
  assert (Hsd : source <> dest)
    by (unfold source, dest; destruct c; cbn; congruence).
  assert (Hw : w' = snd (transition str_num source dest (moved_message c)
                           (failed_message c) df row_index w))
    by (unfold w'; rewrite stage_change_is_transition; reflexivity).
  rewrite (@transition_to_delete str_num source dest (moved_message c)
             (failed_message c) df row_index w row_data gs gd
             Hrow (Hf 0 ltac:(lia)) (Hf 1 ltac:(lia)) Hsrc Hdst Hsd) in Hw.
  rewrite (Hf 2 ltac:(lia)), Hname in Hw.
  rewrite Hw. cbn [remote sheets].
  split; [| split; [| split]].
  - rewrite find_put_other by exact Hsd.
    apply find_put_same with (g := gd). exact Hdst.
  - exists (grid_delete gs (row_index + 2)). split.
    + apply find_put_same with (g := gs).
      rewrite find_put_other by congruence. exact Hsrc.
    + apply grid_delete_row_removed.
  - intros title Hts Htd.
    rewrite !find_put_other by congruence. reflexivity.
  - apply events_since_app.
Qed.

Lemma served_stage_change_moves_the_row_witness :
  let w' := snd (move_applicant_to_denied sample_str_num SHEET_NAME
                   DENIED_SHEET_NAME alice_df 0 reorder_world) in
  find_sheet (sheets (remote w')) DENIED_SHEET_NAME
  = Some [[VStr "Trust"; VStr "name"]; [VStr "Alice"; VStr "9"]]
  /\ events_since reorder_world w' = [EvUi (OkMovedToDenied (VStr "Alice"))].
Proof.
  destruct (@served_stage_change_moves_the_row sample_str_num Deny SHEET_NAME
              DENIED_SHEET_NAME alice_df 0 reorder_world alice_row
              (VStr "Alice")
              [[VStr "name"; VStr "Trust"]; [VStr "Alice"; VNum 9]]
              [[VStr "Trust"; VStr "name"]]
              eq_refl eq_refl)
    as (Hd & _ & _ & He).
  - intros i Hi. destruct i as [| [| [| i]]]; reflexivity.
  - reflexivity.
  - reflexivity.
  - discriminate.
  - split; [exact Hd | exact He].
Defined.

(** X20. A stage change whose append is served and whose delete the store
    fails: the record is then in both worksheets, appended to the
    destination and still in the source, which is unchanged; the delete is
    not tried again, and the one message shown is the error message with
    the store's text. *)
Theorem failed_delete_leaves_record_in_both :
  forall (str_num : Q -> string) (c : stage_change) (main_ws other_ws : string)
         (df : DataFrame) (row_index : nat) (w : world)
         (row_data : dict) (gs gd : worksheet) (msg : string),
    let source := source_of c main_ws other_ws in
    let dest := dest_of c main_ws other_ws in
    df_iloc df row_index = Ret row_data ->
    fault_at 0 (faults (remote w)) = None ->
    fault_at 1 (faults (remote w)) = None ->
    fault_at 2 (faults (remote w)) = Some msg ->
    find_sheet (sheets (remote w)) source = Some gs ->
    find_sheet (sheets (remote w)) dest = Some gd ->
    main_ws <> other_ws ->
    let row := row_in_order_of str_num (remote w) source row_data in
    let w' := snd (stage_change_run str_num c main_ws other_ws df row_index w) in
    find_sheet (sheets (remote w')) dest = Some (gd ++ [map VStr row])
    /\ find_sheet (sheets (remote w')) source = Some gs
    /\ requests_since w w'
       = [(ReqRowValues source 1, true); (ReqAppendRow dest row, true);
          (ReqDeleteRows source (row_index + 2), false)]
    /\ events_since w w' = [EvUi (failed_message c msg)].
Proof.
  intros str_num c main_ws other_ws df row_index w row_data gs gd msg
         source dest Hrow Hf0 Hf1 Hf2 Hsrc Hdst Hne row w'.
  assert (Hsd : source <> dest)
    by (unfold source, dest; destruct c; cbn; congruence).
  assert (Hw : w' = snd (transition str_num source dest (moved_message c)
                           (failed_message c) df row_index w))
    by (unfold w'; rewrite stage_change_is_transition; reflexivity).
  rewrite (@transition_to_delete str_num source dest (moved_message c)
             (failed_message c) df row_index w row_data gs gd
             Hrow Hf0 Hf1 Hsrc Hdst Hsd) in Hw.
  rewrite Hf2 in Hw. rewrite Hw. cbn [remote sheets].
  split; [| split; [| split]].
  - apply find_put_same with (g := gd). exact Hdst.
  - rewrite find_put_other by congruence. exact Hsrc.
  - apply requests_since_app.
  - apply events_since_app.
Qed.

Lemma failed_delete_leaves_record_in_both_witness :
  let w' := snd (move_applicant_to_hired sample_str_num SHEET_NAME
                   HIRED_SHEET_NAME alice_df 0 third_fails_sheets_world) in
  find_sheet (sheets (remote w')) HIRED_SHEET_NAME
  = Some [[VStr "name"; VStr "Trust"]; [VStr "Alice"; VStr "9"]]
  /\ find_sheet (sheets (remote w')) SHEET_NAME
     = Some [[VStr "name"; VStr "Trust"]; [VStr "Alice"; VNum 9]]
  /\ events_since third_fails_sheets_world w'
     = [EvUi (ErrMovingApplicant "500 backend error")].
Proof.
  destruct (@failed_delete_leaves_record_in_both sample_str_num Hire SHEET_NAME
              HIRED_SHEET_NAME alice_df 0 third_fails_sheets_world alice_row
              [[VStr "name"; VStr "Trust"]; [VStr "Alice"; VNum 9]]
              [[VStr "name"; VStr "Trust"]] "500 backend error"
              eq_refl eq_refl eq_refl eq_refl eq_refl eq_refl)
    as (Hd & Hs & _ & He).
  - discriminate.
  - split; [exact Hd | split; [exact Hs | exact He]].
Defined.

(** A transition for a position the table does not have. *)
Lemma transition_without_row (str_num : Q -> string) (source dest : string)
  (ok : value -> ui_msg) (err : string -> ui_msg) (df : DataFrame)
  (row_index : nat) (w : world) :
  List.length (df_rows df) <= row_index ->
  snd (transition str_num source dest ok err df row_index w)
  = mkWorld (remote w) (jitter w)
      (events w
       ++ [EvUi (err "single positional indexer is out-of-bounds")]).
Proof.
  intros Hpos.
  unfold transition. rewrite try_bind_outcome.
  unfold df_iloc.
  replace (nth_error (df_rows df) row_index) with (@None (list value))
    by (symmetry; apply nth_error_None; exact Hpos).
  reflexivity.
Qed.

(** X21. A stage change for a position past the end of the table makes no
    request at all: the worksheets and the log of requests are as before,
    and the one message shown is the error message of the failed lookup. *)
Theorem stage_change_outside_table_requests_nothing :
  forall (str_num : Q -> string) (c : stage_change) (main_ws other_ws : string)
         (df : DataFrame) (row_index : nat) (w : world),
    List.length (df_rows df) <= row_index ->
    let w' := snd (stage_change_run str_num c main_ws other_ws df row_index w) in
    remote w' = remote w
    /\ requests_since w w' = []
    /\ events_since w w'
       = [EvUi (failed_message c "single positional indexer is out-of-bounds")].
Proof.
  intros str_num c main_ws other_ws df row_index w Hpos w'.
  unfold w'. rewrite stage_change_is_transition.
  rewrite transition_without_row by exact Hpos.
  cbn [remote]. split; [reflexivity | split].
  - unfold requests_since. apply skipn_all.
  - apply events_since_app.
Qed.

Lemma stage_change_outside_table_requests_nothing_witness :
  let w' := snd (reinstate_applicant sample_str_num SHEET_NAME
                   DENIED_SHEET_NAME alice_df 1 reorder_world) in
  remote w' = remote reorder_world
  /\ events_since reorder_world w'
     = [EvUi (ErrReinstating "single positional indexer is out-of-bounds")].
Proof.
  destruct (@stage_change_outside_table_requests_nothing sample_str_num
              Reinstate SHEET_NAME DENIED_SHEET_NAME alice_df 1 reorder_world)
    as (Hr & _ & He).
  - cbn. lia.
  - split; [exact Hr | exact He].
Defined.

Lemma dict_set_keys (d : dict) (k : string) (v : value) (x : string) :
  In x (dict_keys (dict_set d k v)) -> In x (dict_keys d) \/ x = k.
Proof.
  induction d as [| [k' v'] d IH]; cbn [dict_set dict_keys map fst In].
  - intros [<- | []]. right. reflexivity.
  - destruct (String.eqb k k').
    + cbn [map fst In]. tauto.
    + cbn [map fst In]. intros [H | H]; [tauto |].
      destruct (IH H); tauto.
Qed.

Lemma to_dict_keys (keys : list string) (vals : list value) (x : string) :
  In x (dict_keys (to_dict keys vals)) -> In x keys.
Proof.
  unfold to_dict.
  assert (H : forall kvs d,
             In x (dict_keys
                     (fold_left (fun d0 kv => dict_set d0 (fst kv) (snd kv))
                                kvs d)) ->
             In x (dict_keys d) \/ In x (map fst kvs)).
  { induction kvs as [| kv kvs IH]; intros d Hin; [left; exact Hin |].
    cbn [fold_left] in Hin. destruct (IH _ Hin) as [Hd | Hk].
    - destruct (dict_set_keys _ _ _ _ Hd) as [Hd' | ->].
      + left. exact Hd'.
      + right. left. reflexivity.
    - right. right. exact Hk. }
  intros Hin. destruct (H _ _ Hin) as [[] | Hk].
  revert Hk. generalize vals. clear.
  induction keys as [| k keys IH]; intros [| v vals]; cbn [combine map fst In];
    try tauto.
  intros [<- | Hk]; [left; reflexivity | right; apply (IH vals Hk)].
Qed.



(** ** The score column of a table that comes without one *)

Lemma dict_get_set_other (d : dict) (k a : string) (v default : value) :
  k <> a -> dict_get (dict_set d a v) k default = dict_get d k default.
Proof.
  intros Hne.
  induction d as [| [k' v'] d IH]; cbn [dict_set dict_get].
  - replace (String.eqb k a) with false
      by (symmetry; apply String.eqb_neq; exact Hne).
    reflexivity.
  - destruct (String.eqb a k') eqn:E; cbn [dict_get].
    + apply String.eqb_eq in E. subst k'.
      replace (String.eqb k a) with false
        by (symmetry; apply String.eqb_neq; exact Hne).
      reflexivity.
    + destruct (String.eqb k k'); [reflexivity | exact IH].
Qed.

Lemma combine_snoc {B C : Type} (xs : list B) (ys : list C) (x : B) (y : C) :
  List.length ys = List.length xs ->
  combine (xs ++ [x]) (ys ++ [y]) = combine xs ys ++ [(x, y)].
Proof.
  revert ys. induction xs as [| x0 xs IH]; intros [| y0 ys] Hlen;
    try discriminate; [reflexivity |].
  cbn [app combine]. f_equal. apply IH. injection Hlen as Hlen. exact Hlen.
Qed.

(** A row with one more cell, under one more label, as a mapping. *)
Lemma to_dict_snoc (keys : list string) (r : list value) (a : string)
  (v : value) :
  row_width keys r ->
  to_dict (keys ++ [a]) (r ++ [v]) = dict_set (to_dict keys r) a v.
Proof.
  intros Hw. unfold to_dict. rewrite combine_snoc by exact Hw.
  rewrite fold_left_app. reflexivity.
Qed.

Lemma str_index_fresh (a : string) (xs : list string) :
  ~ In a xs -> str_index a (xs ++ [a]) = List.length xs.
Proof.
  induction xs as [| x xs IH]; intros Hnin; cbn [app str_index List.length].
  - rewrite String.eqb_refl. reflexivity.
  - replace (String.eqb a x) with false
      by (symmetry; apply String.eqb_neq; intros ->; apply Hnin; left;
          reflexivity).
    f_equal. apply IH. intros H. apply Hnin. right. exact H.
Qed.

Lemma set_nth_last {B : Type} (r : list B) (x y pad : B) :
  set_nth (List.length r) x pad (r ++ [y]) = r ++ [x].
Proof.
  induction r as [| h r IH]; [reflexivity |].
  cbn [List.length app set_nth]. f_equal. exact IH.
Qed.

(** The score of a row does not see the new column. *)
Lemma score_with_new_column (float_str : string -> option Q)
  (columns : list string) (r : list value) (v : value) :
  row_width columns r ->
  calculate_applicant_score float_str
    (to_dict (columns ++ ["Applicant Score"]) (r ++ [v]))
  = calculate_applicant_score float_str (to_dict columns r).
Proof.
  intros Hw. rewrite to_dict_snoc by exact Hw.
  unfold calculate_applicant_score.
  rewrite (@collect_scores_ext float_str
             (dict_set (to_dict columns r) "Applicant Score" v)
             (to_dict columns r) SKILL_COLUMNS); [reflexivity |].
  intros skill Hin. unfold rating_of. apply dict_get_set_other.
  intros ->. cbn in Hin.
  repeat (destruct Hin as [Hin | Hin]; [discriminate Hin |]).
  destruct Hin.
Qed.

Lemma fill_scores_rows (float_str : string -> option Q)
  (columns : list string) (rows : list (list value)) :
  ~ In "Applicant Score" columns ->
  (forall r, In r rows -> row_width columns r) ->
  (forall r, In r rows ->
     exists s, calculate_applicant_score float_str (to_dict columns r) = Ret s) ->
  exists filled,
    fill_scores float_str (columns ++ ["Applicant Score"])
      (map (fun r => r ++ [VNum 0]) rows)
    = Ret filled
    /\ Forall2 (scored_row float_str columns) rows filled.
Proof.
  intros Hnin Hwidth Hscore.
  induction rows as [| r rows IH].
  - exists []. split; [reflexivity | constructor].
  - destruct IH as (filled & Hfill & Hrows).
    + intros r' Hr'. apply Hwidth. right. exact Hr'.
    + intros r' Hr'. apply Hscore. right. exact Hr'.
    + destruct (Hscore r (or_introl eq_refl)) as (s & Hs).
      pose proof (Hwidth r (or_introl eq_refl)) as Hw.
      exists ((r ++ [VNum s]) :: filled). split.
      * cbn [map fill_scores].
        rewrite score_with_new_column by exact Hw.
        rewrite Hs, Hfill, str_index_fresh by exact Hnin.
        rewrite <- Hw, set_nth_last. reflexivity.
      * constructor; [| exact Hrows].
        exists s. split; [exact Hs | reflexivity].
Qed.

(** X23. The block that gives a table its [Applicant Score] column, on a
    table without one whose rows can all be scored: the label is added
    after the others, no row is added, dropped or reordered, every row
    keeps its cells and gets as its last cell the score of its own
    ratings, and running the block again on the result changes nothing. *)
Theorem added_column_holds_each_rows_score :
  forall (float_str : string -> option Q) (df : DataFrame),
    ~ In "Applicant Score" (df_columns df) ->
    rectangular df ->
    (forall r, In r (df_rows df) ->
       exists s, calculate_applicant_score float_str
                   (to_dict (df_columns df) r) = Ret s) ->
    exists filled,
      add_score_column float_str df
      = Ret (mkDF (df_columns df ++ ["Applicant Score"]) filled)
      /\ Forall2 (scored_row float_str (df_columns df)) (df_rows df) filled
      /\ add_score_column float_str
           (mkDF (df_columns df ++ ["Applicant Score"]) filled)
         = Ret (mkDF (df_columns df ++ ["Applicant Score"]) filled).
Proof.
  intros float_str df Hnin Hrect Hscore.
  destruct (@fill_scores_rows float_str (df_columns df) (df_rows df)
              Hnin Hrect Hscore) as (filled & Hfill & Hrows).
  exists filled. split; [| split; [exact Hrows |]].
  - unfold add_score_column.
    replace (str_in "Applicant Score" (df_columns df)) with false.
    + cbv zeta. rewrite Hfill. reflexivity.
    + symmetry. apply not_true_is_false. intros H. apply Hnin.
      apply str_in_In. exact H.
  - unfold add_score_column. cbn [df_columns].
    replace (str_in "Applicant Score" (df_columns df ++ ["Applicant Score"]))
      with true; [reflexivity |].
    symmetry. apply str_in_In. apply in_or_app. right. left. reflexivity.
Qed.

Lemma added_column_holds_each_rows_score_witness :
  add_score_column sample_float_str alice_df
  = Ret (mkDF ["name"; "Trust"; "Applicant Score"]
              [[VStr "Alice"; VNum 9; VNum (900 # 100)]]).
Proof.
  destruct (@added_column_holds_each_rows_score sample_float_str alice_df)
    as (filled & Hadd & Hrows & _).
  - cbn. intros [H | [H | []]]; discriminate H.
  - intros r [<- | []]. reflexivity.
  - intros r [<- | []]. eexists. reflexivity.
  - rewrite Hadd. f_equal. f_equal.
    inversion Hrows as [| r r' rows rows' Hr Hrest]. subst.
    inversion Hrest. subst.
    destruct Hr as (s & Hs & ->).
    injection Hs as <-. reflexivity.
Defined.

(** ** The position the display functions act on *)

Lemma least_true (p : nat -> bool) :
  forall n,
    (exists j, j < n /\ p j = true /\ forall k, k < j -> p k = false)
    \/ (forall k, k < n -> p k = false).
Proof.
  induction n as [| n IH].
  - right. intros k Hk. lia.
  - destruct IH as [(j & Hj & Hp & Hleast) | Hnone].
    + left. exists j. split; [lia | split; assumption].
    + destruct (p n) eqn:Hn.
      * left. exists n. split; [lia | split; assumption].
      * right. intros k Hk.
        destruct (Nat.eq_dec k n) as [-> | Hne]; [exact Hn |].
        apply Hnone. lia.
Qed.

Lemma filter_seq_none (p : nat -> bool) (len : nat) :
  forall start,
    (forall k, start <= k < start + len -> p k = false) ->
    filter p (seq start len) = [].
Proof.
  induction len as [| len IH]; intros start Hnone; [reflexivity |].
  cbn [seq filter]. rewrite (Hnone start) by lia.
  apply IH. intros k Hk. apply Hnone. lia.
Qed.

(** The first position that passes a test heads the list of those that
    pass. *)
Lemma filter_seq_first (p : nat -> bool) (n j : nat) :
  j < n -> p j = true -> (forall k, k < j -> p k = false) ->
  exists rest, filter p (seq 0 n) = j :: rest.
Proof.
  intros Hj Hp Hleast.
  replace n with (j + (1 + (n - j - 1))) by lia.
  rewrite seq_app, filter_app.
  rewrite filter_seq_none by (intros k Hk; apply Hleast; lia).
  rewrite seq_app, filter_app. cbn [seq filter Nat.add app].
  rewrite Hp. eexists. reflexivity.
Qed.

Lemma dict_get_present (d : dict) (k : string) (a b : value) :
  In k (dict_keys d) -> dict_get d k a = dict_get d k b.
Proof.
  induction d as [| [k' v] d IH]; [intros [] |].
  cbn [dict_keys map fst In dict_get]. intros Hin.
  destruct (String.eqb k k') eqn:E; [reflexivity |].
  apply IH. destruct Hin as [-> | Hin]; [| exact Hin].
  rewrite String.eqb_refl in E. discriminate.
Qed.

(** X24. The position the display functions compute for a row of the
    table whose name is a text or a number is that of the first row of the
    table with that name: it is the row's own position exactly when no
    earlier row has the same name, and otherwise the position of an
    earlier namesake. *)
Theorem original_idx_is_first_row_of_that_name :
  forall (df : DataFrame) (i : nat) (r : list value) (name : value),
    nth_error (df_rows df) i = Some r ->
    dict_getitem (to_dict (df_columns df) r) "name" = Ret name ->
    value_eqb name name = true ->
    exists j rj,
      original_idx df (to_dict (df_columns df) r) = Ret j
      /\ j <= i
      /\ nth_error (df_rows df) j = Some rj
      /\ value_eqb (name_in df rj) name = true
      /\ no_earlier_namesake df name j
      /\ (j = i <-> no_earlier_namesake df name i).
Proof.
  intros df i r name Hrow Hname Hself.
  unfold dict_getitem in Hname.
  destruct (str_in "name" (dict_keys (to_dict (df_columns df) r))) eqn:Hkey;
    [| discriminate].
  apply str_in_In in Hkey.
  injection Hname as Hname.
  assert (Hcol : In "name" (df_columns df)) by (apply (to_dict_keys _ _ _ Hkey)).
  assert (Hown : name_in df r = name).
  { unfold name_in. rewrite <- Hname. apply dict_get_present. exact Hkey. }
  set (names := map (name_in df) (df_rows df)).
  set (p := fun k => value_eqb (nth k names VNaN) name).
  assert (Hnth : forall k rk, nth_error (df_rows df) k = Some rk ->
                              nth k names VNaN = name_in df rk).
  { intros k rk Hk. unfold names.
    apply nth_error_nth. rewrite nth_error_map, Hk. reflexivity. }
  assert (Hi : i < List.length (df_rows df))
    by (apply nth_error_Some; rewrite Hrow; discriminate).
  assert (Hpi : p i = true).
  { unfold p. rewrite (Hnth i r Hrow), Hown. exact Hself. }
  destruct (least_true p (S i)) as [(j & Hj & Hpj & Hleast) | Hnone];
    [| rewrite Hnone in Hpi by lia; discriminate].
  assert (Hjlen : j < List.length (df_rows df)) by lia.
  destruct (nth_error (df_rows df) j) as [rj |] eqn:Hrj;
    [| apply nth_error_None in Hrj; lia].
  assert (Hbefore : no_earlier_namesake df name j).
  { intros k rk Hk Hrk. rewrite <- (Hnth k rk Hrk). apply Hleast. exact Hk. }
  exists j, rj.
  split; [| split; [lia | split; [exact Hrj | split; [| split]]]].
  - unfold original_idx, df_column.
    replace (str_in "name" (df_columns df)) with true
      by (symmetry; apply str_in_In; exact Hcol).
    unfold dict_getitem.
    replace (str_in "name" (dict_keys (to_dict (df_columns df) r))) with true
      by (symmetry; apply str_in_In; exact Hkey).
    rewrite Hname. fold (name_in df). fold names.
    destruct (@filter_seq_first p (List.length names) j) as (rest & Hrest).
    + unfold names. rewrite length_map. exact Hjlen.
    + exact Hpj.
    + exact Hleast.
    + fold p. rewrite Hrest. reflexivity.
  - rewrite <- (Hnth j rj Hrj). exact Hpj.
  - exact Hbefore.
  - split.
    + intros <-. exact Hbefore.
    + intros Hnone.
      destruct (Nat.eq_dec j i) as [Heq | Hne]; [exact Heq |].
      exfalso.
      assert (Hlt : j < i) by lia.
      pose proof (Hnone j rj Hlt Hrj) as Hf.
      rewrite <- (Hnth j rj Hrj) in Hf. fold (p j) in Hf. congruence.
Qed.

(** In a table with two rows named Alice, the later one is given the
    position of the earlier. *)
Lemma original_idx_is_first_row_of_that_name_witness :
  original_idx namesakes_df
    (to_dict (df_columns namesakes_df) [VStr "Alice"; VNum 2])
  = Ret 0.
Proof.
  destruct (@original_idx_is_first_row_of_that_name namesakes_df 2
              [VStr "Alice"; VNum 2] (VStr "Alice") eq_refl eq_refl eq_refl)
    as (j & rj & Hidx & Hle & _).
  assert (H0 : Ret 0 = Ret j) by exact Hidx.
  rewrite Hidx. symmetry. exact H0.
Defined.

(** ** The ratings a Save sends *)

Lemma dict_find_map (f : string -> value) (keys : list string) (k : string) :
  In k keys -> dict_find (map (fun x => (x, f x)) keys) k = Some (f k).
Proof.
  induction keys as [| k0 keys IH]; [intros [] |].
  intros Hin. cbn [map dict_find].
  destruct (String.eqb k k0) eqn:E.
  - apply String.eqb_eq in E. subst. reflexivity.
  - apply IH. destruct Hin as [-> | Hin]; [| exact Hin].
    rewrite String.eqb_refl in E. discriminate.
Qed.

Lemma flat_map_singletons {B C : Type} (g : B -> list C) (h : B -> C)
  (l : list B) :
  (forall x, In x l -> g x = [h x]) -> flat_map g l = map h l.
Proof.
  induction l as [| x l IH]; intros Hg; [reflexivity |].
  cbn [flat_map map]. rewrite (Hg x) by (left; reflexivity).
  cbn [app]. f_equal. apply IH. intros y Hy. apply Hg. right. exact Hy.
Qed.

Lemma nonzero_positive (z : Z) : (1 <= z)%Z -> nonzero (inject_Z z) = true.
Proof.
  intros Hz. unfold nonzero.
  destruct (Qeq_bool (inject_Z z) 0) eqn:E; [| reflexivity].
  apply Qeq_bool_iff in E. unfold Qeq, inject_Z in E. cbn in E. lia.
Qed.

(** X25. Whatever the sliders are set to between their bounds 1 and 10,
    the mapping a Save sends rates every skill, each once: its score is
    computed without error, is the rounded mean of all the sliders, none
    left out, and lies between 1 and 10. *)
Theorem saved_form_rates_every_skill :
  forall (float_str : string -> option Q) (slider : string -> Z),
    (forall skill, In skill SKILL_COLUMNS -> (1 <= slider skill <= 10)%Z) ->
    dict_keys (form_scores slider) = SKILL_COLUMNS
    /\ (forall skill, In skill SKILL_COLUMNS ->
          dict_find (form_scores slider) skill
          = Some (VNum (inject_Z (slider skill))))
    /\ exists s,
         calculate_applicant_score float_str (form_scores slider) = Ret s
         /\ s = py_round2
                  (np_mean (map (fun skill => inject_Z (slider skill))
                                SKILL_COLUMNS))
         /\ (1 <= s <= 10)%Q.
Proof.
  intros float_str slider Hrange.
  assert (Hform : form_scores slider
                  = map (fun skill => (skill, VNum (inject_Z (slider skill))))
                        SKILL_COLUMNS) by reflexivity.
  assert (Hfind : forall skill, In skill SKILL_COLUMNS ->
                    dict_find (form_scores slider) skill
                    = Some (VNum (inject_Z (slider skill)))).
  { intros skill Hin. rewrite Hform.
    apply (dict_find_map (fun x => VNum (inject_Z (slider x)))). exact Hin. }
  split; [reflexivity | split; [exact Hfind |]].
  unfold calculate_applicant_score.
  rewrite collect_scores_numeric
    by (intros skill s Hin; rewrite (Hfind skill Hin); discriminate).
  cbn [app].
  rewrite (@flat_map_singletons _ _ _
             (fun skill => inject_Z (slider skill)) SKILL_COLUMNS).
  2:{ intros skill Hin. rewrite (Hfind skill Hin).
      rewrite nonzero_positive by (apply Hrange; exact Hin). reflexivity. }
  eexists. split; [reflexivity | split; [reflexivity |]].
  change 1%Q with (inject_Z 1). change 10%Q with (inject_Z 10).
  apply py_round2_bounds, np_mean_bounds; [discriminate |].
  intros q Hq. apply in_map_iff in Hq. destruct Hq as (skill & <- & Hin).
  destruct (Hrange skill Hin) as [Hlo Hhi].
  split; rewrite <- Zle_Qle; assumption.
Qed.

(** Every slider at 1 but that of Trust, at 8. *)
Lemma saved_form_rates_every_skill_witness :
  calculate_applicant_score sample_float_str
    (form_scores (fun skill => if String.eqb skill "Trust" then 8%Z else 1%Z))
  = Ret (200 # 100)%Q.
Proof.
  destruct (@saved_form_rates_every_skill sample_float_str
              (fun skill => if String.eqb skill "Trust" then 8%Z else 1%Z))
    as (_ & _ & s & Hs & Hmean & _).
  - intros skill Hin. cbn in Hin.
    repeat (destruct Hin as [<- | Hin]; [cbn; lia |]).
    destruct Hin.
  - rewrite Hs, Hmean. reflexivity.
Defined.

(** ** A save, then a load *)











(** ** What a stage change leaves alone *)

(** X27. Whatever the table and the store hold and however the requests
    fail, a stage change leaves every worksheet other than its two alone;
    its destination is as before or has one row more at its end, and its
    source is as before or lacks its spreadsheet row [row_index + 2]. *)
Theorem stage_change_touches_two_worksheets :
  forall (str_num : Q -> string) (c : stage_change) (main_ws other_ws : string)
         (df : DataFrame) (row_index : nat) (w : world),
    main_ws <> other_ws ->
    let source := source_of c main_ws other_ws in
    let dest := dest_of c main_ws other_ws in
    let w' := snd (stage_change_run str_num c main_ws other_ws df row_index w) in
    (forall title, title <> main_ws -> title <> other_ws ->
       find_sheet (sheets (remote w')) title
       = find_sheet (sheets (remote w)) title)
    /\ (forall gd, find_sheet (sheets (remote w)) dest = Some gd ->
          find_sheet (sheets (remote w')) dest = Some gd
          \/ exists row, find_sheet (sheets (remote w')) dest
                         = Some (gd ++ [row]))
    /\ (forall gs, find_sheet (sheets (remote w)) source = Some gs ->
          find_sheet (sheets (remote w')) source = Some gs
          \/ find_sheet (sheets (remote w')) source
             = Some (grid_delete gs (row_index + 2))).
Proof.
  intros str_num c main_ws other_ws df row_index w Hne source dest w'.
  assert (Hsd : source <> dest)
    by (unfold source, dest; destruct c; cbn; congruence).
  assert (Hpair : forall title, title <> main_ws -> title <> other_ws ->
                    title <> source /\ title <> dest)
    by (intros title H1 H2; unfold source, dest; destruct c; cbn; tauto).
  assert (Hrun : transition_run str_num source dest df row_index w w').
  { unfold w'. rewrite stage_change_is_transition.
    exact (proj1 (proj2 (transition_runs str_num source dest (moved_message c)
                           (failed_message c) df row_index w))). }
  destruct Hrun as [e _ _ Hs | row_data _ _ _ Hs | row_data _ _ _ Hs
                   | row_data g deleted appended _ Hg Happ _ Hs];
    try (rewrite Hs; split; [reflexivity | split; intros ? H; left; exact H]).
  assert (Hsrc : find_sheet appended source
                 = find_sheet (sheets (remote w)) source)
    by (rewrite Happ; apply find_put_other; congruence).
  rewrite Hs. split; [| split].
  - intros title H1 H2. destruct (Hpair title H1 H2) as [Hts Htd].
    assert (Ha : find_sheet appended title
                 = find_sheet (sheets (remote w)) title)
      by (rewrite Happ; apply find_put_other; congruence).
    destruct deleted; [| exact Ha].
    destruct (find_sheet appended source); [| exact Ha].
    rewrite find_put_other by congruence. exact Ha.
  - intros gd Hgd. right. assert (gd = g) by congruence. subst gd.
    eexists.
    assert (Ha : find_sheet appended dest = Some (g ++ [_]))
      by (rewrite Happ; apply find_put_same with (g := g); exact Hg).
    destruct deleted; [| exact Ha].
    destruct (find_sheet appended source); [| exact Ha].
    rewrite find_put_other by exact Hsd. exact Ha.
  - intros gs Hgs. rewrite Hgs in Hsrc.
    destruct deleted; [| left; exact Hsrc].
    rewrite Hsrc. right.
    apply find_put_same with (g := gs). exact Hsrc.
Qed.

(** A deny does not touch the worksheet of the hired. *)
Lemma stage_change_touches_two_worksheets_witness :
  find_sheet
    (sheets (remote (snd (move_applicant_to_denied sample_str_num SHEET_NAME
                            DENIED_SHEET_NAME alice_df 0 reorder_world))))
    HIRED_SHEET_NAME
  = Some [[VStr "name"; VStr "Trust"]].
Proof.
  destruct (@stage_change_touches_two_worksheets sample_str_num Deny
              SHEET_NAME DENIED_SHEET_NAME alice_df 0 reorder_world)
    as (Hother & _).
  - discriminate.
  - apply (Hother HIRED_SHEET_NAME); discriminate.
Defined.
